(** * Credential broker and fetch-target resolver of the Gerrit resource

    A shallow embedding of the Go sources
      - [src/unnamed/part_001]        (in.go, resolver over [Source]),
      - [src/gerrit/in.go] l.1-312    (in.go, resolver over [inParams]),
      - [src/gerrit/in.go] l.313-572  (auth.go with the ssh-agent),
      - [src/gerrit/auth.go]          (auth.go without the agent),
    together with the properties that the specification states about them.

    Go strings are byte sequences: they are modelled by [string] (a list of
    8-bit [ascii]).  Go maps are [gmap]s.  A Go result pair [(v, err)] is a
    pair whose second component is an [option error] ([None] is [nil]). *)

From Stdlib Require Import String Ascii ZArith Lia.
From stdpp Require Import base option list strings gmap.

Local Open Scope Z_scope.

(** ** The [strings] package of the Go standard library *)

Module GoStrings.

(** [s[:k]] and [s[k:]] for [k <= len(s)]. *)
Fixpoint sliceTo (k : nat) (s : string) {struct k} : string :=
  match k, s with
  | S k', String c s' => String c (sliceTo k' s')
  | _, _ => EmptyString
  end.

Fixpoint sliceFrom (k : nat) (s : string) {struct k} : string :=
  match k, s with
  | S k', String _ s' => sliceFrom k' s'
  | _, _ => s
  end.

(** [strings.HasPrefix(s, prefix)]. *)
Fixpoint HasPrefix (s prefix : string) {struct prefix} : bool :=
  match prefix, s with
  | EmptyString, _ => true
  | String p prefix', String c s' => Ascii.eqb c p && HasPrefix s' prefix'
  | String _ _, EmptyString => false
  end.

(** [strings.Index(s, substr)]: the offset of the first occurrence. *)
Fixpoint Index (s substr : string) : option nat :=
  if HasPrefix s substr then Some O
  else match s with
       | EmptyString => None
       | String _ s' => S <$> Index s' substr
       end.

(** [strings.Contains(s, substr)] is [Index(s, substr) >= 0]. *)
Definition Contains (s substr : string) : bool :=
  match Index s substr with Some _ => true | None => false end.

(** Membership of one byte in a string. *)
Fixpoint hasByte (c : ascii) (s : string) : bool :=
  match s with
  | EmptyString => false
  | String d s' => Ascii.eqb d c || hasByte c s'
  end.

(** [strings.ContainsAny(s, chars)] for a set [chars] of ASCII characters
    (there the search by code point and the search by byte agree). *)
Fixpoint ContainsAny (s chars : string) : bool :=
  match s with
  | EmptyString => false
  | String c s' => hasByte c chars || ContainsAny s' chars
  end.

(** [strings.Count(s, sep)] for a non-empty [sep]: non-overlapping
    occurrences, found from the left.  The fuel is the length of [s]. *)
Fixpoint countFrom (fuel : nat) (s sep : string) : nat :=
  match fuel with
  | O => O
  | S fuel' =>
      match Index s sep with
      | None => O
      | Some i => S (countFrom fuel' (sliceFrom (i + String.length sep) s) sep)
      end
  end.

Definition Count (s sep : string) : nat := countFrom (String.length s) s sep.

(** The loop of [genSplit]:
<<
    for i < n {
      m := Index(s, sep); if m < 0 { break }
      a[i] = s[:m+sepSave]; s = s[m+len(sep):]; i++
    }
    a[i] = s
>>
    [k] is the bound [n] of the loop. *)
Fixpoint cut (k : nat) (s sep : string) (sepSave : nat) : list string :=
  match k with
  | O => [s]
  | S k' =>
      match Index s sep with
      | None => [s]
      | Some m =>
          sliceTo (m + sepSave) s
            :: cut k' (sliceFrom (m + String.length sep) s) sep sepSave
      end
  end.

(** [explode(s, n)] splits [s] into its characters, at most [n] pieces.  It
    only runs for an empty separator, which no caller in this program passes;
    it is given for single-byte characters. *)
Fixpoint explode (k : nat) (s : string) : list string :=
  match k, s with
  | O, _ => []
  | _, EmptyString => []
  | S O, _ => [s]
  | S k', String c s' => String c EmptyString :: explode k' s'
  end.

(** [genSplit(s, sep, sepSave, n)]. *)
Definition genSplit (s sep : string) (sepSave : nat) (n : Z) : list string :=
  if n =? 0 then []
  else if decide (sep = EmptyString) then
    explode (if n <? 0 then String.length s else Z.to_nat n) s
  else
    let n1 := if n <? 0 then Z.of_nat (Count s sep) + 1 else n in
    let n2 :=
      if n1 >? Z.of_nat (String.length s) + 1
      then Z.of_nat (String.length s) + 1 else n1 in
    cut (Z.to_nat (n2 - 1)) s sep sepSave.

(** [strings.Split(s, sep)] and [strings.SplitAfterN(s, sep, n)]. *)
Definition Split (s sep : string) : list string := genSplit s sep 0 (-1).

Definition SplitAfterN (s sep : string) (n : Z) : list string :=
  genSplit s sep (String.length sep) n.

End GoStrings.

(** ** Errors and formatted messages

    [errors.New] and [fmt.Errorf] build the program's error values; the
    operating system supplies the others.  A formatted value keeps its format
    string and its arguments, as the call site writes them. *)

Inductive error : Type :=
  | errors_New (text : string)
  | fmt_Errorf (format : string) (args : list fmtArg)
  | sys_Error (text : string)
with fmtArg : Type :=
  | ArgString (s : string)
  | ArgInt (n : Z)
  | ArgStrings (l : list string)
  | ArgError (e : error).

(** ** The [gerrit] client package (golang.org/x/build/gerrit)

    Only the fields that this program reads.  The values of the [Fetch] map
    are pointers in Go; the REST client allocates every one of them. *)

Module gerrit.

Record FetchInfo : Type := { URL : string; FetchInfo_Ref : string }.

Record RevisionInfo : Type := {
  Ref : string;
  Fetch : gmap string FetchInfo
}.

Inductive Auth : Type :=
  | BasicAuth (username password : string)
  | DigestAuth (username password : string)
  | GitCookieFileAuth (file : string)
  | NoAuth.

End gerrit.

(** Modelled from the spec: the declaration of the [Source] struct is not
    among the sources.  These are the configuration fields of the
    specification's data model that [newAuthManager] and [resolveFetchUrlRef]
    read, under the names the code uses for them. *)
Record Source : Type := {
  Cookies : string;
  Username : string;
  Password : string;
  DigestAuth : bool;
  PrivateKey : string;
  PrivateKeyPassphrase : string;
  PrivateKeyUser : string;
  FetchProtocol : string;
  FetchUrl : string
}.

(** [defaultFetchProtocols = []string{"http", "anonymous http"}] *)
Definition defaultFetchProtocols : list string :=
  ["http"; "anonymous http"]%string.

(** The loop over the default protocols:
<<
    for _, proto := range defaultFetchProtocols {
      if _, ok := rev.Fetch[proto]; ok { fetchProtocol = proto; break }
    }
>> *)
Fixpoint firstFetchProtocol (protos : list string)
    (fetch : gmap string gerrit.FetchInfo) (fetchProtocol : string) : string :=
  match protos with
  | [] => fetchProtocol
  | proto :: protos' =>
      match fetch !! proto with
      | Some _ => proto
      | None => firstFetchProtocol protos' fetch fetchProtocol
      end
  end.

(** *** [resolveFetchUrlRef(src Source, rev)], src/unnamed/part_001 l.278-315

    The three results are [(url, ref, err)].  The early return out of the
    rewrite, an error with empty strings for the URL and the ref, is the
    [inr] of [rewritten]. *)
Module Resolver.

Definition resolveFetchUrlRef (src : Source) (rev : gerrit.RevisionInfo)
    : string * string * option error :=
  let url := FetchUrl src in
  let rewritten : string + error :=
    if decide (PrivateKeyUser src <> EmptyString) then
      if negb (GoStrings.HasPrefix url "ssh://") then
        inr (fmt_Errorf
               "FetchUrl '%v' is not an ssh url, but PrivateKeyUser was set"
               [ArgString url])
      else
        let parts := GoStrings.SplitAfterN url "ssh://" 2 in
        match parts with
        | [part0; part1] =>
            (* fmt.Sprintf("%s%s@%s", parts[0], PrivateKeyUser, parts[1]) *)
            inl (part0 +:+ PrivateKeyUser src +:+ "@" +:+ part1)
        | _ =>
            inr (fmt_Errorf
                   "Unable to split fetchUrl %v to insert the privateKeyUser, got the wrong length: %v for %v"
                   [ArgString url; ArgInt (Z.of_nat (length parts));
                    ArgStrings parts])
        end
    else inl url in
  match rewritten with
  | inr err => (EmptyString, EmptyString, Some err)
  | inl url =>
      let ref := gerrit.Ref rev in
      if decide (url = EmptyString) then
        let fetchProtocol := FetchProtocol src in
        let fetchProtocol :=
          if decide (fetchProtocol = EmptyString)
          then firstFetchProtocol defaultFetchProtocols (gerrit.Fetch rev)
                 fetchProtocol
          else fetchProtocol in
        match gerrit.Fetch rev !! fetchProtocol with
        | Some fetchInfo =>
            (gerrit.URL fetchInfo, gerrit.FetchInfo_Ref fetchInfo, None)
        | None =>
            (url, ref,
             Some (fmt_Errorf "no fetch info for protocol %q"
                     [ArgString fetchProtocol]))
        end
      else (url, ref, None)
  end.

End Resolver.

(** *** [resolveFetchUrlRef(params inParams, rev)], src/gerrit/in.go l.251-288

    The same function over the [in] parameters; it passes the count 1 to
    [strings.SplitAfterN]. *)
Module ParamsResolver.

Record inParams : Type := {
  FetchProtocol : string;
  FetchUrl : string;
  PrivateKey : string;
  PrivateKeyUser : string;
  Depth : Z
}.

Definition resolveFetchUrlRef (params : inParams) (rev : gerrit.RevisionInfo)
    : string * string * option error :=
  let url := FetchUrl params in
  let rewritten : string + error :=
    if decide (PrivateKeyUser params <> EmptyString) then
      if negb (GoStrings.HasPrefix url "ssh://") then
        inr (fmt_Errorf
               "FetchUrl '%v' is not an ssh url, but PrivateKeyUser was set"
               [ArgString url])
      else
        let parts := GoStrings.SplitAfterN url "ssh://" 1 in
        match parts with
        | [part0; part1] =>
            (* fmt.Sprintf("%s%s@%s", parts[0], PrivateKeyUser, parts[1]) *)
            inl (part0 +:+ PrivateKeyUser params +:+ "@" +:+ part1)
        | _ =>
            inr (fmt_Errorf
                   "Unable to split fetchUrl %v to insert the privateKeyUser, got the wrong length: %v for %v"
                   [ArgString url; ArgInt (Z.of_nat (length parts));
                    ArgStrings parts])
        end
    else inl url in
  match rewritten with
  | inr err => (EmptyString, EmptyString, Some err)
  | inl url =>
      let ref := gerrit.Ref rev in
      if decide (url = EmptyString) then
        let fetchProtocol := FetchProtocol params in
        let fetchProtocol :=
          if decide (fetchProtocol = EmptyString)
          then firstFetchProtocol defaultFetchProtocols (gerrit.Fetch rev)
                 fetchProtocol
          else fetchProtocol in
        match gerrit.Fetch rev !! fetchProtocol with
        | Some fetchInfo =>
            (gerrit.URL fetchInfo, gerrit.FetchInfo_Ref fetchInfo, None)
        | None =>
            (url, ref,
             Some (fmt_Errorf "no fetch info for protocol %q"
                     [ArgString fetchProtocol]))
        end
      else (url, ref, None)
  end.

End ParamsResolver.

(** ** The operating system

    Files, the process environment, the subprocesses that were run and the
    log, as far as the broker touches them.  A call that can fail takes its
    outcome from [oracle], the list of the outcomes of the calls to come: a
    failure, or a success with the datum that the call cannot choose itself
    (the random part of a temporary name, the output of a subprocess, the
    path of the executable).  When the list is used up every call succeeds. *)

Module os.

Record File : Type := { perm : N; data : string }.

Record Outcome : Type := { failure : option error; payload : string }.

(** An entry of [cmd.Env] beyond [os.Environ()]: a literal [NAME=value], or
    [SSH_ASKPASS=] followed by
    [path.Join(path.Dir(executablePath), "askpass.sh")]. *)
Inductive EnvVar : Type :=
  | Assign (assignment : string)
  | AskPass (executablePath : string).

(** A subprocess that was run: its arguments, and what was appended to
    [os.Environ()] for it ([None]: [cmd.Env] was left unset). *)
Record Command : Type := { argv : list string; env : option (list EnvVar) }.

Record World : Type := {
  files : gmap string File;
  environ : gmap string string;
  commands : list Command;
  logged : list (string * list fmtArg);
  oracle : list Outcome
}.

Definition set_files (f : gmap string File -> gmap string File) (w : World) : World :=
  {| files := f (files w); environ := environ w; commands := commands w;
     logged := logged w; oracle := oracle w |}.

Definition set_environ (f : gmap string string -> gmap string string) (w : World) : World :=
  {| files := files w; environ := f (environ w); commands := commands w;
     logged := logged w; oracle := oracle w |}.

Definition add_command (c : Command) (w : World) : World :=
  {| files := files w; environ := environ w; commands := commands w ++ [c];
     logged := logged w; oracle := oracle w |}.

(** [log.Printf(format, args...)] *)
Definition Printf (format : string) (args : list fmtArg) (w : World) : World :=
  {| files := files w; environ := environ w; commands := commands w;
     logged := logged w ++ [(format, args)]; oracle := oracle w |}.

(** The outcome of the next fallible call. *)
Definition next (w : World) : Outcome * World :=
  match oracle w with
  | [] => ({| failure := None; payload := EmptyString |}, w)
  | o :: rest =>
      (o, {| files := files w; environ := environ w; commands := commands w;
             logged := logged w; oracle := rest |})
  end.

Definition ErrNotExist : error := sys_Error "no such file or directory".
Definition ErrExist : error := sys_Error "file exists".
Definition EINVAL : error := sys_Error "invalid argument".

(** [os.TempDir()] *)
Definition TempDir (w : World) : string :=
  match environ w !! "TMPDIR"%string with
  | Some dir => if decide (dir = EmptyString) then "/tmp"%string else dir
  | None => "/tmp"%string
  end.

(** The pattern of [ioutil.TempFile] is cut at its last ["*"]. *)
Fixpoint prefixAndSuffix (pattern : string) : string * string :=
  match pattern with
  | EmptyString => (EmptyString, EmptyString)
  | String c rest =>
      if GoStrings.hasByte "*"%char rest then
        let '(prefix, suffix) := prefixAndSuffix rest in (String c prefix, suffix)
      else if Ascii.eqb c "*"%char then (EmptyString, rest)
      else (pattern, EmptyString)
  end.

(** [ioutil.TempFile(dir, pattern)], returning the name of the new file.
    The file is created empty with mode 0600 under a name that is not in
    use; the oracle gives the random part of the name. *)
Definition TempFile (dir pattern : string) (w : World)
    : string * option error * World :=
  let '(o, w) := next w in
  match failure o with
  | Some e => (EmptyString, Some e, w)
  | None =>
      let dir := if decide (dir = EmptyString) then TempDir w else dir in
      let '(prefix, suffix) := prefixAndSuffix pattern in
      let name := dir +:+ "/" +:+ prefix +:+ payload o +:+ suffix in
      match files w !! name with
      | Some _ => (EmptyString, Some ErrExist, w)
      | None =>
          (name, None,
           set_files <[name := {| perm := 384%N; data := EmptyString |}]> w)
      end
  end.

(** [os.Chmod(name, mode)] *)
Definition Chmod (name : string) (mode : N) (w : World) : option error * World :=
  let '(o, w) := next w in
  match failure o with
  | Some e => (Some e, w)
  | None =>
      match files w !! name with
      | None => (Some ErrNotExist, w)
      | Some f =>
          (None, set_files <[name := {| perm := mode; data := data f |}]> w)
      end
  end.

(** [f.Write(b)] and [f.WriteString(s)] on the open file called [name]:
    the bytes are appended; a failed write leaves the file as it was. *)
Definition Write (name contents : string) (w : World) : option error * World :=
  let '(o, w) := next w in
  match failure o with
  | Some e => (Some e, w)
  | None =>
      (None,
       set_files
         (alter (fun f => {| perm := perm f; data := data f +:+ contents |}) name)
         w)
  end.

(** [f.Truncate(0)] *)
Definition Truncate (name : string) (w : World) : option error * World :=
  let '(o, w) := next w in
  match failure o with
  | Some e => (Some e, w)
  | None =>
      (None,
       set_files
         (alter (fun f => {| perm := perm f; data := EmptyString |}) name) w)
  end.

(** [os.Remove(name)] *)
Definition Remove (name : string) (w : World) : option error * World :=
  let '(o, w) := next w in
  match failure o with
  | Some e => (Some e, w)
  | None =>
      match files w !! name with
      | None => (Some ErrNotExist, w)
      | Some _ => (None, set_files (delete name) w)
      end
  end.

(** [os.Setenv(key, value)]: an empty key, a key with ["="] or NUL and a
    value with NUL are refused. *)
Definition Setenv (key value : string) (w : World) : option error * World :=
  if decide (key = EmptyString) then (Some EINVAL, w)
  else if GoStrings.hasByte "="%char key || GoStrings.hasByte zero key
          || GoStrings.hasByte zero value
  then (Some EINVAL, w)
  else (None, set_environ <[key := value]> w).

(** [cmd.CombinedOutput()] and [cmd.Run()]: the subprocess is recorded; its
    output and its status come from the oracle. *)
Definition CombinedOutput (c : Command) (w : World)
    : string * option error * World :=
  let '(o, w) := next w in (payload o, failure o, add_command c w).

Definition Run (c : Command) (w : World) : option error * World :=
  let '(o, w) := next w in (failure o, add_command c w).

(** [os.Executable()] *)
Definition Executable (w : World) : string * option error * World :=
  let '(o, w) := next w in
  match failure o with
  | Some e => (EmptyString, Some e, w)
  | None => (payload o, None, w)
  end.

End os.

(** ** Temporary files of the broker

    [writeAuthTempFile] and [storePrivateKey] read the same in both versions
    of auth.go (src/gerrit/in.go l.532-572, src/gerrit/auth.go). *)

(** The package variable [authTempDir], the empty string. *)
Definition authTempDir : string := EmptyString.

Definition LF : string := String (ascii_of_nat 10) EmptyString.
Definition NUL : string := String zero EmptyString.

(** The characters that [credsPath] refuses: ["\x00\n"]. *)
Definition invalidCredChars : string := NUL +:+ LF.

Definition writeAuthTempFile (suffix contents : string) (w : os.World)
    : string * option error * os.World :=
  let '(name, err, w) := os.TempFile authTempDir suffix w in
  match err with
  | Some e => (EmptyString, Some e, w)
  | None =>
      let '(err, w) := os.Write name contents w in
      match err with
      | Some e => (name, Some e, w)
      | None => (name, None, w)
      end
  end.

Definition storePrivateKey (privateKey : string) (w : os.World)
    : string * option error * os.World :=
  if decide (privateKey = EmptyString) then (EmptyString, None, w)
  else
    let '(name, err, w) := os.TempFile EmptyString "gerrit-resource-private-key-*" w in
    match err with
    | Some e =>
        (EmptyString, Some (fmt_Errorf "Error storing private key: %v" [ArgError e]), w)
    | None =>
        (* the result of Chmod is overwritten by the result of Write *)
        let '(_, w) := os.Chmod name 384%N w in
        let '(err, w) := os.Write name privateKey w in
        let privateKeyPath := name in
        match err with
        | Some e =>
            let '(err2, w) := os.Truncate name w in
            let err2str :=
              match err2 with
              | Some e2 => [ArgString " "; ArgError e2]
              | None => [ArgString EmptyString]
              end in
            (privateKeyPath,
             Some (fmt_Errorf "Error writing to private key file: %v%v"
                     (ArgError e :: err2str)), w)
        | None => (privateKeyPath, None, w)
        end
    end.

(** One round of the loop of [cleanup] over the two path fields, the same in
    both versions:
    the file that the field names is removed with [os.Remove], a failure is
    logged with [log.Printf] and is not returned.  The caller empties the
    field. *)
Definition removeAuthTempFile (path : string) (w : os.World) : os.World :=
  let '(err, w) := os.Remove path w in
  match err with
  | Some e =>
      os.Printf "error removing auth temp file %q: %s" [ArgString path; ArgError e] w
  | None => w
  end.

(** ** The broker with the authentication agent, src/gerrit/in.go l.346-530 *)

Module AgentAuth.

Record authManager : Type := {
  cookies : string;
  cookiesPath_ : string;
  username : string;
  password : string;
  digest : bool;
  sshPrivateKeyPassphrase : string;
  sshPrivateKey : string;
  credsPath_ : string;
  sshAgentVars : list string
}.

Definition set_cookiesPath_ (p : string) (am : authManager) : authManager :=
  {| cookies := cookies am; cookiesPath_ := p; username := username am;
     password := password am; digest := digest am;
     sshPrivateKeyPassphrase := sshPrivateKeyPassphrase am;
     sshPrivateKey := sshPrivateKey am; credsPath_ := credsPath_ am;
     sshAgentVars := sshAgentVars am |}.

Definition set_credsPath_ (p : string) (am : authManager) : authManager :=
  {| cookies := cookies am; cookiesPath_ := cookiesPath_ am;
     username := username am; password := password am; digest := digest am;
     sshPrivateKeyPassphrase := sshPrivateKeyPassphrase am;
     sshPrivateKey := sshPrivateKey am; credsPath_ := p;
     sshAgentVars := sshAgentVars am |}.

Definition set_sshAgentVars (vars : list string) (am : authManager) : authManager :=
  {| cookies := cookies am; cookiesPath_ := cookiesPath_ am;
     username := username am; password := password am; digest := digest am;
     sshPrivateKeyPassphrase := sshPrivateKeyPassphrase am;
     sshPrivateKey := sshPrivateKey am; credsPath_ := credsPath_ am;
     sshAgentVars := vars |}.

(** The same broker with another key and passphrase. *)
Definition with_ssh_key (key passphrase : string) (am : authManager) : authManager :=
  {| cookies := cookies am; cookiesPath_ := cookiesPath_ am;
     username := username am; password := password am; digest := digest am;
     sshPrivateKeyPassphrase := passphrase;
     sshPrivateKey := key; credsPath_ := credsPath_ am;
     sshAgentVars := sshAgentVars am |}.

Definition newAuthManager (source : Source) : authManager :=
  {| cookies := Cookies source; cookiesPath_ := EmptyString;
     username := Username source; password := Password source;
     digest := DigestAuth source;
     sshPrivateKeyPassphrase := PrivateKeyPassphrase source;
     sshPrivateKey := PrivateKey source; credsPath_ := EmptyString;
     sshAgentVars := [] |}.

Definition sshKillAgent (am : authManager) (w : os.World)
    : authManager * os.World :=
  match sshAgentVars am with
  | _ :: _ =>
      let cmd :=
        {| os.argv := ["ssh-agent"; "-k"]%string;
           os.env := Some (os.Assign <$> sshAgentVars am) |} in
      let '(_, w) := os.Run cmd w in
      (set_sshAgentVars [] am, w)
  | [] => (am, w)
  end.

(** The body of the loop over the lines of the agent's output, l.401-410:
    [vars] grows and the process environment is written. *)
Definition scanLine (s : string) (st : list string * os.World)
    : list string * os.World :=
  let '(vars, w) := st in
  match GoStrings.Split s ";" with
  | assignment0 :: _ =>
      if GoStrings.Contains assignment0 "=" then
        let vars := vars ++ [assignment0] in
        match GoStrings.Split assignment0 "=" with
        | envVar0 :: envVar1 :: _ =>
            let '(_, w) := os.Setenv envVar0 envVar1 w in (vars, w)
        | _ => (vars, w)
        end
      else (vars, w)
  | [] => (vars, w)
  end.

(** The parsing of the agent's startup output, l.399-410. *)
Definition scanAgentOutput (output : string) (w : os.World)
    : list string * os.World :=
  foldl (fun st s => scanLine s st) ([], w) (GoStrings.Split output LF).

(** [sshAddKey].  Inside the block of the [if] the first [:=]
    declares a new [err]; the [return err] after the block returns the
    function's own result variable, which is still [nil]. *)
Definition sshAddKey (am : authManager) (w : os.World)
    : option error * authManager * os.World :=
  let err : option error := None in
  if decide (sshPrivateKey am <> EmptyString) then
    let '(credsPath, err', w) := storePrivateKey (sshPrivateKey am) w in
    match err' with
    | Some e => (Some e, am, w)
    | None =>
        (* ensure that this will be cleaned up at the end *)
        let am := set_credsPath_ credsPath am in
        let '(output, err', w) :=
          os.CombinedOutput
            {| os.argv := ["ssh-agent"; "-s"]%string; os.env := None |} w in
        match err' with
        | Some e => (Some e, am, w)
        | None =>
            let '(vars, w) := scanAgentOutput output w in
            let am := set_sshAgentVars vars am in
            (* [if err != nil { return err }]: err is nil here *)
            let '(executablePath, err', w) := os.Executable w in
            match err' with
            | Some e => (Some e, am, w)
            | None =>
                let vars :=
                  (os.Assign <$> vars) ++
                  [os.Assign ("GIT_SSH_PRIVATE_KEY_PASS=" +:+ sshPrivateKeyPassphrase am);
                   os.Assign "SSH_ASKPASS_REQUIRE=force";
                   os.AskPass executablePath;
                   os.Assign "DISPLAY="] in
                let '(_, err', w) :=
                  os.CombinedOutput
                    {| os.argv := ["ssh-add"; credsPath]%string;
                       os.env := Some vars |} w in
                (err, am, w)
            end
        end
    end
  else (err, am, w).

Definition cookiesPath (am : authManager) (w : os.World)
    : string * option error * authManager * os.World :=
  if decide (cookies am = EmptyString) then (EmptyString, None, am, w)
  else if decide (cookiesPath_ am = EmptyString) then
    let '(path, err, w) :=
      writeAuthTempFile "concourse-gerrit-cookies" (cookies am) w in
    let am := set_cookiesPath_ path am in
    (cookiesPath_ am, err, am, w)
  else (cookiesPath_ am, None, am, w).

Definition credsPath (am : authManager) (w : os.World)
    : string * option error * authManager * os.World :=
  if decide (username am = EmptyString) then (EmptyString, None, am, w)
  else if decide (credsPath_ am = EmptyString /\ sshPrivateKey am = EmptyString) then
    (* See: https://www.kernel.org/pub/software/scm/git/docs/git-credential.html#IOFMT *)
    if GoStrings.ContainsAny (username am) invalidCredChars
       || GoStrings.ContainsAny (password am) invalidCredChars
    then
      (EmptyString,
       Some (errors_New "invalid character in username or password"), am, w)
    else
      let '(path, err, w) :=
        writeAuthTempFile "concourse-gerrit-creds"
          ("username=" +:+ username am +:+ LF +:+
           "password=" +:+ password am +:+ LF) w in
      let am := set_credsPath_ path am in
      (credsPath_ am, err, am, w)
  else (credsPath_ am, None, am, w).

Definition gerritAuth (am : authManager) (w : os.World)
    : option gerrit.Auth * option error * authManager * os.World :=
  if decide (username am <> EmptyString) then
    if digest am
    then (Some (gerrit.DigestAuth (username am) (password am)), None, am, w)
    else (Some (gerrit.BasicAuth (username am) (password am)), None, am, w)
  else if decide (password am <> EmptyString) then
    (None, Some (errors_New "Password specified but username is blank"), am, w)
  else if decide (cookies am <> EmptyString) then
    let '(cookiesPath, err, am, w) := cookiesPath am w in
    match err with
    | Some e => (None, Some e, am, w)
    | None => (Some (gerrit.GitCookieFileAuth cookiesPath), None, am, w)
    end
  else (Some gerrit.NoAuth, None, am, w).

(** The last part of [gitConfigArgs], the [if] on [am.cookies]. *)
Definition cookieFileArg (args : gmap string string) (am : authManager)
    (w : os.World)
    : option (gmap string string) * option error * authManager * os.World :=
  if decide (cookies am <> EmptyString) then
    let '(cookiesPath, err, am, w) := cookiesPath am w in
    match err with
    | Some e => (None, Some e, am, w)
    | None => (Some (<["http.cookieFile"%string := cookiesPath]> args), None, am, w)
    end
  else (Some args, None, am, w).

(** [gitConfigArgs]; the result of [am.sshAddKey()] is not looked at. *)
Definition gitConfigArgs (am : authManager) (w : os.World)
    : option (gmap string string) * option error * authManager * os.World :=
  let args : gmap string string := ∅ in
  if decide (sshPrivateKey am <> EmptyString) then
    let '(_, am, w) := sshAddKey am w in
    let args :=
      <["core.sshCommand"%string :=
          "ssh -F /dev/null -o StrictHostKeyChecking=no"%string]> args in
    cookieFileArg args am w
  else if decide (username am <> EmptyString) then
    let '(credsPath, err, am, w) := credsPath am w in
    match err with
    | Some e => (None, Some e, am, w)
    | None =>
        let args :=
          <["credential.helper"%string := ("!cat " +:+ credsPath)]> args in
        cookieFileArg args am w
    end
  else cookieFileArg args am w.

Definition cleanup (am : authManager) (w : os.World) : authManager * os.World :=
  let '(am, w) :=
    if decide (cookiesPath_ am <> EmptyString)
    then (set_cookiesPath_ EmptyString am, removeAuthTempFile (cookiesPath_ am) w)
    else (am, w) in
  let '(am, w) :=
    if decide (credsPath_ am <> EmptyString)
    then (set_credsPath_ EmptyString am, removeAuthTempFile (credsPath_ am) w)
    else (am, w) in
  let '(am, w) :=
    if decide (cookiesPath_ am <> EmptyString) then
      let '(err, w) := os.Remove (cookiesPath_ am) w in
      let w :=
        match err with
        | Some e => os.Printf "error removing cookies file: %s" [ArgError e] w
        | None => w
        end in
      (set_cookiesPath_ EmptyString am, w)
    else (am, w) in
  sshKillAgent am w.

End AgentAuth.

(** ** The broker without the agent, src/gerrit/auth.go *)

Module FileAuth.

Record authManager : Type := {
  cookies : string;
  cookiesPath_ : string;
  username : string;
  password : string;
  digest : bool;
  sshPrivateKey : string;
  credsPath_ : string
}.

Definition set_cookiesPath_ (p : string) (am : authManager) : authManager :=
  {| cookies := cookies am; cookiesPath_ := p; username := username am;
     password := password am; digest := digest am;
     sshPrivateKey := sshPrivateKey am; credsPath_ := credsPath_ am |}.

Definition set_credsPath_ (p : string) (am : authManager) : authManager :=
  {| cookies := cookies am; cookiesPath_ := cookiesPath_ am;
     username := username am; password := password am; digest := digest am;
     sshPrivateKey := sshPrivateKey am; credsPath_ := p |}.

(** The same broker with another key. *)
Definition with_ssh_key (key : string) (am : authManager) : authManager :=
  {| cookies := cookies am; cookiesPath_ := cookiesPath_ am;
     username := username am; password := password am; digest := digest am;
     sshPrivateKey := key; credsPath_ := credsPath_ am |}.

Definition newAuthManager (source : Source) : authManager :=
  {| cookies := Cookies source; cookiesPath_ := EmptyString;
     username := Username source; password := Password source;
     digest := DigestAuth source; sshPrivateKey := PrivateKey source;
     credsPath_ := EmptyString |}.

Definition cookiesPath (am : authManager) (w : os.World)
    : string * option error * authManager * os.World :=
  if decide (cookies am = EmptyString) then (EmptyString, None, am, w)
  else if decide (cookiesPath_ am = EmptyString) then
    let '(path, err, w) :=
      writeAuthTempFile "concourse-gerrit-cookies" (cookies am) w in
    let am := set_cookiesPath_ path am in
    (cookiesPath_ am, err, am, w)
  else (cookiesPath_ am, None, am, w).

Definition credsPath (am : authManager) (w : os.World)
    : string * option error * authManager * os.World :=
  if decide (username am = EmptyString) then (EmptyString, None, am, w)
  else if decide (credsPath_ am = EmptyString) then
    if decide (sshPrivateKey am <> EmptyString) then
      let '(path, err, w) := storePrivateKey (sshPrivateKey am) w in
      let am := set_credsPath_ path am in
      (credsPath_ am, err, am, w)
    else if GoStrings.ContainsAny (username am) invalidCredChars
            || GoStrings.ContainsAny (password am) invalidCredChars
    then
      (EmptyString,
       Some (errors_New "invalid character in username or password"), am, w)
    else
      let '(path, err, w) :=
        writeAuthTempFile "concourse-gerrit-creds"
          ("username=" +:+ username am +:+ LF +:+
           "password=" +:+ password am +:+ LF) w in
      let am := set_credsPath_ path am in
      (credsPath_ am, err, am, w)
  else (credsPath_ am, None, am, w).

Definition gerritAuth (am : authManager) (w : os.World)
    : option gerrit.Auth * option error * authManager * os.World :=
  if decide (username am <> EmptyString) then
    if digest am
    then (Some (gerrit.DigestAuth (username am) (password am)), None, am, w)
    else (Some (gerrit.BasicAuth (username am) (password am)), None, am, w)
  else if decide (password am <> EmptyString) then
    (None, Some (errors_New "Password specified but username is blank"), am, w)
  else if decide (cookies am <> EmptyString) then
    let '(cookiesPath, err, am, w) := cookiesPath am w in
    match err with
    | Some e => (None, Some e, am, w)
    | None => (Some (gerrit.GitCookieFileAuth cookiesPath), None, am, w)
    end
  else (Some gerrit.NoAuth, None, am, w).

(** The last part of [gitConfigArgs], the [if] on [am.cookies]. *)
Definition cookieFileArg (args : gmap string string) (am : authManager)
    (w : os.World)
    : option (gmap string string) * option error * authManager * os.World :=
  if decide (cookies am <> EmptyString) then
    let '(cookiesPath, err, am, w) := cookiesPath am w in
    match err with
    | Some e => (None, Some e, am, w)
    | None => (Some (<["http.cookieFile"%string := cookiesPath]> args), None, am, w)
    end
  else (Some args, None, am, w).

Definition gitConfigArgs (am : authManager) (w : os.World)
    : option (gmap string string) * option error * authManager * os.World :=
  let args : gmap string string := ∅ in
  if decide (sshPrivateKey am <> EmptyString) then
    (* -F /dev/null is paranoia to prevent any other ssh config from being used *)
    let '(credsPath, err, am, w) := credsPath am w in
    match err with
    | Some e => (None, Some e, am, w)
    | None =>
        let args :=
          <["core.sshCommand"%string :=
              ("ssh -i '" +:+ credsPath +:+
               "' -F /dev/null -o StrictHostKeyChecking=no")]> args in
        cookieFileArg args am w
    end
  else if decide (username am <> EmptyString) then
    let '(credsPath, err, am, w) := credsPath am w in
    match err with
    | Some e => (None, Some e, am, w)
    | None =>
        let args :=
          <["credential.helper"%string := ("!cat " +:+ credsPath)]> args in
        cookieFileArg args am w
    end
  else cookieFileArg args am w.

Definition cleanup (am : authManager) (w : os.World) : authManager * os.World :=
  let '(am, w) :=
    if decide (cookiesPath_ am <> EmptyString)
    then (set_cookiesPath_ EmptyString am, removeAuthTempFile (cookiesPath_ am) w)
    else (am, w) in
  let '(am, w) :=
    if decide (credsPath_ am <> EmptyString)
    then (set_credsPath_ EmptyString am, removeAuthTempFile (credsPath_ am) w)
    else (am, w) in
  if decide (cookiesPath_ am <> EmptyString) then
    let '(err, w) := os.Remove (cookiesPath_ am) w in
    let w :=
      match err with
      | Some e => os.Printf "error removing cookies file: %s" [ArgError e] w
      | None => w
      end in
    (set_cookiesPath_ EmptyString am, w)
  else (am, w).

End FileAuth.

(** ** Sequences of broker calls

    The states that a broker reaches from its construction by calls of
    [gerritAuth] and [gitConfigArgs], in any order and number. *)

Module AgentReach.
Import AgentAuth.

Inductive reachable : authManager -> os.World -> Prop :=
  | reach_new (source : Source) (w : os.World) :
      reachable (newAuthManager source) w
  | reach_gerritAuth am w auth err am' w' :
      reachable am w ->
      gerritAuth am w = (auth, err, am', w') ->
      reachable am' w'
  | reach_gitConfigArgs am w args err am' w' :
      reachable am w ->
      gitConfigArgs am w = (args, err, am', w') ->
      reachable am' w'.

End AgentReach.

Module FileReach.
Import FileAuth.

Inductive reachable : authManager -> os.World -> Prop :=
  | reach_new (source : Source) (w : os.World) :
      reachable (newAuthManager source) w
  | reach_gerritAuth am w auth err am' w' :
      reachable am w ->
      gerritAuth am w = (auth, err, am', w') ->
      reachable am' w'
  | reach_gitConfigArgs am w args err am' w' :
      reachable am w ->
      gitConfigArgs am w = (args, err, am', w') ->
      reachable am' w'.

End FileReach.

(** What [cleanup] leaves of a path: the file is gone, or the failure to
    remove it is in the log. *)
Definition removal_logged (path : string) (w : os.World) : Prop :=
  exists e : error,
    ("error removing auth temp file %q: %s"%string, [ArgString path; ArgError e])
    ∈ os.logged w.

Definition gone_or_logged (path : string) (w : os.World) : Prop :=
  os.files w !! path = None \/ removal_logged path w.

(** Two configurations that differ at most in the SSH key and its
    passphrase. *)
Definition same_but_ssh_key (s1 s2 : Source) : Prop :=
  Cookies s1 = Cookies s2 /\ Username s1 = Username s2 /\
  Password s1 = Password s2 /\ DigestAuth s1 = DigestAuth s2 /\
  PrivateKeyUser s1 = PrivateKeyUser s2 /\
  FetchProtocol s1 = FetchProtocol s2 /\ FetchUrl s1 = FetchUrl s2.

(** ** Sample inputs *)

Definition succeeds (datum : string) : os.Outcome :=
  {| os.failure := None; os.payload := datum |}.

Definition fails (text : string) : os.Outcome :=
  {| os.failure := Some (sys_Error text); os.payload := EmptyString |}.

(** An empty file system and environment, with the given outcomes to come. *)
Definition world_of (outcomes : list os.Outcome) : os.World :=
  {| os.files := ∅; os.environ := ∅; os.commands := []; os.logged := [];
     os.oracle := outcomes |}.

Definition rev0 : gerrit.RevisionInfo :=
  {| gerrit.Ref := "refs/changes/01/1/1"; gerrit.Fetch := ∅ |}.

Definition params_ci : ParamsResolver.inParams :=
  {| ParamsResolver.FetchProtocol := EmptyString;
     ParamsResolver.FetchUrl := "ssh://host/repo";
     ParamsResolver.PrivateKey := "KEY";
     ParamsResolver.PrivateKeyUser := "ci";
     ParamsResolver.Depth := 0 |}.

Definition anon_info : gerrit.FetchInfo :=
  {| gerrit.URL := "https://review.example.com/a/project";
     gerrit.FetchInfo_Ref := "refs/changes/01/1/2" |}.

Definition src_unset : Source :=
  {| Cookies := EmptyString; Username := EmptyString; Password := EmptyString;
     DigestAuth := false; PrivateKey := EmptyString;
     PrivateKeyPassphrase := EmptyString; PrivateKeyUser := EmptyString;
     FetchProtocol := EmptyString; FetchUrl := EmptyString |}.

Definition src_git_protocol : Source :=
  {| Cookies := EmptyString; Username := EmptyString; Password := EmptyString;
     DigestAuth := false; PrivateKey := EmptyString;
     PrivateKeyPassphrase := EmptyString; PrivateKeyUser := EmptyString;
     FetchProtocol := "git"; FetchUrl := EmptyString |}.

Definition src_cookies : Source :=
  {| Cookies := "review.example.com FALSE / TRUE 2147483647 o token";
     Username := EmptyString; Password := EmptyString;
     DigestAuth := false; PrivateKey := EmptyString;
     PrivateKeyPassphrase := EmptyString; PrivateKeyUser := EmptyString;
     FetchProtocol := EmptyString; FetchUrl := EmptyString |}.

Definition src_key : Source :=
  {| Cookies := EmptyString; Username := EmptyString; Password := EmptyString;
     DigestAuth := false; PrivateKey := "KEY";
     PrivateKeyPassphrase := "secret"; PrivateKeyUser := "ci";
     FetchProtocol := EmptyString; FetchUrl := "ssh://host/repo" |}.

(** A user name with a newline in it. *)
Definition src_bad_user : Source :=
  {| Cookies := EmptyString; Username := "ci" +:+ LF +:+ "host=evil";
     Password := "pw"; DigestAuth := false; PrivateKey := EmptyString;
     PrivateKeyPassphrase := EmptyString; PrivateKeyUser := EmptyString;
     FetchProtocol := EmptyString; FetchUrl := EmptyString |}.

(** The same user name next to an SSH key. *)
Definition src_bad_user_key : Source :=
  {| Cookies := EmptyString; Username := "ci" +:+ LF +:+ "host=evil";
     Password := "pw"; DigestAuth := false; PrivateKey := "KEY";
     PrivateKeyPassphrase := EmptyString; PrivateKeyUser := EmptyString;
     FetchProtocol := EmptyString; FetchUrl := EmptyString |}.

(** A password without a user name, without and with an SSH key. *)
Definition src_password_only : Source :=
  {| Cookies := EmptyString; Username := EmptyString; Password := "pw";
     DigestAuth := false; PrivateKey := EmptyString;
     PrivateKeyPassphrase := EmptyString; PrivateKeyUser := EmptyString;
     FetchProtocol := EmptyString; FetchUrl := EmptyString |}.

Definition src_password_only_key : Source :=
  {| Cookies := EmptyString; Username := EmptyString; Password := "pw";
     DigestAuth := false; PrivateKey := "KEY";
     PrivateKeyPassphrase := "secret"; PrivateKeyUser := EmptyString;
     FetchProtocol := EmptyString; FetchUrl := EmptyString |}.

Definition rev_anon_only : gerrit.RevisionInfo :=
  {| gerrit.Ref := "refs/changes/01/1/1";
     gerrit.Fetch := {[ "anonymous http" := anon_info ]} |}.

Definition rev_ssh_only : gerrit.RevisionInfo :=
  {| gerrit.Ref := "refs/changes/01/1/1";
     gerrit.Fetch := {[ "ssh" := anon_info ]} |}.

Definition rev_unnamed_protocol : gerrit.RevisionInfo :=
  {| gerrit.Ref := "refs/changes/01/1/1";
     gerrit.Fetch := {[ "ssh" := anon_info ]} ∪ {[ EmptyString := anon_info ]} |}.

(** What [ssh-agent -s] prints when its socket lies in a directory with an
    equals sign in its name (TMPDIR=/tmp/a=b). *)
Definition agent_output_eq : string :=
  "SSH_AUTH_SOCK=/tmp/a=b/ssh-XXXXXX/agent.41; export SSH_AUTH_SOCK;" +:+ LF +:+
  "SSH_AGENT_PID=42; export SSH_AGENT_PID;" +:+ LF +:+
  "echo Agent pid 42;" +:+ LF.

(** The usual output of [ssh-agent -s]. *)
Definition agent_output : string :=
  "SSH_AUTH_SOCK=/tmp/ssh-XXXXXX/agent.41; export SSH_AUTH_SOCK;" +:+ LF +:+
  "SSH_AGENT_PID=42; export SSH_AGENT_PID;" +:+ LF +:+
  "echo Agent pid 42;" +:+ LF.

Definition params_unset : ParamsResolver.inParams :=
  {| ParamsResolver.FetchProtocol := EmptyString;
     ParamsResolver.FetchUrl := EmptyString;
     ParamsResolver.PrivateKey := EmptyString;
     ParamsResolver.PrivateKeyUser := EmptyString;
     ParamsResolver.Depth := 0 |}.

(** [w'] comes after [w] in a teardown: no file has appeared and no log
    entry has been lost. *)
Definition keeps (w w' : os.World) : Prop :=
  (forall q : string, os.files w !! q = None -> os.files w' !! q = None)
  /\ (forall x, x ∈ os.logged w -> x ∈ os.logged w').

(** A string has a NUL byte or a newline in it. *)
Definition has_NUL_or_newline (s : string) : Prop :=
  GoStrings.hasByte zero s = true \/ GoStrings.hasByte (ascii_of_nat 10) s = true.

(** The outcomes of a run of [gerritAuth] that writes the cookie file: the
    temporary file and the write. *)
Definition cookie_run_ok : list os.Outcome :=
  [succeeds "123"; succeeds EmptyString].

(** The outcomes of a run of [gitConfigArgs] with a key in which every call
    succeeds: the temporary file, [Chmod], [Write], [ssh-agent -s],
    [os.Executable] and [ssh-add]. *)
Definition key_run_ok : list os.Outcome :=
  [succeeds "123"; succeeds EmptyString; succeeds EmptyString;
   succeeds agent_output; succeeds "/opt/resource/in"; succeeds EmptyString].

(** The same run when the key file cannot be created, when the agent does
    not start, and when [ssh-add] refuses the key. *)
Definition key_run_no_file : list os.Outcome :=
  [fails "no space left on device"].

Definition key_run_no_agent : list os.Outcome :=
  [succeeds "123"; succeeds EmptyString; succeeds EmptyString;
   fails "exec: ssh-agent: executable file not found in $PATH"].

Definition key_run_no_add : list os.Outcome :=
  [succeeds "123"; succeeds EmptyString; succeeds EmptyString;
   succeeds agent_output; succeeds "/opt/resource/in"; fails "exit status 1"].

(** The same run when the agent prints [agent_output_eq]. *)
Definition key_run_eq : list os.Outcome :=
  [succeeds "123"; succeeds EmptyString; succeeds EmptyString;
   succeeds agent_output_eq; succeeds "/opt/resource/in"; succeeds EmptyString].

(** The entries of a result of [gitConfigArgs], as a list. *)
Definition entries (args : option (gmap string string))
    : option (list (string * string)) :=
  map_to_list <$> args.

Definition ssh_command_args : gmap string string :=
  {[ "core.sshCommand" := "ssh -F /dev/null -o StrictHostKeyChecking=no" ]}.

(** The run with a key in which the write to the key file fails: the
    temporary file, [Chmod], the failed [Write], [Truncate]. *)
Definition key_run_no_write : list os.Outcome :=
  [succeeds "123"; succeeds EmptyString; fails "no space left on device";
   succeeds EmptyString].

(** ** The rest of in.go over [inParams], src/gerrit/in.go l.211-303

    [git] reads the same in src/unnamed/part_001 l.317-330. *)

Module ParamsIn.

Import ParamsResolver.

(** [fetchFlags(params, flags...)] *)
Definition fetchFlags (params : inParams) (flags : list string) : list string :=
  if 0 <? Depth params then flags ++ ["--depth=%v"] else flags.

(** [erasePrivateKey(privateKeyPath)] *)
Definition erasePrivateKey (privateKeyPath : string) (w : os.World)
    : option error * os.World :=
  if decide (privateKeyPath = EmptyString) then (None, w)
  else os.Remove privateKeyPath w.

(** [storePrivateKey(params)].  The result variable [privateKeyPath] is
    declared in the signature and no statement assigns to it. *)
Definition storePrivateKey (params : inParams) (w : os.World)
    : string * option error * os.World :=
  let privateKeyPath := EmptyString in
  if decide (PrivateKey params = EmptyString) then (privateKeyPath, None, w)
  else
    let '(name, err, w) := os.TempFile EmptyString "gerrit-resource-private-key-*" w in
    match err with
    | Some e =>
        (privateKeyPath,
         Some (fmt_Errorf "Error storing private key: %v" [ArgError e]), w)
    | None =>
        (* the result of Chmod is overwritten by the result of Write *)
        let '(_, w) := os.Chmod name 384%N w in
        let '(err, w) := os.Write name (PrivateKey params) w in
        match err with
        | Some e =>
            let '(err2, w) := os.Truncate name w in
            let err2str :=
              match err2 with
              | Some e2 => [ArgString " "; ArgError e2]
              | None => [ArgString EmptyString]
              end in
            (privateKeyPath,
             Some (fmt_Errorf "Error writing to private key file: %v%v"
                     (ArgError e :: err2str)), w)
        | None => (privateKeyPath, None, w)
        end
    end.

(** [git(dir, args...)], with [execGit = realExecGit]: the command and its
    output are logged, and a failure is wrapped. *)
Definition git (dir : string) (args : list string) (w : os.World)
    : option error * os.World :=
  let gitArgs := ["-C"; dir] ++ args in
  let w := os.Printf "git %v" [ArgStrings gitArgs] w in
  let '(output, err, w) :=
    os.CombinedOutput {| os.argv := "git" :: gitArgs; os.env := None |} w in
  let w := os.Printf ("git output:" +:+ LF +:+ "%s") [ArgString output] w in
  match err with
  | Some e => (Some (fmt_Errorf "git failed: %v" [ArgError e]), w)
  | None => (None, w)
  end.

End ParamsIn.

(** ** What the broker leaves alone *)

(** Every file of [w] is in [w'] as it was. *)
Definition files_kept (w w' : os.World) : Prop :=
  forall (q : string) (f : os.File),
    os.files w !! q = Some f -> os.files w' !! q = Some f.

(** The fields of the brokers that [newAuthManager] fills from the
    configuration. *)
Definition agent_config (am : AgentAuth.authManager)
    : string * string * string * bool * string * string :=
  (AgentAuth.cookies am, AgentAuth.username am, AgentAuth.password am,
   AgentAuth.digest am, AgentAuth.sshPrivateKey am,
   AgentAuth.sshPrivateKeyPassphrase am).

Definition file_config (am : FileAuth.authManager)
    : string * string * string * bool * string :=
  (FileAuth.cookies am, FileAuth.username am, FileAuth.password am,
   FileAuth.digest am, FileAuth.sshPrivateKey am).

(** The keys that [gitConfigArgs] may set. *)
Definition sshCommandKey : string := "core.sshCommand".
Definition credentialHelperKey : string := "credential.helper".
Definition cookieFileKey : string := "http.cookieFile".

(** The text of the credential file. *)
Definition credentialFile (username password : string) : string :=
  "username=" +:+ username +:+ LF +:+ "password=" +:+ password +:+ LF.

(** [w'] differs from [w] at most in its files and in the outcomes still to
    come: the environment, the subprocesses run and the log are the same. *)
Definition only_files (w w' : os.World) : Prop :=
  os.environ w' = os.environ w /\ os.commands w' = os.commands w
  /\ os.logged w' = os.logged w.

(** A file as [ioutil.TempFile] creates it, mode 0600, with the given
    contents. *)
Definition privateFile (contents : string) : os.File :=
  {| os.perm := 384; os.data := contents |}.

(** What a temporary file holds after the write to it: the contents, or
    nothing when the write failed. *)
Definition written (contents : string) (err : option error) : string :=
  match err with None => contents | Some _ => EmptyString end.

(** ** Further sample inputs *)

Definition src_user_http : Source :=
  {| Cookies := EmptyString; Username := EmptyString; Password := EmptyString;
     DigestAuth := false; PrivateKey := "KEY";
     PrivateKeyPassphrase := EmptyString; PrivateKeyUser := "ci";
     FetchProtocol := "http"; FetchUrl := "https://host/repo" |}.

Definition params_user_http : ParamsResolver.inParams :=
  {| ParamsResolver.FetchProtocol := "http";
     ParamsResolver.FetchUrl := "https://host/repo";
     ParamsResolver.PrivateKey := "KEY";
     ParamsResolver.PrivateKeyUser := "ci";
     ParamsResolver.Depth := 1 |}.

Definition src_url : Source :=
  {| Cookies := EmptyString; Username := EmptyString; Password := EmptyString;
     DigestAuth := false; PrivateKey := EmptyString;
     PrivateKeyPassphrase := EmptyString; PrivateKeyUser := EmptyString;
     FetchProtocol := "git"; FetchUrl := "https://host/repo" |}.

Definition params_url : ParamsResolver.inParams :=
  {| ParamsResolver.FetchProtocol := "git";
     ParamsResolver.FetchUrl := "https://host/repo";
     ParamsResolver.PrivateKey := EmptyString;
     ParamsResolver.PrivateKeyUser := EmptyString;
     ParamsResolver.Depth := 0 |}.

Definition src_ssh_protocol : Source :=
  {| Cookies := EmptyString; Username := EmptyString; Password := EmptyString;
     DigestAuth := false; PrivateKey := EmptyString;
     PrivateKeyPassphrase := EmptyString; PrivateKeyUser := EmptyString;
     FetchProtocol := "ssh"; FetchUrl := EmptyString |}.

Definition params_ssh_protocol : ParamsResolver.inParams :=
  {| ParamsResolver.FetchProtocol := "ssh";
     ParamsResolver.FetchUrl := EmptyString;
     ParamsResolver.PrivateKey := EmptyString;
     ParamsResolver.PrivateKeyUser := EmptyString;
     ParamsResolver.Depth := 0 |}.

Definition http_info : gerrit.FetchInfo :=
  {| gerrit.URL := "https://review.example.com/project";
     gerrit.FetchInfo_Ref := "refs/changes/01/1/3" |}.

Definition rev_http_and_anon : gerrit.RevisionInfo :=
  {| gerrit.Ref := "refs/changes/01/1/1";
     gerrit.Fetch := {[ "http" := http_info ]} ∪ {[ "anonymous http" := anon_info ]} |}.

Definition src_basic : Source :=
  {| Cookies := EmptyString; Username := "ci"; Password := "pw";
     DigestAuth := false; PrivateKey := EmptyString;
     PrivateKeyPassphrase := EmptyString; PrivateKeyUser := EmptyString;
     FetchProtocol := EmptyString; FetchUrl := EmptyString |}.

(** The outcomes of a run that stores a key and does nothing else: the
    temporary file, [Chmod] and [Write]. *)
Definition store_run_ok : list os.Outcome :=
  [succeeds "123"; succeeds EmptyString; succeeds EmptyString].

(** A run of [git] that fails. *)
Definition git_run_fails : list os.Outcome := [fails "exit status 128"].

(** * Properties *)

(** ** The fetch-target resolver *)

Section SplitAfterN.

Import GoStrings.

(** With the count 1 nothing is split off: the result is the whole string. *)
Lemma SplitAfterN_1 (s sep : string) :
  sep <> EmptyString -> SplitAfterN s sep 1 = [s].
Proof.
  intros Hsep. unfold SplitAfterN, genSplit.
  destruct (decide (sep = EmptyString)) as [->|_]; [done|].
  cbn [Z.eqb Z.ltb Z.compare].
  destruct (Z.gtb_spec 1 (Z.of_nat (String.length s) + 1)); [lia|].
  reflexivity.
Qed.

(** With the count 2 an [ssh://] URL is split behind its scheme. *)
Lemma SplitAfterN_ssh_2 (rest : string) :
  SplitAfterN ("ssh://" +:+ rest) "ssh://" 2 = ["ssh://"%string; rest].
Proof.
  unfold SplitAfterN, genSplit.
  destruct (decide ("ssh://"%string = EmptyString)) as [E|_]; [discriminate E|].
  cbn [Z.eqb Z.ltb Z.compare].
  set (len := String.length ("ssh://" +:+ rest)).
  assert (Hlen : (6 <= len)%nat) by (subst len; cbv [String.append]; cbn; lia).
  destruct (Z.gtb_spec 2 (Z.of_nat len + 1)); [lia|].
  cbv [String.append]. reflexivity.
Qed.

Lemma HasPrefix_app (p rest : string) : HasPrefix (p +:+ rest) p = true.
Proof.
  induction p as [|c p IH]; [done|].
  change (String c p +:+ rest) with (String c (p +:+ rest)).
  cbn [HasPrefix]. by rewrite Ascii.eqb_refl, IH.
Qed.

End SplitAfterN.

(** The resolver over [Source] inserts the user behind the scheme: for a
    non-empty [PrivateKeyUser] and a fetch URL [ssh://<rest>] it returns
    [ssh://<user>@<rest>] and the revision's own ref, without an error. *)
Lemma Resolver_inserts_user (src : Source) (rev : gerrit.RevisionInfo)
    (rest : string) :
  PrivateKeyUser src <> EmptyString ->
  FetchUrl src = "ssh://" +:+ rest ->
  Resolver.resolveFetchUrlRef src rev
  = ("ssh://" +:+ PrivateKeyUser src +:+ "@" +:+ rest, gerrit.Ref rev, None).
Proof.
  intros Huser Hurl. unfold Resolver.resolveFetchUrlRef.
  rewrite Hurl.
  destruct (decide (PrivateKeyUser src <> EmptyString)) as [_|]; [|done].
  rewrite HasPrefix_app. cbn [negb].
  rewrite SplitAfterN_ssh_2.
  destruct (decide (_ = EmptyString)) as [E|_]; [discriminate E|].
  reflexivity.
Qed.

(** C1.  The resolver over [inParams] (src/gerrit/in.go) never inserts the
    user: with a non-empty [PrivateKeyUser] and a fetch URL [ssh://<rest>]
    it asks [strings.SplitAfterN] for one part, gets the URL back whole, and
    returns the error of the malformed split, with no URL and no ref. *)
Theorem C1_params_resolver_never_inserts_user
    (params : ParamsResolver.inParams) (rev : gerrit.RevisionInfo)
    (rest : string) :
  ParamsResolver.PrivateKeyUser params <> EmptyString ->
  ParamsResolver.FetchUrl params = "ssh://" +:+ rest ->
  ParamsResolver.resolveFetchUrlRef params rev
  = (EmptyString, EmptyString,
     Some (fmt_Errorf
             "Unable to split fetchUrl %v to insert the privateKeyUser, got the wrong length: %v for %v"
             [ArgString ("ssh://" +:+ rest); ArgInt 1;
              ArgStrings ["ssh://" +:+ rest]])).
Proof.
  intros Huser Hurl. unfold ParamsResolver.resolveFetchUrlRef.
  rewrite Hurl.
  destruct (decide (ParamsResolver.PrivateKeyUser params <> EmptyString)) as [_|]; [|done].
  rewrite HasPrefix_app. cbn [negb].
  rewrite SplitAfterN_1 by discriminate.
  reflexivity.
Qed.

Lemma C1_params_resolver_witness :
  ParamsResolver.resolveFetchUrlRef params_ci rev0
  = (EmptyString, EmptyString,
     Some (fmt_Errorf
             "Unable to split fetchUrl %v to insert the privateKeyUser, got the wrong length: %v for %v"
             [ArgString "ssh://host/repo"; ArgInt 1;
              ArgStrings ["ssh://host/repo"%string]])).
Proof.
  apply (C1_params_resolver_never_inserts_user params_ci rev0 "host/repo").
  - discriminate.
  - reflexivity.
Defined.

(** The two resolvers agree once no user is to be inserted; the protocol
    part of the claims is proved for both. *)

(** Decides the string comparisons of the goal, dropping the branches that
    contradict the context. *)
Ltac compare_strings :=
  repeat match goal with
         | |- context [decide ?P] => destruct (decide P); try done; try congruence
         end.

Lemma firstFetchProtocol_anonymous (fetch : gmap string gerrit.FetchInfo)
    (fetchInfo : gerrit.FetchInfo) :
  fetch !! "http" = None ->
  fetch !! "anonymous http" = Some fetchInfo ->
  firstFetchProtocol defaultFetchProtocols fetch EmptyString = "anonymous http".
Proof.
  intros Hhttp Hanon. cbv [defaultFetchProtocols firstFetchProtocol].
  by rewrite Hhttp, Hanon.
Qed.

Lemma firstFetchProtocol_none (fetch : gmap string gerrit.FetchInfo) :
  fetch !! "http" = None ->
  fetch !! "anonymous http" = None ->
  firstFetchProtocol defaultFetchProtocols fetch EmptyString = EmptyString.
Proof.
  intros Hhttp Hanon. cbv [defaultFetchProtocols firstFetchProtocol].
  by rewrite Hhttp, Hanon.
Qed.

(** C7.  With [FetchUrl], [FetchProtocol] and [PrivateKeyUser] unset and a
    revision whose fetch map has the key "anonymous http" but not the key
    "http", [resolveFetchUrlRef] returns without an error the URL and the ref
    stored under "anonymous http": the loop over the default protocols skips
    "http", and the looked-up ref replaces the revision's own.  This holds
    for the resolver over [Source] and for the one over [inParams]. *)
Theorem C7_fallback_to_anonymous_http
    (rev : gerrit.RevisionInfo) (fetchInfo : gerrit.FetchInfo) :
  gerrit.Fetch rev !! "anonymous http" = Some fetchInfo ->
  gerrit.Fetch rev !! "http" = None ->
  (forall src : Source,
      FetchUrl src = EmptyString -> FetchProtocol src = EmptyString ->
      PrivateKeyUser src = EmptyString ->
      Resolver.resolveFetchUrlRef src rev
      = (gerrit.URL fetchInfo, gerrit.FetchInfo_Ref fetchInfo, None))
  /\
  (forall params : ParamsResolver.inParams,
      ParamsResolver.FetchUrl params = EmptyString ->
      ParamsResolver.FetchProtocol params = EmptyString ->
      ParamsResolver.PrivateKeyUser params = EmptyString ->
      ParamsResolver.resolveFetchUrlRef params rev
      = (gerrit.URL fetchInfo, gerrit.FetchInfo_Ref fetchInfo, None)).
Proof.
  intros Hanon Hhttp. split.
  - intros src Hurl Hproto Huser. unfold Resolver.resolveFetchUrlRef.
    rewrite Hurl, Hproto, Huser. compare_strings.
    by rewrite (firstFetchProtocol_anonymous _ fetchInfo), Hanon.
  - intros params Hurl Hproto Huser. unfold ParamsResolver.resolveFetchUrlRef.
    rewrite Hurl, Hproto, Huser. compare_strings.
    by rewrite (firstFetchProtocol_anonymous _ fetchInfo), Hanon.
Qed.

Lemma C7_fallback_witness :
  Resolver.resolveFetchUrlRef src_unset rev_anon_only
  = ("https://review.example.com/a/project", "refs/changes/01/1/2", None)
  /\ ParamsResolver.resolveFetchUrlRef params_unset rev_anon_only
     = ("https://review.example.com/a/project", "refs/changes/01/1/2", None).
Proof.
  destruct (C7_fallback_to_anonymous_http rev_anon_only anon_info) as [Hs Hp];
    [reflexivity | reflexivity |].
  split; [apply (Hs src_unset) | apply (Hp params_unset)]; reflexivity.
Defined.

(** C8.  With [FetchUrl] and [PrivateKeyUser] unset and an explicit
    [FetchProtocol] [p] that is no key of the revision's fetch map,
    [resolveFetchUrlRef] returns the error
    [fmt.Errorf("no fetch info for protocol %q", p)], whose text names [p]
    in quotes, and the empty URL. *)
Theorem C8_missing_protocol_is_named
    (src : Source) (rev : gerrit.RevisionInfo) (p : string) :
  FetchUrl src = EmptyString ->
  PrivateKeyUser src = EmptyString ->
  FetchProtocol src = p ->
  p <> EmptyString ->
  gerrit.Fetch rev !! p = None ->
  Resolver.resolveFetchUrlRef src rev
  = (EmptyString, gerrit.Ref rev,
     Some (fmt_Errorf "no fetch info for protocol %q" [ArgString p])).
Proof.
  intros Hurl Huser Hproto Hp Hnone. unfold Resolver.resolveFetchUrlRef.
  rewrite Hurl, Huser, Hproto. compare_strings.
  by rewrite Hnone.
Qed.

Lemma C8_missing_protocol_witness :
  Resolver.resolveFetchUrlRef src_git_protocol rev_anon_only
  = (EmptyString, "refs/changes/01/1/1",
     Some (fmt_Errorf "no fetch info for protocol %q" [ArgString "git"])).
Proof.
  apply (C8_missing_protocol_is_named src_git_protocol rev_anon_only "git");
    first [reflexivity | discriminate].
Defined.

(** C10, as stated, fails: a fetch map without "http" and "anonymous http"
    that has an entry under the empty name is resolved to that entry, with no
    error. *)
Lemma C10_unnamed_protocol_is_selected :
  gerrit.Fetch rev_unnamed_protocol !! "http" = None
  /\ gerrit.Fetch rev_unnamed_protocol !! "anonymous http" = None
  /\ Resolver.resolveFetchUrlRef src_unset rev_unnamed_protocol
     = ("https://review.example.com/a/project", "refs/changes/01/1/2", None)
  /\ ParamsResolver.resolveFetchUrlRef params_unset rev_unnamed_protocol
     = ("https://review.example.com/a/project", "refs/changes/01/1/2", None).
Proof. repeat split; vm_compute; reflexivity. Qed.

(** C10, amended.  With [FetchUrl], [FetchProtocol] and [PrivateKeyUser]
    unset and a revision whose fetch map has none of the keys "http",
    "anonymous http" and the empty name, [resolveFetchUrlRef] selects no
    protocol, whatever else the map holds: it returns the error
    [fmt.Errorf("no fetch info for protocol %q", fetchProtocol)] for the empty
    [fetchProtocol], and the empty URL.
    This holds for both resolvers. *)
Theorem C10_no_default_protocol
    (rev : gerrit.RevisionInfo) :
  gerrit.Fetch rev !! "http" = None ->
  gerrit.Fetch rev !! "anonymous http" = None ->
  gerrit.Fetch rev !! EmptyString = None ->
  (forall src : Source,
      FetchUrl src = EmptyString -> FetchProtocol src = EmptyString ->
      PrivateKeyUser src = EmptyString ->
      Resolver.resolveFetchUrlRef src rev
      = (EmptyString, gerrit.Ref rev,
         Some (fmt_Errorf "no fetch info for protocol %q" [ArgString EmptyString])))
  /\
  (forall params : ParamsResolver.inParams,
      ParamsResolver.FetchUrl params = EmptyString ->
      ParamsResolver.FetchProtocol params = EmptyString ->
      ParamsResolver.PrivateKeyUser params = EmptyString ->
      ParamsResolver.resolveFetchUrlRef params rev
      = (EmptyString, gerrit.Ref rev,
         Some (fmt_Errorf "no fetch info for protocol %q" [ArgString EmptyString]))).
Proof.
  intros Hhttp Hanon Hempty. split.
  - intros src Hurl Hproto Huser. unfold Resolver.resolveFetchUrlRef.
    rewrite Hurl, Hproto, Huser. compare_strings.
    by rewrite firstFetchProtocol_none, Hempty.
  - intros params Hurl Hproto Huser. unfold ParamsResolver.resolveFetchUrlRef.
    rewrite Hurl, Hproto, Huser. compare_strings.
    by rewrite firstFetchProtocol_none, Hempty.
Qed.

Lemma C10_no_default_protocol_witness :
  Resolver.resolveFetchUrlRef src_unset rev_ssh_only
  = (EmptyString, "refs/changes/01/1/1",
     Some (fmt_Errorf "no fetch info for protocol %q" [ArgString EmptyString]))
  /\ ParamsResolver.resolveFetchUrlRef params_unset rev_ssh_only
     = (EmptyString, "refs/changes/01/1/1",
        Some (fmt_Errorf "no fetch info for protocol %q" [ArgString EmptyString])).
Proof.
  destruct (C10_no_default_protocol rev_ssh_only) as [Hs Hp];
    [reflexivity | reflexivity | reflexivity |].
  split; [apply (Hs src_unset) | apply (Hp params_unset)]; reflexivity.
Defined.

(** ** The teardown of the broker *)

Section AgentCleanup.

Import AgentAuth.

(** After [cleanup] both path fields are empty and no agent is recorded. *)
Lemma Agent_cleanup_clears (am am' : authManager) (w w' : os.World) :
  cleanup am w = (am', w') ->
  cookiesPath_ am' = EmptyString /\ credsPath_ am' = EmptyString
  /\ sshAgentVars am' = [].
Proof.
  unfold cleanup, sshKillAgent.
  destruct (decide (cookiesPath_ am <> EmptyString)) as [H1|H1];
    destruct (decide (credsPath_ am <> EmptyString)) as [H2|H2]; cbn;
    compare_strings; cbn;
    destruct (sshAgentVars am) eqn:Hvars; cbn;
    repeat match goal with
           | |- context [os.Run ?c ?w] => destruct (os.Run c w)
           end;
    intros [= <- <-]; cbn; repeat split;
    try done; try (by apply dec_stable).
Qed.

(** A broker that records nothing is left alone, and so is the world. *)
Lemma Agent_cleanup_idle (am : authManager) (w : os.World) :
  cookiesPath_ am = EmptyString -> credsPath_ am = EmptyString ->
  sshAgentVars am = [] ->
  cleanup am w = (am, w).
Proof.
  intros H1 H2 H3. unfold cleanup, sshKillAgent.
  repeat (compare_strings; cbn). by rewrite H3.
Qed.

Lemma Agent_cleanup_twice (am : authManager) (w : os.World) :
  cleanup (cleanup am w).1 (cleanup am w).2 = cleanup am w.
Proof.
  destruct (cleanup am w) as [am' w'] eqn:E. cbn.
  apply Agent_cleanup_clears in E as (H1 & H2 & H3).
  by apply Agent_cleanup_idle.
Qed.

End AgentCleanup.

Section FileCleanup.

Import FileAuth.

Lemma File_cleanup_clears (am am' : authManager) (w w' : os.World) :
  cleanup am w = (am', w') ->
  cookiesPath_ am' = EmptyString /\ credsPath_ am' = EmptyString.
Proof.
  unfold cleanup.
  destruct (decide (cookiesPath_ am <> EmptyString)) as [H1|H1];
    destruct (decide (credsPath_ am <> EmptyString)) as [H2|H2]; cbn;
    compare_strings; cbn;
    intros [= <- <-]; cbn; repeat split;
    try done; try (by apply dec_stable).
Qed.

Lemma File_cleanup_idle (am : authManager) (w : os.World) :
  cookiesPath_ am = EmptyString -> credsPath_ am = EmptyString ->
  cleanup am w = (am, w).
Proof.
  intros H1 H2. unfold cleanup.
  by repeat (compare_strings; cbn).
Qed.

Lemma File_cleanup_twice (am : authManager) (w : os.World) :
  cleanup (cleanup am w).1 (cleanup am w).2 = cleanup am w.
Proof.
  destruct (cleanup am w) as [am' w'] eqn:E. cbn.
  apply File_cleanup_clears in E as (H1 & H2).
  by apply File_cleanup_idle.
Qed.

End FileCleanup.

(** C4.  In every state that the broker reaches by calls of [gerritAuth]
    and [gitConfigArgs], a second [cleanup] right after the first returns the
    broker and the world as the first left them: it removes no file, runs no
    [ssh-agent -k], logs nothing and consumes no outcome; [cleanup] has no
    error result.  This holds for the broker with the agent and for the one
    without. *)
Theorem C4_cleanup_is_idempotent :
  (forall (am : AgentAuth.authManager) (w : os.World),
      AgentReach.reachable am w ->
      forall am1 w1, AgentAuth.cleanup am w = (am1, w1) ->
      AgentAuth.cleanup am1 w1 = (am1, w1))
  /\
  (forall (am : FileAuth.authManager) (w : os.World),
      FileReach.reachable am w ->
      forall am1 w1, FileAuth.cleanup am w = (am1, w1) ->
      FileAuth.cleanup am1 w1 = (am1, w1)).
Proof.
  split; intros am w _ am1 w1 E.
  - pose proof (Agent_cleanup_twice am w) as H. by rewrite E in H.
  - pose proof (File_cleanup_twice am w) as H. by rewrite E in H.
Qed.

(** ** What the teardown leaves on disk *)

Lemma keeps_refl (w : os.World) : keeps w w.
Proof. by split. Qed.

Lemma keeps_trans (w1 w2 w3 : os.World) :
  keeps w1 w2 -> keeps w2 w3 -> keeps w1 w3.
Proof. intros [F1 L1] [F2 L2]. split; eauto. Qed.

Lemma gone_or_logged_keeps (path : string) (w w' : os.World) :
  keeps w w' -> gone_or_logged path w -> gone_or_logged path w'.
Proof.
  intros [F L] [Hgone | [e He]]; [left; auto | right; exists e; auto].
Qed.

Lemma next_keeps (w w' : os.World) (o : os.Outcome) :
  os.next w = (o, w') ->
  os.files w' = os.files w /\ os.logged w' = os.logged w
  /\ os.environ w' = os.environ w /\ os.commands w' = os.commands w.
Proof.
  unfold os.next. destruct (os.oracle w); intros [= <- <-]; done.
Qed.

(** [os.Remove] creates nothing, and what it removes without an error is
    gone. *)
Lemma Remove_keeps (path : string) (w w' : os.World) (err : option error) :
  os.Remove path w = (err, w') ->
  keeps w w' /\ os.logged w' = os.logged w
  /\ (err = None -> os.files w' !! path = None).
Proof.
  unfold os.Remove, keeps. destruct (os.next w) as [o w0] eqn:E.
  apply next_keeps in E as (Hf & Hl & _). rewrite <- Hf, <- Hl.
  destruct (os.failure o); [by intros [= <- <-]|].
  destruct (os.files w0 !! path) eqn:Hp; intros [= <- <-]; cbn; [|done].
  split_and!; try done.
  - intros q Hq.
    destruct (decide (path = q)) as [->|Hne];
      [apply lookup_delete_eq | by rewrite lookup_delete_ne].
  - intros _. apply lookup_delete_eq.
Qed.

(** One round of the loop of [cleanup]: the file is gone or the failure is
    logged. *)
Lemma removeAuthTempFile_settles (path : string) (w : os.World) :
  keeps w (removeAuthTempFile path w)
  /\ gone_or_logged path (removeAuthTempFile path w).
Proof.
  unfold removeAuthTempFile.
  destruct (os.Remove path w) as [err w'] eqn:E.
  apply Remove_keeps in E as ([F L] & Hl & Hgone).
  destruct err as [e|].
  - split.
    + split; [exact F|]. intros x Hx. cbn. apply elem_of_app. left. auto.
    + right. exists e. cbn. apply elem_of_app. right. apply list_elem_of_singleton.
      reflexivity.
  - split; [by split|]. left. auto.
Qed.

Lemma Run_keeps (c : os.Command) (w w' : os.World) (err : option error) :
  os.Run c w = (err, w') -> keeps w w'.
Proof.
  unfold os.Run. destruct (os.next w) as [o w0] eqn:E.
  apply next_keeps in E as (Hf & Hl & _).
  intros [= _ <-]. split; cbn.
  - by rewrite Hf.
  - by rewrite Hl.
Qed.

Lemma sshKillAgent_keeps (am am' : AgentAuth.authManager) (w w' : os.World) :
  AgentAuth.sshKillAgent am w = (am', w') -> keeps w w'.
Proof.
  unfold AgentAuth.sshKillAgent. destruct (AgentAuth.sshAgentVars am).
  - intros [= _ <-]. apply keeps_refl.
  - destruct (os.Run _ w) as [err w0] eqn:E. intros [= _ <-].
    by eapply Run_keeps.
Qed.

(** The rounds of the loop one after the other. *)
Lemma removals_settle (p1 p2 path : string) (w : os.World) :
  path <> EmptyString -> path = p1 \/ path = p2 ->
  gone_or_logged path
    (let w1 := if decide (p1 <> EmptyString) then removeAuthTempFile p1 w else w in
     if decide (p2 <> EmptyString) then removeAuthTempFile p2 w1 else w1).
Proof.
  intros Hne [-> | ->]; cbn.
  - destruct (decide (p1 <> EmptyString)) as [_|]; [|done].
    destruct (decide (p2 <> EmptyString)).
    + eapply gone_or_logged_keeps; apply removeAuthTempFile_settles.
    + apply removeAuthTempFile_settles.
  - destruct (decide (p2 <> EmptyString)) as [_|]; [|done].
    apply removeAuthTempFile_settles.
Qed.

Lemma Agent_cleanup_settles (am am' : AgentAuth.authManager) (w w' : os.World)
    (path : string) :
  path <> EmptyString ->
  path = AgentAuth.cookiesPath_ am \/ path = AgentAuth.credsPath_ am ->
  AgentAuth.cleanup am w = (am', w') ->
  gone_or_logged path w'.
Proof.
  intros Hne Hpath E.
  pose proof (removals_settle _ _ path w Hne Hpath) as Hs. cbn in Hs.
  revert E Hs. unfold AgentAuth.cleanup.
  destruct (decide (AgentAuth.cookiesPath_ am <> EmptyString));
    destruct (decide (AgentAuth.credsPath_ am <> EmptyString)); cbn;
    compare_strings; cbn; intros E Hs;
    (eapply gone_or_logged_keeps; [eapply sshKillAgent_keeps, E | exact Hs]).
Qed.

Lemma File_cleanup_settles (am am' : FileAuth.authManager) (w w' : os.World)
    (path : string) :
  path <> EmptyString ->
  path = FileAuth.cookiesPath_ am \/ path = FileAuth.credsPath_ am ->
  FileAuth.cleanup am w = (am', w') ->
  gone_or_logged path w'.
Proof.
  intros Hne Hpath E.
  pose proof (removals_settle _ _ path w Hne Hpath) as Hs. cbn in Hs.
  revert E Hs. unfold FileAuth.cleanup.
  destruct (decide (FileAuth.cookiesPath_ am <> EmptyString));
    destruct (decide (FileAuth.credsPath_ am <> EmptyString)); cbn;
    compare_strings; cbn; intros [= _ <-] Hs; exact Hs.
Qed.

(** The paths that the broker hands out are the ones it records. *)
Lemma Agent_cookiesPath_recorded (am am' : AgentAuth.authManager)
    (w w' : os.World) (path : string) (err : option error) :
  AgentAuth.cookiesPath am w = (path, err, am', w') ->
  path = AgentAuth.cookiesPath_ am' \/ path = EmptyString.
Proof.
  unfold AgentAuth.cookiesPath. compare_strings.
  - intros [= <- _ <- _]. by right.
  - destruct (writeAuthTempFile _ _ w) as [[p e'] w0].
    intros [= <- _ <- _]. by left.
  - intros [= <- _ <- _]. by left.
Qed.

Lemma Agent_credsPath_recorded (am am' : AgentAuth.authManager)
    (w w' : os.World) (path : string) (err : option error) :
  AgentAuth.credsPath am w = (path, err, am', w') ->
  path = AgentAuth.credsPath_ am' \/ path = EmptyString.
Proof.
  unfold AgentAuth.credsPath. compare_strings.
  - intros [= <- _ <- _]. by right.
  - destruct (_ || _).
    + intros [= <- _ <- _]. by right.
    + destruct (writeAuthTempFile _ _ w) as [[p e'] w0].
      intros [= <- _ <- _]. by left.
  - intros [= <- _ <- _]. by left.
Qed.

Lemma File_cookiesPath_recorded (am am' : FileAuth.authManager)
    (w w' : os.World) (path : string) (err : option error) :
  FileAuth.cookiesPath am w = (path, err, am', w') ->
  path = FileAuth.cookiesPath_ am' \/ path = EmptyString.
Proof.
  unfold FileAuth.cookiesPath. compare_strings.
  - intros [= <- _ <- _]. by right.
  - destruct (writeAuthTempFile _ _ w) as [[p e'] w0].
    intros [= <- _ <- _]. by left.
  - intros [= <- _ <- _]. by left.
Qed.

Lemma File_credsPath_recorded (am am' : FileAuth.authManager)
    (w w' : os.World) (path : string) (err : option error) :
  FileAuth.credsPath am w = (path, err, am', w') ->
  path = FileAuth.credsPath_ am' \/ path = EmptyString.
Proof.
  unfold FileAuth.credsPath. compare_strings.
  - intros [= <- _ <- _]. by right.
  - destruct (storePrivateKey _ w) as [[p e'] w0].
    intros [= <- _ <- _]. by left.
  - destruct (_ || _).
    + intros [= <- _ <- _]. by right.
    + destruct (writeAuthTempFile _ _ w) as [[p e'] w0].
      intros [= <- _ <- _]. by left.
  - intros [= <- _ <- _]. by left.
Qed.

(** A key file whose write failed is on disk and is not recorded: the
    broker with the agent returns from [sshAddKey] before it stores the
    path, and [cleanup] has nothing to remove.  The broker without the agent
    stores the path together with the error and removes the file. *)
Lemma failed_key_write_and_cleanup :
  (let '(_, _, am1, w1) :=
     AgentAuth.gitConfigArgs (AgentAuth.newAuthManager src_key)
       (world_of key_run_no_write) in
   let '(_, w2) := AgentAuth.cleanup am1 w1 in
   AgentAuth.credsPath_ am1 = EmptyString
   /\ os.files w2 !! "/tmp/gerrit-resource-private-key-123"
      = Some {| os.perm := 384; os.data := EmptyString |})
  /\
  (let '(_, _, am1, w1) :=
     FileAuth.credsPath (FileAuth.newAuthManager src_bad_user_key)
       (world_of key_run_no_write) in
   let '(_, w2) := FileAuth.cleanup am1 w1 in
   FileAuth.credsPath_ am1 = "/tmp/gerrit-resource-private-key-123"
   /\ os.files w2 !! "/tmp/gerrit-resource-private-key-123" = None).
Proof. vm_compute. repeat split; reflexivity. Qed.

(** A second [gitConfigArgs] of the broker with the agent writes a second
    key file and records it in place of the first, which [cleanup] then
    leaves on disk. *)
Lemma second_key_file_replaces_the_first :
  let '(_, _, am1, w1) :=
    AgentAuth.gitConfigArgs (AgentAuth.newAuthManager src_key)
      (world_of (key_run_ok ++ [succeeds "456"])) in
  let '(_, _, am2, w2) := AgentAuth.gitConfigArgs am1 w1 in
  let '(_, w3) := AgentAuth.cleanup am2 w2 in
  AgentAuth.credsPath_ am1 = "/tmp/gerrit-resource-private-key-123"
  /\ AgentAuth.credsPath_ am2 = "/tmp/gerrit-resource-private-key-456"
  /\ os.files w3 !! "/tmp/gerrit-resource-private-key-123"
     = Some {| os.perm := 384; os.data := "KEY" |}
  /\ os.files w3 !! "/tmp/gerrit-resource-private-key-456" = None.
Proof. vm_compute. repeat split; reflexivity. Qed.

(** C2, as stated, fails: the cookie file that [gerritAuth] wrote is still
    on disk after [cleanup] when its removal fails; [cleanup] logs the
    failure and goes on. *)
Lemma C2_failed_removal_leaves_the_file :
  let w0 := world_of (cookie_run_ok ++ [fails "operation not permitted"]) in
  let '(auth, err, am1, w1) :=
    AgentAuth.gerritAuth (AgentAuth.newAuthManager src_cookies) w0 in
  let '(am2, w2) := AgentAuth.cleanup am1 w1 in
  auth = Some (gerrit.GitCookieFileAuth "/tmp/concourse-gerrit-cookies123")
  /\ err = None
  /\ os.files w2 !! "/tmp/concourse-gerrit-cookies123"
     = Some {| os.perm := 384; os.data := Cookies src_cookies |}
  /\ os.logged w2
     = [("error removing auth temp file %q: %s"%string,
         [ArgString "/tmp/concourse-gerrit-cookies123";
          ArgError (sys_Error "operation not permitted")])].
Proof. vm_compute. repeat split; reflexivity. Qed.

(** C2, amended.  After [cleanup] the broker records no path, and every
    path that it recorded before, in the field of the cookie file or in the
    field of the credentials or key file, names no file any more unless its
    removal failed; then the failure is in the log.  This holds for the
    broker with the agent and for the one without. *)
Theorem C2_cleanup_removes_or_logs :
  (forall (am am' : AgentAuth.authManager) (w w' : os.World) (path : string),
      path <> EmptyString ->
      path = AgentAuth.cookiesPath_ am \/ path = AgentAuth.credsPath_ am ->
      AgentAuth.cleanup am w = (am', w') ->
      AgentAuth.cookiesPath_ am' = EmptyString
      /\ AgentAuth.credsPath_ am' = EmptyString
      /\ gone_or_logged path w')
  /\
  (forall (am am' : FileAuth.authManager) (w w' : os.World) (path : string),
      path <> EmptyString ->
      path = FileAuth.cookiesPath_ am \/ path = FileAuth.credsPath_ am ->
      FileAuth.cleanup am w = (am', w') ->
      FileAuth.cookiesPath_ am' = EmptyString
      /\ FileAuth.credsPath_ am' = EmptyString
      /\ gone_or_logged path w').
Proof.
  split; intros am am' w w' path Hne Hpath E.
  - destruct (Agent_cleanup_clears _ _ _ _ E) as (H1 & H2 & _).
    repeat split; [done | done |]. by eapply Agent_cleanup_settles.
  - destruct (File_cleanup_clears _ _ _ _ E) as (H1 & H2).
    repeat split; [done | done |]. by eapply File_cleanup_settles.
Qed.

(** ** Failures of the agent set-up *)

Lemma sshAddKey_cookies (am : AgentAuth.authManager) (w : os.World) :
  AgentAuth.cookies (AgentAuth.sshAddKey am w).1.2 = AgentAuth.cookies am.
Proof.
  unfold AgentAuth.sshAddKey.
  destruct (decide (AgentAuth.sshPrivateKey am <> EmptyString)); [|done].
  destruct (storePrivateKey _ w) as [[p [e|]] w1]; [done|].
  destruct (os.CombinedOutput _ w1) as [[out [e|]] w2]; [done|].
  destruct (AgentAuth.scanAgentOutput out w2) as [vars w3].
  destruct (os.Executable w3) as [[exe [e|]] w4]; [done|].
  by destruct (os.CombinedOutput _ w4) as [[out' e'] w5].
Qed.

(** With a key and no cookies [gitConfigArgs] has no error to return,
    whatever happens to the key file, the agent and [ssh-add]. *)
Lemma Agent_gitConfigArgs_key_never_fails (am : AgentAuth.authManager)
    (w : os.World) :
  AgentAuth.sshPrivateKey am <> EmptyString ->
  AgentAuth.cookies am = EmptyString ->
  (AgentAuth.gitConfigArgs am w).1.1 = (Some ssh_command_args, None).
Proof.
  intros Hkey Hcookies. unfold AgentAuth.gitConfigArgs.
  destruct (decide (AgentAuth.sshPrivateKey am <> EmptyString)); [|done].
  pose proof (sshAddKey_cookies am w) as Hc.
  destruct (AgentAuth.sshAddKey am w) as [[e am1] w1]. cbn in Hc.
  unfold AgentAuth.cookieFileArg. rewrite Hc, Hcookies.
  by compare_strings.
Qed.

(** C3.  [gitConfigArgs] of the broker with the agent drops the failures of
    the key set-up.  When the key file cannot be created and when
    [ssh-agent] does not start, [sshAddKey] returns the error and
    [gitConfigArgs] does not look at it; when [ssh-add] fails, [sshAddKey]
    itself returns [nil].  In all three runs [gitConfigArgs] returns the
    [core.sshCommand] entry and no error. *)
Theorem C3_key_setup_failures_are_dropped :
  let am := AgentAuth.newAuthManager src_key in
  let ssh_command :=
    Some [("core.sshCommand", "ssh -F /dev/null -o StrictHostKeyChecking=no")] in
  ((AgentAuth.sshAddKey am (world_of key_run_no_file)).1.1
   = Some (fmt_Errorf "Error storing private key: %v"
             [ArgError (sys_Error "no space left on device")])
   /\ entries (AgentAuth.gitConfigArgs am (world_of key_run_no_file)).1.1.1
      = ssh_command
   /\ (AgentAuth.gitConfigArgs am (world_of key_run_no_file)).1.1.2 = None)
  /\
  ((AgentAuth.sshAddKey am (world_of key_run_no_agent)).1.1
   = Some (sys_Error "exec: ssh-agent: executable file not found in $PATH")
   /\ entries (AgentAuth.gitConfigArgs am (world_of key_run_no_agent)).1.1.1
      = ssh_command
   /\ (AgentAuth.gitConfigArgs am (world_of key_run_no_agent)).1.1.2 = None)
  /\
  ((AgentAuth.sshAddKey am (world_of key_run_no_add)).1.1 = None
   /\ os.oracle (AgentAuth.sshAddKey am (world_of key_run_no_add)).2 = []
   /\ entries (AgentAuth.gitConfigArgs am (world_of key_run_no_add)).1.1.1
      = ssh_command
   /\ (AgentAuth.gitConfigArgs am (world_of key_run_no_add)).1.1.2 = None).
Proof. vm_compute. repeat split; reflexivity. Qed.

(** ** Characters that the credential file cannot hold *)

Lemma ContainsAny_invalidCredChars (s : string) :
  GoStrings.ContainsAny s invalidCredChars
  = GoStrings.hasByte zero s || GoStrings.hasByte (ascii_of_nat 10) s.
Proof.
  induction s as [|c s IH]; [done|].
  cbn [GoStrings.ContainsAny GoStrings.hasByte]. rewrite IH.
  change (GoStrings.hasByte c invalidCredChars)
    with (Ascii.eqb zero c || (Ascii.eqb (ascii_of_nat 10) c || false)).
  rewrite (Ascii.eqb_sym zero c), (Ascii.eqb_sym (ascii_of_nat 10) c).
  destruct (Ascii.eqb c zero), (Ascii.eqb c (ascii_of_nat 10)),
    (GoStrings.hasByte zero s), (GoStrings.hasByte (ascii_of_nat 10) s); done.
Qed.

Lemma invalid_credentials (u p : string) :
  has_NUL_or_newline u \/ has_NUL_or_newline p ->
  GoStrings.ContainsAny u invalidCredChars
  || GoStrings.ContainsAny p invalidCredChars = true.
Proof.
  rewrite !ContainsAny_invalidCredChars.
  intros [[H|H]|[H|H]]; rewrite H; cbn; rewrite ?orb_true_r; done.
Qed.

(** C5, as stated, fails: next to an SSH key a user name with a newline is
    not looked at.  [gitConfigArgs] returns its entries and no error, in the
    broker with the agent and in the one without. *)
Lemma C5_key_skips_the_validation :
  has_NUL_or_newline (Username src_bad_user_key)
  /\ entries (AgentAuth.gitConfigArgs (AgentAuth.newAuthManager src_bad_user_key)
                (world_of key_run_ok)).1.1.1
     = Some [("core.sshCommand", "ssh -F /dev/null -o StrictHostKeyChecking=no")]
  /\ (AgentAuth.gitConfigArgs (AgentAuth.newAuthManager src_bad_user_key)
        (world_of key_run_ok)).1.1.2 = None
  /\ entries (FileAuth.gitConfigArgs (FileAuth.newAuthManager src_bad_user_key)
                (world_of key_run_ok)).1.1.1
     = Some [("core.sshCommand",
              "ssh -i '/tmp/gerrit-resource-private-key-123' -F /dev/null -o StrictHostKeyChecking=no")]
  /\ (FileAuth.gitConfigArgs (FileAuth.newAuthManager src_bad_user_key)
        (world_of key_run_ok)).1.1.2 = None.
Proof. split; [right|]; vm_compute; repeat split; reflexivity. Qed.

(** C5, amended.  When no SSH key is configured, the user name is not empty
    and no credential file has been written yet, a NUL byte or a newline in
    the user name or in the password makes [gitConfigArgs] return the error
    "invalid character in username or password" and no entries; the broker
    and the world, the file system with it, stay as they were.  This holds
    for the broker with the agent and for the one without. *)
Theorem C5_invalid_credentials_are_refused :
  (forall (am : AgentAuth.authManager) (w : os.World),
      AgentAuth.sshPrivateKey am = EmptyString ->
      AgentAuth.username am <> EmptyString ->
      AgentAuth.credsPath_ am = EmptyString ->
      has_NUL_or_newline (AgentAuth.username am)
      \/ has_NUL_or_newline (AgentAuth.password am) ->
      AgentAuth.gitConfigArgs am w
      = (None, Some (errors_New "invalid character in username or password"),
         am, w))
  /\
  (forall (am : FileAuth.authManager) (w : os.World),
      FileAuth.sshPrivateKey am = EmptyString ->
      FileAuth.username am <> EmptyString ->
      FileAuth.credsPath_ am = EmptyString ->
      has_NUL_or_newline (FileAuth.username am)
      \/ has_NUL_or_newline (FileAuth.password am) ->
      FileAuth.gitConfigArgs am w
      = (None, Some (errors_New "invalid character in username or password"),
         am, w)).
Proof.
  split; intros am w Hkey Huser Hcreds Hbad; apply invalid_credentials in Hbad.
  - unfold AgentAuth.gitConfigArgs, AgentAuth.credsPath.
    rewrite Hkey, Hcreds, Hbad. by compare_strings.
  - unfold FileAuth.gitConfigArgs, FileAuth.credsPath.
    rewrite Hkey, Hcreds, Hbad. by compare_strings.
Qed.

(** ** The REST mechanism and the SSH key *)

Lemma Agent_gerritAuth_with_ssh_key (am : AgentAuth.authManager)
    (key passphrase : string) (w : os.World) :
  AgentAuth.gerritAuth (AgentAuth.with_ssh_key key passphrase am) w
  = let '(auth, err, am', w') := AgentAuth.gerritAuth am w in
    (auth, err, AgentAuth.with_ssh_key key passphrase am', w').
Proof.
  unfold AgentAuth.gerritAuth, AgentAuth.cookiesPath. cbn.
  compare_strings; try by destruct (AgentAuth.digest am).
  by destruct (writeAuthTempFile _ _ w) as [[? [?|]] ?].
Qed.

Lemma File_gerritAuth_with_ssh_key (am : FileAuth.authManager)
    (key : string) (w : os.World) :
  FileAuth.gerritAuth (FileAuth.with_ssh_key key am) w
  = let '(auth, err, am', w') := FileAuth.gerritAuth am w in
    (auth, err, FileAuth.with_ssh_key key am', w').
Proof.
  unfold FileAuth.gerritAuth, FileAuth.cookiesPath. cbn.
  compare_strings; try by destruct (FileAuth.digest am).
  by destruct (writeAuthTempFile _ _ w) as [[? [?|]] ?].
Qed.

Lemma Agent_new_with_ssh_key (s1 s2 : Source) :
  same_but_ssh_key s1 s2 ->
  AgentAuth.newAuthManager s1
  = AgentAuth.with_ssh_key (PrivateKey s1) (PrivateKeyPassphrase s1)
      (AgentAuth.newAuthManager s2).
Proof.
  intros (Hc & Hu & Hp & Hd & _). unfold AgentAuth.newAuthManager,
    AgentAuth.with_ssh_key. cbn. by rewrite Hc, Hu, Hp, Hd.
Qed.

Lemma File_new_with_ssh_key (s1 s2 : Source) :
  same_but_ssh_key s1 s2 ->
  FileAuth.newAuthManager s1
  = FileAuth.with_ssh_key (PrivateKey s1) (FileAuth.newAuthManager s2).
Proof.
  intros (Hc & Hu & Hp & Hd & _). unfold FileAuth.newAuthManager,
    FileAuth.with_ssh_key. cbn. by rewrite Hc, Hu, Hp, Hd.
Qed.

(** C9.  [gerritAuth] does not look at the SSH key.  For two configurations
    that differ at most in the key and its passphrase, run in the same
    world, it returns the same mechanism or the same error and leaves the
    same world; and for a password without a user name it returns the error
    "Password specified but username is blank", whatever the password and
    the key.  This holds for the broker with the agent and for the one
    without. *)
Theorem C9_rest_auth_ignores_the_ssh_key (s1 s2 : Source) (w : os.World) :
  same_but_ssh_key s1 s2 ->
  ((AgentAuth.gerritAuth (AgentAuth.newAuthManager s1) w).1.1
   = (AgentAuth.gerritAuth (AgentAuth.newAuthManager s2) w).1.1
   /\ (AgentAuth.gerritAuth (AgentAuth.newAuthManager s1) w).2
      = (AgentAuth.gerritAuth (AgentAuth.newAuthManager s2) w).2)
  /\
  ((FileAuth.gerritAuth (FileAuth.newAuthManager s1) w).1.1
   = (FileAuth.gerritAuth (FileAuth.newAuthManager s2) w).1.1
   /\ (FileAuth.gerritAuth (FileAuth.newAuthManager s1) w).2
      = (FileAuth.gerritAuth (FileAuth.newAuthManager s2) w).2)
  /\
  (Username s1 = EmptyString -> Password s1 <> EmptyString ->
   (AgentAuth.gerritAuth (AgentAuth.newAuthManager s1) w).1.1
   = (None, Some (errors_New "Password specified but username is blank"))
   /\ (FileAuth.gerritAuth (FileAuth.newAuthManager s1) w).1.1
      = (None, Some (errors_New "Password specified but username is blank"))).
Proof.
  intros Hsame. split_and!.
  - rewrite (Agent_new_with_ssh_key s1 s2 Hsame), Agent_gerritAuth_with_ssh_key.
    by destruct (AgentAuth.gerritAuth _ w) as [[[auth err] am'] w'].
  - rewrite (Agent_new_with_ssh_key s1 s2 Hsame), Agent_gerritAuth_with_ssh_key.
    by destruct (AgentAuth.gerritAuth _ w) as [[[auth err] am'] w'].
  - rewrite (File_new_with_ssh_key s1 s2 Hsame), File_gerritAuth_with_ssh_key.
    by destruct (FileAuth.gerritAuth _ w) as [[[auth err] am'] w'].
  - rewrite (File_new_with_ssh_key s1 s2 Hsame), File_gerritAuth_with_ssh_key.
    by destruct (FileAuth.gerritAuth _ w) as [[[auth err] am'] w'].
  - intros Hu Hp. unfold AgentAuth.gerritAuth, FileAuth.gerritAuth. cbn.
    rewrite Hu. by compare_strings.
Qed.

Lemma C9_rest_auth_witness :
  ((AgentAuth.gerritAuth (AgentAuth.newAuthManager src_password_only_key)
      (world_of [])).1.1
   = (AgentAuth.gerritAuth (AgentAuth.newAuthManager src_password_only)
        (world_of [])).1.1
   /\ (AgentAuth.gerritAuth (AgentAuth.newAuthManager src_password_only_key)
         (world_of [])).2
      = (AgentAuth.gerritAuth (AgentAuth.newAuthManager src_password_only)
           (world_of [])).2)
  /\ (AgentAuth.gerritAuth (AgentAuth.newAuthManager src_password_only_key)
        (world_of [])).1.1
     = (None, Some (errors_New "Password specified but username is blank"))
  /\ (FileAuth.gerritAuth (FileAuth.newAuthManager src_password_only_key)
        (world_of [])).1.1
     = (None, Some (errors_New "Password specified but username is blank")).
Proof.
  destruct (C9_rest_auth_ignores_the_ssh_key
              src_password_only_key src_password_only (world_of []))
    as (HA & _ & Hpw).
  - repeat split.
  - split; [exact HA|]. apply Hpw; [reflexivity | discriminate].
Defined.

(** ** The parsing of the agent's output *)

Section SplitOnByte.

Import GoStrings.

Variable c : ascii.

Let sep : string := String c EmptyString.

Lemma append_String (d : ascii) (s t : string) :
  String d s +:+ t = String d (s +:+ t).
Proof. reflexivity. Qed.

Lemma append_Empty (t : string) : EmptyString +:+ t = t.
Proof. reflexivity. Qed.

Lemma append_assoc (a b t : string) : (a +:+ b) +:+ t = a +:+ b +:+ t.
Proof.
  induction a as [|d a IH]; [by rewrite !append_Empty|].
  by rewrite !append_String, IH.
Qed.

Lemma hasByte_app (a b : string) :
  hasByte c (a +:+ b) = hasByte c a || hasByte c b.
Proof.
  induction a as [|d a IH]; [by rewrite append_Empty|].
  rewrite append_String. cbn. by rewrite IH, orb_assoc.
Qed.

Lemma hasByte_cons (d : ascii) (s : string) :
  hasByte c (String d s) = false ->
  Ascii.eqb d c = false /\ hasByte c s = false.
Proof. cbn. by intros [? ?]%orb_false_elim. Qed.

Lemma Index_absent (s : string) : hasByte c s = false -> Index s sep = None.
Proof.
  induction s as [|d s IH]; [done|].
  intros [Hd Hs]%hasByte_cons. cbn. rewrite Hd. cbn. by rewrite IH.
Qed.

Lemma Index_first (a rest : string) :
  hasByte c a = false -> Index (a +:+ String c rest) sep = Some (String.length a).
Proof.
  induction a as [|d a IH].
  - intros _. rewrite append_Empty. cbn. by rewrite Ascii.eqb_refl.
  - intros [Hd Ha]%hasByte_cons. rewrite append_String. cbn.
    rewrite Hd. cbn. by rewrite IH.
Qed.

Lemma sliceTo_app (a t : string) : sliceTo (String.length a + 0) (a +:+ t) = a.
Proof.
  induction a as [|d a IH]; [done|].
  rewrite append_String. cbn. by rewrite IH.
Qed.

Lemma sliceFrom_app (a t : string) :
  sliceFrom (String.length a + 1) (a +:+ String c t) = t.
Proof.
  induction a as [|d a IH]; [by rewrite append_Empty|].
  rewrite append_String. by cbn.
Qed.

Lemma length_app_sep (a t : string) :
  String.length (a +:+ String c t) = S (String.length a + String.length t).
Proof.
  induction a as [|d a IH]; [by rewrite append_Empty|].
  rewrite append_String. cbn. by rewrite IH.
Qed.

(** The first piece of [Split] is what precedes the first separator. *)
Lemma Split_first (a rest : string) :
  hasByte c a = false ->
  exists pieces, Split (a +:+ String c rest) sep = a :: pieces.
Proof.
  intros Ha. unfold Split, genSplit, Count.
  destruct (decide (sep = EmptyString)) as [E|_]; [discriminate E|].
  cbn [Z.eqb Z.ltb Z.compare]. rewrite length_app_sep.
  cbn [countFrom]. rewrite (Index_first a rest Ha).
  set (k := countFrom _ _ _).
  set (len := (String.length a + String.length rest)%nat).
  destruct (Z.gtb_spec (Z.of_nat (S k) + 1) (Z.of_nat (S len) + 1)).
  - replace (Z.to_nat (Z.of_nat (S len) + 1 - 1)) with (S len) by lia.
    cbn [cut]. rewrite (Index_first a rest Ha), sliceTo_app. eauto.
  - replace (Z.to_nat (Z.of_nat (S k) + 1 - 1)) with (S k) by lia.
    cbn [cut]. rewrite (Index_first a rest Ha), sliceTo_app. eauto.
Qed.

(** A string with one separator is split in two. *)
Lemma Split_pair (a b : string) :
  hasByte c a = false -> hasByte c b = false ->
  Split (a +:+ String c b) sep = [a; b].
Proof.
  intros Ha Hb. unfold Split, genSplit, Count.
  destruct (decide (sep = EmptyString)) as [E|_]; [discriminate E|].
  cbn [Z.eqb Z.ltb Z.compare]. rewrite length_app_sep.
  cbn [countFrom]. rewrite (Index_first a b Ha).
  change (String.length sep) with 1%nat. rewrite sliceFrom_app.
  assert (Hk : forall fuel, countFrom fuel b sep = O)
    by (intros [|fuel]; cbn [countFrom]; [done | by rewrite Index_absent]).
  rewrite Hk.
  set (len := (String.length a + String.length b)%nat).
  destruct (Z.gtb_spec (Z.of_nat 1 + 1) (Z.of_nat (S len) + 1)); [lia|].
  change (Z.to_nat (Z.of_nat 1 + 1 - 1)) with 1%nat.
  cbn [cut]. rewrite (Index_first a b Ha), sliceTo_app.
  change (String.length sep) with 1%nat. by rewrite sliceFrom_app.
Qed.

Lemma Contains_sep (a rest : string) : Contains (a +:+ String c rest) sep = true.
Proof.
  unfold Contains. induction a as [|d a IH].
  - rewrite append_Empty. cbn. by rewrite Ascii.eqb_refl.
  - rewrite append_String. cbn. destruct (Ascii.eqb d c); [done|]. cbn.
    by destruct (Index _ sep).
Qed.

End SplitOnByte.

(** A line [NAME=value;...] whose name and value hold no ["="], [";"] or NUL
    is read as the claim says: the assignment is appended to the variables
    and [NAME] is set to [value]. *)
Lemma scanLine_assignment (name value rest : string) (vars : list string)
    (w : os.World) :
  name <> EmptyString ->
  GoStrings.hasByte "="%char name = false ->
  GoStrings.hasByte ";"%char name = false ->
  GoStrings.hasByte zero name = false ->
  GoStrings.hasByte "="%char value = false ->
  GoStrings.hasByte ";"%char value = false ->
  GoStrings.hasByte zero value = false ->
  AgentAuth.scanLine (name +:+ "=" +:+ value +:+ ";" +:+ rest) (vars, w)
  = (vars ++ [name +:+ "=" +:+ value], os.set_environ <[name := value]> w).
Proof.
  intros Hname Hn1 Hn2 Hn3 Hv1 Hv2 Hv3. unfold AgentAuth.scanLine.
  assert (Hsemi : GoStrings.hasByte ";"%char (name +:+ String "=" value) = false)
    by (rewrite hasByte_app, Hn2; cbn; by rewrite Hv2).
  change (name +:+ "=" +:+ value +:+ ";" +:+ rest)
    with (name +:+ String "=" value +:+ String ";" rest).
  change (name +:+ "=" +:+ value) with (name +:+ String "=" value).
  rewrite <- append_assoc.
  destruct (Split_first ";"%char _ rest Hsemi) as [pieces ->].
  rewrite Contains_sep, (Split_pair "="%char name value Hn1 Hv1).
  unfold os.Setenv. compare_strings. by rewrite Hn1, Hn3, Hv3.
Qed.

Lemma scanLine_assignment_witness :
  AgentAuth.scanLine "SSH_AGENT_PID=42; export SSH_AGENT_PID;" ([], world_of [])
  = (["SSH_AGENT_PID=42"],
     os.set_environ <["SSH_AGENT_PID" := "42"]> (world_of [])).
Proof.
  apply (scanLine_assignment "SSH_AGENT_PID" "42" " export SSH_AGENT_PID;");
    first [discriminate | reflexivity].
Defined.

(** A line is taken for an assignment as soon as its first field holds an
    equals sign, with or without the [export] behind it. *)
Lemma assignment_without_export_is_kept :
  let '(vars, w) := AgentAuth.scanAgentOutput "HOME=/root" (world_of []) in
  vars = ["HOME=/root"] /\ os.environ w !! "HOME" = Some "/root".
Proof. vm_compute. split; reflexivity. Qed.

(** C6.  For the output of an agent whose socket path holds an equals sign
    the parsing keeps the whole assignment in the list of variables but sets
    the environment variable to the value cut at that sign:
    [SSH_AUTH_SOCK] becomes [/tmp/a], not [/tmp/a=b/ssh-XXXXXX/agent.41].
    The same is seen after [gitConfigArgs]. *)
Theorem C6_equals_sign_cuts_the_value :
  (let '(vars, w) := AgentAuth.scanAgentOutput agent_output_eq (world_of []) in
   vars = ["SSH_AUTH_SOCK=/tmp/a=b/ssh-XXXXXX/agent.41"; "SSH_AGENT_PID=42"]
   /\ os.environ w !! "SSH_AUTH_SOCK" = Some "/tmp/a"
   /\ os.environ w !! "SSH_AGENT_PID" = Some "42")
  /\
  (let '(_, _, am, w) :=
     AgentAuth.gitConfigArgs (AgentAuth.newAuthManager src_key)
       (world_of key_run_eq) in
   AgentAuth.sshAgentVars am
   = ["SSH_AUTH_SOCK=/tmp/a=b/ssh-XXXXXX/agent.41"; "SSH_AGENT_PID=42"]
   /\ os.environ w !! "SSH_AUTH_SOCK" = Some "/tmp/a").
Proof. vm_compute. repeat split; reflexivity. Qed.

(** ** The theorems at sample inputs *)

Lemma Agent_reachable_gitConfigArgs (source : Source) (w : os.World) :
  AgentReach.reachable
    (AgentAuth.gitConfigArgs (AgentAuth.newAuthManager source) w).1.2
    (AgentAuth.gitConfigArgs (AgentAuth.newAuthManager source) w).2.
Proof.
  destruct (AgentAuth.gitConfigArgs _ w) as [[[args err] am] w'] eqn:E.
  exact (AgentReach.reach_gitConfigArgs _ _ _ _ _ _ (AgentReach.reach_new _ _) E).
Qed.

Lemma File_reachable_gerritAuth (source : Source) (w : os.World) :
  FileReach.reachable
    (FileAuth.gerritAuth (FileAuth.newAuthManager source) w).1.2
    (FileAuth.gerritAuth (FileAuth.newAuthManager source) w).2.
Proof.
  destruct (FileAuth.gerritAuth _ w) as [[[auth err] am] w'] eqn:E.
  exact (FileReach.reach_gerritAuth _ _ _ _ _ _ (FileReach.reach_new _ _) E).
Qed.

(** The broker of [src_key] after [gitConfigArgs], and the brokers of
    [src_cookies] after [gerritAuth]. *)
Local Abbreviation agent_key_run :=
  (AgentAuth.gitConfigArgs (AgentAuth.newAuthManager src_key)
     (world_of key_run_ok)).
Local Abbreviation agent_cookie_run :=
  (AgentAuth.gerritAuth (AgentAuth.newAuthManager src_cookies)
     (world_of cookie_run_ok)).
Local Abbreviation file_cookie_run :=
  (FileAuth.gerritAuth (FileAuth.newAuthManager src_cookies)
     (world_of cookie_run_ok)).

Lemma C2_cleanup_witness :
  gone_or_logged "/tmp/concourse-gerrit-cookies123"
    (AgentAuth.cleanup agent_cookie_run.1.2 agent_cookie_run.2).2
  /\ gone_or_logged "/tmp/concourse-gerrit-cookies123"
       (FileAuth.cleanup file_cookie_run.1.2 file_cookie_run.2).2.
Proof.
  destruct C2_cleanup_removes_or_logs as [HA HF]. split.
  - refine (proj2 (proj2 (HA agent_cookie_run.1.2 _ agent_cookie_run.2 _
                            "/tmp/concourse-gerrit-cookies123" _ _
                            (surjective_pairing _)))).
    + discriminate.
    + left. vm_compute. reflexivity.
  - refine (proj2 (proj2 (HF file_cookie_run.1.2 _ file_cookie_run.2 _
                            "/tmp/concourse-gerrit-cookies123" _ _
                            (surjective_pairing _)))).
    + discriminate.
    + left. vm_compute. reflexivity.
Defined.

Lemma C4_cleanup_witness :
  AgentAuth.cleanup
    (AgentAuth.cleanup agent_key_run.1.2 agent_key_run.2).1
    (AgentAuth.cleanup agent_key_run.1.2 agent_key_run.2).2
  = ((AgentAuth.cleanup agent_key_run.1.2 agent_key_run.2).1,
     (AgentAuth.cleanup agent_key_run.1.2 agent_key_run.2).2)
  /\
  FileAuth.cleanup
    (FileAuth.cleanup file_cookie_run.1.2 file_cookie_run.2).1
    (FileAuth.cleanup file_cookie_run.1.2 file_cookie_run.2).2
  = ((FileAuth.cleanup file_cookie_run.1.2 file_cookie_run.2).1,
     (FileAuth.cleanup file_cookie_run.1.2 file_cookie_run.2).2).
Proof.
  destruct C4_cleanup_is_idempotent as [HA HF]. split.
  - exact (HA _ _ (Agent_reachable_gitConfigArgs src_key (world_of key_run_ok))
              _ _ (surjective_pairing _)).
  - exact (HF _ _ (File_reachable_gerritAuth src_cookies (world_of cookie_run_ok))
              _ _ (surjective_pairing _)).
Defined.

Lemma C5_invalid_credentials_witness :
  AgentAuth.gitConfigArgs (AgentAuth.newAuthManager src_bad_user) (world_of [])
  = (None, Some (errors_New "invalid character in username or password"),
     AgentAuth.newAuthManager src_bad_user, world_of [])
  /\
  FileAuth.gitConfigArgs (FileAuth.newAuthManager src_bad_user) (world_of [])
  = (None, Some (errors_New "invalid character in username or password"),
     FileAuth.newAuthManager src_bad_user, world_of []).
Proof.
  destruct C5_invalid_credentials_are_refused as [HA HF]. split.
  - apply (HA (AgentAuth.newAuthManager src_bad_user) (world_of [])).
    + reflexivity.
    + discriminate.
    + reflexivity.
    + left. right. reflexivity.
  - apply (HF (FileAuth.newAuthManager src_bad_user) (world_of [])).
    + reflexivity.
    + discriminate.
    + reflexivity.
    + left. right. reflexivity.
Defined.

(** * Further properties *)

(** ** Temporary files *)

Lemma only_files_refl (w : os.World) : only_files w w.
Proof. by repeat split. Qed.

Lemma only_files_trans (w1 w2 w3 : os.World) :
  only_files w1 w2 -> only_files w2 w3 -> only_files w1 w3.
Proof.
  intros (E1 & C1 & L1) (E2 & C2 & L2). repeat split; congruence.
Qed.

Lemma next_only_files (w w' : os.World) (o : os.Outcome) :
  os.next w = (o, w') -> only_files w w' /\ os.files w' = os.files w.
Proof.
  intros E. apply next_keeps in E as (Hf & Hl & He & Hc). by repeat split.
Qed.

Lemma set_files_only_files (f : gmap string os.File -> gmap string os.File)
    (w : os.World) :
  only_files w (os.set_files f w).
Proof. by repeat split. Qed.

Lemma temp_name_nonempty (dir rest : string) :
  dir +:+ "/" +:+ rest <> EmptyString.
Proof. by destruct dir. Qed.

Lemma TempFile_spec (dir pattern name : string) (err : option error)
    (w w' : os.World) :
  os.TempFile dir pattern w = (name, err, w') ->
  only_files w w'
  /\ match err with
     | Some _ => name = EmptyString /\ os.files w' = os.files w
     | None =>
         name <> EmptyString /\ os.files w !! name = None
         /\ os.files w' = <[name := privateFile EmptyString]> (os.files w)
     end.
Proof.
  unfold os.TempFile. destruct (os.next w) as [o w0] eqn:E.
  apply next_only_files in E as [Ho Hf].
  destruct (os.failure o); [intros [= <- <- <-]; by rewrite Hf|].
  destruct (os.prefixAndSuffix pattern) as [prefix suffix].
  match goal with |- context [os.files w0 !! ?n] => set (nm := n) end.
  destruct (os.files w0 !! nm) eqn:Hn; intros [= <- <- <-].
  - by rewrite Hf.
  - split; [eapply only_files_trans; [exact Ho | apply set_files_only_files]|].
    split_and!.
    + subst nm. destruct (decide (dir = EmptyString)); apply temp_name_nonempty.
    + by rewrite <- Hf.
    + cbn. by rewrite Hf.
Qed.

Lemma Chmod_spec (name : string) (mode : N) (err : option error)
    (w w' : os.World) :
  os.Chmod name mode w = (err, w') ->
  only_files w w'
  /\ (os.files w' = os.files w
      \/ exists f, os.files w !! name = Some f
                   /\ os.files w'
                      = <[name := {| os.perm := mode; os.data := os.data f |}]>
                          (os.files w)).
Proof.
  unfold os.Chmod. destruct (os.next w) as [o w0] eqn:E.
  apply next_only_files in E as [Ho Hf].
  destruct (os.failure o); [intros [= <- <-]; split; [done | by left]|].
  destruct (os.files w0 !! name) as [f|] eqn:Hn; intros [= <- <-].
  - split; [eapply only_files_trans; [exact Ho | apply set_files_only_files]|].
    right. exists f. cbn. by rewrite <- Hf.
  - split; [done | by left].
Qed.

Lemma Write_spec (name contents : string) (err : option error)
    (w w' : os.World) :
  os.Write name contents w = (err, w') ->
  only_files w w'
  /\ match err with
     | Some _ => os.files w' = os.files w
     | None =>
         os.files w'
         = alter (fun f => {| os.perm := os.perm f;
                              os.data := os.data f +:+ contents |})
             name (os.files w)
     end.
Proof.
  unfold os.Write. destruct (os.next w) as [o w0] eqn:E.
  apply next_only_files in E as [Ho Hf].
  destruct (os.failure o); intros [= <- <-]; [done|].
  split; [eapply only_files_trans; [exact Ho | apply set_files_only_files]|].
  cbn. by rewrite Hf.
Qed.

Lemma Truncate_spec (name : string) (err : option error) (w w' : os.World) :
  os.Truncate name w = (err, w') ->
  only_files w w'
  /\ (os.files w' = os.files w
      \/ os.files w'
         = alter (fun f => {| os.perm := os.perm f; os.data := EmptyString |})
             name (os.files w)).
Proof.
  unfold os.Truncate. destruct (os.next w) as [o w0] eqn:E.
  apply next_only_files in E as [Ho Hf].
  destruct (os.failure o); intros [= <- <-]; [split; [done | by left]|].
  split; [eapply only_files_trans; [exact Ho | apply set_files_only_files]|].
  right. cbn. by rewrite Hf.
Qed.

(** What [storePrivateKey] of auth.go does to the disk: on a failure to
    create the file nothing, else one new file of mode 0600 under a name that
    was free, which holds the key, or nothing when the write failed. *)
Lemma storePrivateKey_spec (privateKey path : string) (err : option error)
    (w w' : os.World) :
  privateKey <> EmptyString ->
  storePrivateKey privateKey w = (path, err, w') ->
  only_files w w'
  /\ ((path = EmptyString /\ err <> None /\ os.files w' = os.files w)
      \/ (path <> EmptyString /\ os.files w !! path = None
          /\ os.files w'
             = <[path := privateFile (written privateKey err)]> (os.files w))).
Proof.
  intros Hkey. unfold storePrivateKey.
  destruct (decide (privateKey = EmptyString)); [done|].
  destruct (os.TempFile _ _ w) as [[name e1] w1] eqn:E1.
  apply TempFile_spec in E1 as [O1 F1].
  destruct e1 as [e1|].
  { destruct F1 as [-> F1]. intros [= <- <- <-]. split; [done|]. by left. }
  destruct F1 as (Hname & Hfree & F1).
  destruct (os.Chmod name 384 w1) as [e2 w2] eqn:E2.
  apply Chmod_spec in E2 as [O2 F2].
  assert (F2' : os.files w2 = <[name := privateFile EmptyString]> (os.files w)).
  { destruct F2 as [F2 | (f & Hf & F2)]; [congruence|].
    rewrite F2, F1. rewrite F1, lookup_insert_eq in Hf. injection Hf as <-.
    by rewrite insert_insert_eq. }
  destruct (os.Write name privateKey w2) as [e3 w3] eqn:E3.
  apply Write_spec in E3 as [O3 F3].
  destruct e3 as [e3|].
  - destruct (os.Truncate name w3) as [e4 w4] eqn:E4.
    apply Truncate_spec in E4 as [O4 F4].
    intros [= <- <- <-].
    split; [eauto using only_files_trans|]. right. split_and!; [done..|].
    destruct F4 as [F4 | F4]; rewrite F4, F3, F2'; [done|].
    by rewrite alter_insert_eq.
  - intros [= <- <- <-].
    split; [eauto using only_files_trans|]. right. split_and!; [done..|].
    rewrite F3, F2'. by rewrite alter_insert_eq.
Qed.

Lemma writeAuthTempFile_spec (suffix contents path : string)
    (err : option error) (w w' : os.World) :
  writeAuthTempFile suffix contents w = (path, err, w') ->
  only_files w w'
  /\ ((path = EmptyString /\ err <> None /\ os.files w' = os.files w)
      \/ (path <> EmptyString /\ os.files w !! path = None
          /\ os.files w'
             = <[path := privateFile (written contents err)]> (os.files w))).
Proof.
  unfold writeAuthTempFile.
  destruct (os.TempFile _ _ w) as [[name e1] w1] eqn:E1.
  apply TempFile_spec in E1 as [O1 F1].
  destruct e1 as [e1|].
  { destruct F1 as [-> F1]. intros [= <- <- <-]. split; [done|]. by left. }
  destruct F1 as (Hname & Hfree & F1).
  destruct (os.Write name contents w1) as [e3 w3] eqn:E3.
  apply Write_spec in E3 as [O3 F3].
  destruct e3 as [e3|]; intros [= <- <- <-];
    (split; [eauto using only_files_trans|]); right; split_and!; try done.
  - by rewrite F3, F1.
  - rewrite F3, F1. by rewrite alter_insert_eq.
Qed.

(** ** More of the fetch-target resolver *)

(** A user together with a fetch URL that does not start with [ssh://],
    the unset URL among them, is refused by both resolvers, whatever the
    protocol and the revision: the error names the URL, and no URL and no ref
    are returned. *)
Theorem resolve_refuses_user_without_ssh_url (rev : gerrit.RevisionInfo) :
  (forall src : Source,
      PrivateKeyUser src <> EmptyString ->
      GoStrings.HasPrefix (FetchUrl src) "ssh://" = false ->
      Resolver.resolveFetchUrlRef src rev
      = (EmptyString, EmptyString,
         Some (fmt_Errorf
                 "FetchUrl '%v' is not an ssh url, but PrivateKeyUser was set"
                 [ArgString (FetchUrl src)])))
  /\
  (forall params : ParamsResolver.inParams,
      ParamsResolver.PrivateKeyUser params <> EmptyString ->
      GoStrings.HasPrefix (ParamsResolver.FetchUrl params) "ssh://" = false ->
      ParamsResolver.resolveFetchUrlRef params rev
      = (EmptyString, EmptyString,
         Some (fmt_Errorf
                 "FetchUrl '%v' is not an ssh url, but PrivateKeyUser was set"
                 [ArgString (ParamsResolver.FetchUrl params)]))).
Proof.
  split.
  - intros src Huser Hurl. unfold Resolver.resolveFetchUrlRef.
    destruct (decide (PrivateKeyUser src <> EmptyString)); [|done].
    by rewrite Hurl.
  - intros params Huser Hurl. unfold ParamsResolver.resolveFetchUrlRef.
    destruct (decide (ParamsResolver.PrivateKeyUser params <> EmptyString));
      [|done].
    by rewrite Hurl.
Qed.

Lemma resolve_refuses_user_witness :
  Resolver.resolveFetchUrlRef src_user_http rev_anon_only
  = (EmptyString, EmptyString,
     Some (fmt_Errorf
             "FetchUrl '%v' is not an ssh url, but PrivateKeyUser was set"
             [ArgString (FetchUrl src_user_http)]))
  /\ ParamsResolver.resolveFetchUrlRef params_user_http rev_anon_only
     = (EmptyString, EmptyString,
        Some (fmt_Errorf
                "FetchUrl '%v' is not an ssh url, but PrivateKeyUser was set"
                [ArgString (ParamsResolver.FetchUrl params_user_http)])).
Proof.
  destruct (resolve_refuses_user_without_ssh_url rev_anon_only) as [Hs Hp].
  split; [apply (Hs src_user_http) | apply (Hp params_user_http)];
    first [discriminate | reflexivity].
Defined.

(** A fetch URL without a user is returned as it is, with the revision's own
    ref: the protocol and the fetch map are not looked at. *)
Theorem resolve_fetch_url_overrides_protocol (rev : gerrit.RevisionInfo) :
  (forall src : Source,
      FetchUrl src <> EmptyString -> PrivateKeyUser src = EmptyString ->
      Resolver.resolveFetchUrlRef src rev = (FetchUrl src, gerrit.Ref rev, None))
  /\
  (forall params : ParamsResolver.inParams,
      ParamsResolver.FetchUrl params <> EmptyString ->
      ParamsResolver.PrivateKeyUser params = EmptyString ->
      ParamsResolver.resolveFetchUrlRef params rev
      = (ParamsResolver.FetchUrl params, gerrit.Ref rev, None)).
Proof.
  split.
  - intros src Hurl Huser. unfold Resolver.resolveFetchUrlRef.
    rewrite Huser. by compare_strings.
  - intros params Hurl Huser. unfold ParamsResolver.resolveFetchUrlRef.
    rewrite Huser. by compare_strings.
Qed.

Lemma resolve_fetch_url_witness :
  Resolver.resolveFetchUrlRef src_url rev_anon_only
  = (FetchUrl src_url, gerrit.Ref rev_anon_only, None)
  /\ ParamsResolver.resolveFetchUrlRef params_url rev_anon_only
     = (ParamsResolver.FetchUrl params_url, gerrit.Ref rev_anon_only, None).
Proof.
  destruct (resolve_fetch_url_overrides_protocol rev_anon_only) as [Hs Hp].
  split; [apply (Hs src_url) | apply (Hp params_url)];
    first [discriminate | reflexivity].
Defined.

(** Without a fetch URL and a user, an explicit protocol that the fetch map
    has is resolved to the URL and the ref stored for it, whatever the map
    holds for the default protocols. *)
Theorem resolve_explicit_protocol (rev : gerrit.RevisionInfo) (p : string)
    (fetchInfo : gerrit.FetchInfo) :
  p <> EmptyString ->
  gerrit.Fetch rev !! p = Some fetchInfo ->
  (forall src : Source,
      FetchUrl src = EmptyString -> PrivateKeyUser src = EmptyString ->
      FetchProtocol src = p ->
      Resolver.resolveFetchUrlRef src rev
      = (gerrit.URL fetchInfo, gerrit.FetchInfo_Ref fetchInfo, None))
  /\
  (forall params : ParamsResolver.inParams,
      ParamsResolver.FetchUrl params = EmptyString ->
      ParamsResolver.PrivateKeyUser params = EmptyString ->
      ParamsResolver.FetchProtocol params = p ->
      ParamsResolver.resolveFetchUrlRef params rev
      = (gerrit.URL fetchInfo, gerrit.FetchInfo_Ref fetchInfo, None)).
Proof.
  intros Hp Hfetch. split.
  - intros src Hurl Huser Hproto. unfold Resolver.resolveFetchUrlRef.
    rewrite Hurl, Huser, Hproto. compare_strings. by rewrite Hfetch.
  - intros params Hurl Huser Hproto. unfold ParamsResolver.resolveFetchUrlRef.
    rewrite Hurl, Huser, Hproto. compare_strings. by rewrite Hfetch.
Qed.

Lemma resolve_explicit_protocol_witness :
  Resolver.resolveFetchUrlRef src_ssh_protocol rev_ssh_only
  = (gerrit.URL anon_info, gerrit.FetchInfo_Ref anon_info, None)
  /\ ParamsResolver.resolveFetchUrlRef params_ssh_protocol rev_ssh_only
     = (gerrit.URL anon_info, gerrit.FetchInfo_Ref anon_info, None).
Proof.
  destruct (resolve_explicit_protocol rev_ssh_only "ssh" anon_info) as [Hs Hp];
    [discriminate | reflexivity |].
  split; [apply (Hs src_ssh_protocol) | apply (Hp params_ssh_protocol)];
    reflexivity.
Defined.

(** With nothing configured, "http" is taken whenever the fetch map has it,
    also when it has "anonymous http" as well. *)
Theorem resolve_prefers_http (rev : gerrit.RevisionInfo)
    (fetchInfo : gerrit.FetchInfo) :
  gerrit.Fetch rev !! "http" = Some fetchInfo ->
  (forall src : Source,
      FetchUrl src = EmptyString -> FetchProtocol src = EmptyString ->
      PrivateKeyUser src = EmptyString ->
      Resolver.resolveFetchUrlRef src rev
      = (gerrit.URL fetchInfo, gerrit.FetchInfo_Ref fetchInfo, None))
  /\
  (forall params : ParamsResolver.inParams,
      ParamsResolver.FetchUrl params = EmptyString ->
      ParamsResolver.FetchProtocol params = EmptyString ->
      ParamsResolver.PrivateKeyUser params = EmptyString ->
      ParamsResolver.resolveFetchUrlRef params rev
      = (gerrit.URL fetchInfo, gerrit.FetchInfo_Ref fetchInfo, None)).
Proof.
  intros Hhttp.
  assert (Hfirst : firstFetchProtocol defaultFetchProtocols (gerrit.Fetch rev)
                     EmptyString = "http")
    by (cbv [defaultFetchProtocols firstFetchProtocol]; by rewrite Hhttp).
  split.
  - intros src Hurl Hproto Huser. unfold Resolver.resolveFetchUrlRef.
    rewrite Hurl, Hproto, Huser. compare_strings. by rewrite Hfirst, Hhttp.
  - intros params Hurl Hproto Huser. unfold ParamsResolver.resolveFetchUrlRef.
    rewrite Hurl, Hproto, Huser. compare_strings. by rewrite Hfirst, Hhttp.
Qed.

Lemma resolve_prefers_http_witness :
  Resolver.resolveFetchUrlRef src_unset rev_http_and_anon
  = (gerrit.URL http_info, gerrit.FetchInfo_Ref http_info, None)
  /\ ParamsResolver.resolveFetchUrlRef params_unset rev_http_and_anon
     = (gerrit.URL http_info, gerrit.FetchInfo_Ref http_info, None).
Proof.
  destruct (resolve_prefers_http rev_http_and_anon http_info) as [Hs Hp];
    [reflexivity |].
  split; [apply (Hs src_unset) | apply (Hp params_unset)]; reflexivity.
Defined.

(** Neither resolver returns a URL together with an error: when the result
    has an error, its URL is empty. *)
Theorem resolve_error_comes_without_url (rev : gerrit.RevisionInfo) :
  (forall src : Source,
      (Resolver.resolveFetchUrlRef src rev).2 = None
      \/ (Resolver.resolveFetchUrlRef src rev).1.1 = EmptyString)
  /\
  (forall params : ParamsResolver.inParams,
      (ParamsResolver.resolveFetchUrlRef params rev).2 = None
      \/ (ParamsResolver.resolveFetchUrlRef params rev).1.1 = EmptyString).
Proof.
  split.
  - intros src. unfold Resolver.resolveFetchUrlRef.
    destruct (decide (PrivateKeyUser src <> EmptyString)).
    + destruct (negb _); [by right|].
      destruct (GoStrings.SplitAfterN _ _ _) as [|p0 [|p1 [|p2 l]]];
        try (by right).
      destruct (decide (_ = EmptyString)); [|by left].
      destruct (gerrit.Fetch rev !! _); [by left | by right].
    + destruct (decide (_ = EmptyString)) as [->|]; [|by left].
      destruct (gerrit.Fetch rev !! _); [by left | by right].
  - intros params. unfold ParamsResolver.resolveFetchUrlRef.
    destruct (decide (ParamsResolver.PrivateKeyUser params <> EmptyString)).
    + destruct (negb _); [by right|].
      destruct (GoStrings.SplitAfterN _ _ _) as [|p0 [|p1 [|p2 l]]];
        try (by right).
      destruct (decide (_ = EmptyString)); [|by left].
      destruct (gerrit.Fetch rev !! _); [by left | by right].
    + destruct (decide (_ = EmptyString)) as [->|]; [|by left].
      destruct (gerrit.Fetch rev !! _); [by left | by right].
Qed.

Lemma Resolver_inserts_user_witness :
  Resolver.resolveFetchUrlRef src_key rev0
  = ("ssh://" +:+ PrivateKeyUser src_key +:+ "@" +:+ "host/repo",
     gerrit.Ref rev0, None).
Proof.
  apply (Resolver_inserts_user src_key rev0 "host/repo");
    first [discriminate | reflexivity].
Defined.

(** ** The files of the broker *)

Lemma files_kept_refl (w : os.World) : files_kept w w.
Proof. by intros q f. Qed.

Lemma files_kept_trans (w1 w2 w3 : os.World) :
  files_kept w1 w2 -> files_kept w2 w3 -> files_kept w1 w3.
Proof. intros H1 H2 q f Hq. eauto. Qed.

Lemma files_kept_eq (w w' : os.World) :
  os.files w' = os.files w -> files_kept w w'.
Proof. intros E q f. by rewrite E. Qed.

Lemma files_kept_new (w w' : os.World) (path : string) (f : os.File) :
  os.files w !! path = None ->
  os.files w' = <[path := f]> (os.files w) ->
  files_kept w w'.
Proof.
  intros Hfree E q g Hq. rewrite E.
  rewrite lookup_insert_ne; [done | congruence].
Qed.

Lemma writeAuthTempFile_kept (suffix contents path : string)
    (err : option error) (w w' : os.World) :
  writeAuthTempFile suffix contents w = (path, err, w') -> files_kept w w'.
Proof.
  intros E. apply writeAuthTempFile_spec in E as [_ [(_ & _ & F) | (_ & Hfree & F)]].
  - by apply files_kept_eq.
  - by eapply files_kept_new.
Qed.

Lemma storePrivateKey_kept (privateKey path : string) (err : option error)
    (w w' : os.World) :
  storePrivateKey privateKey w = (path, err, w') ->
  files_kept w w' /\ only_files w w'.
Proof.
  destruct (decide (privateKey = EmptyString)) as [->|Hkey].
  - intros [= _ _ <-]. split; [apply files_kept_refl | apply only_files_refl].
  - intros E.
    apply (storePrivateKey_spec _ _ _ _ _ Hkey) in E
      as [O [(_ & _ & F) | (_ & Hfree & F)]]; split; try done.
    + by apply files_kept_eq.
    + by eapply files_kept_new.
Qed.

(** Closes the parts of a goal that say that nothing has changed. *)
Ltac unchanged :=
  split_and!; try done;
  first [apply files_kept_refl | apply only_files_refl | idtac].

(** An eta rule for the results of the broker's operations. *)
Lemma result_without_error {A B C : Type} (r : A * option error * B * C) :
  r.1.1.2 = None -> r = (r.1.1.1, None, r.1.2, r.2).
Proof. destruct r as [[[a e] b] c]. cbn. by intros ->. Qed.

Section AgentFiles.

Import AgentAuth.

(** Once the cookie file is recorded, [cookiesPath] returns its path and
    does nothing else. *)
Lemma Agent_cookiesPath_memo (am : authManager) (w : os.World) :
  cookies am <> EmptyString -> cookiesPath_ am <> EmptyString ->
  cookiesPath am w = (cookiesPath_ am, None, am, w).
Proof. intros H1 H2. unfold cookiesPath. by compare_strings. Qed.

Lemma Agent_cookiesPath_spec (am am' : authManager) (w w' : os.World)
    (path : string) (err : option error) :
  cookies am <> EmptyString -> cookiesPath_ am = EmptyString ->
  cookiesPath am w = (path, err, am', w') ->
  am' = set_cookiesPath_ path am
  /\ writeAuthTempFile "concourse-gerrit-cookies" (cookies am) w = (path, err, w').
Proof.
  intros H1 H2. unfold cookiesPath. compare_strings.
  destruct (writeAuthTempFile _ _ w) as [[p e'] w0]. by intros [= <- <- <- <-].
Qed.

Lemma Agent_cookiesPath_frame (am am' : authManager) (w w' : os.World)
    (path : string) (err : option error) :
  cookiesPath am w = (path, err, am', w') ->
  files_kept w w' /\ only_files w w' /\ agent_config am' = agent_config am
  /\ credsPath_ am' = credsPath_ am /\ sshAgentVars am' = sshAgentVars am.
Proof.
  unfold cookiesPath. compare_strings.
  - intros [= _ _ <- <-]. by unchanged.
  - destruct (writeAuthTempFile _ _ w) as [[p e'] w0] eqn:E.
    intros [= _ _ <- <-]. split_and!; try done.
    + by eapply writeAuthTempFile_kept.
    + by apply writeAuthTempFile_spec in E as [? _].
  - intros [= _ _ <- <-]. by unchanged.
Qed.

Lemma Agent_credsPath_frame (am am' : authManager) (w w' : os.World)
    (path : string) (err : option error) :
  credsPath am w = (path, err, am', w') ->
  files_kept w w' /\ only_files w w' /\ agent_config am' = agent_config am
  /\ cookiesPath_ am' = cookiesPath_ am /\ sshAgentVars am' = sshAgentVars am.
Proof.
  unfold credsPath. compare_strings.
  - intros [= _ _ <- <-]. by unchanged.
  - destruct (_ || _).
    + intros [= _ _ <- <-]. by unchanged.
    + destruct (writeAuthTempFile _ _ w) as [[p e'] w0] eqn:E.
      intros [= _ _ <- <-]. split_and!; try done.
      * by eapply writeAuthTempFile_kept.
      * by apply writeAuthTempFile_spec in E as [? _].
  - intros [= _ _ <- <-]. by unchanged.
Qed.

End AgentFiles.

(** ** Subprocesses and the environment *)

Lemma CombinedOutput_frame (c : os.Command) (w w' : os.World) (output : string)
    (err : option error) :
  os.CombinedOutput c w = (output, err, w') ->
  os.files w' = os.files w /\ os.environ w' = os.environ w
  /\ os.logged w' = os.logged w /\ os.commands w' = os.commands w ++ [c].
Proof.
  unfold os.CombinedOutput. destruct (os.next w) as [o w0] eqn:E.
  apply next_keeps in E as (Hf & Hl & He & Hc).
  intros [= _ _ <-]. cbn. by rewrite Hf, Hl, He, Hc.
Qed.

Lemma Run_frame (c : os.Command) (w w' : os.World) (err : option error) :
  os.Run c w = (err, w') ->
  os.files w' = os.files w /\ os.environ w' = os.environ w
  /\ os.logged w' = os.logged w /\ os.commands w' = os.commands w ++ [c].
Proof.
  unfold os.Run. destruct (os.next w) as [o w0] eqn:E.
  apply next_keeps in E as (Hf & Hl & He & Hc).
  intros [= _ <-]. cbn. by rewrite Hf, Hl, He, Hc.
Qed.

Lemma Executable_frame (w w' : os.World) (path : string) (err : option error) :
  os.Executable w = (path, err, w') ->
  os.files w' = os.files w /\ only_files w w'.
Proof.
  unfold os.Executable. destruct (os.next w) as [o w0] eqn:E.
  apply next_only_files in E as [Ho Hf].
  by destruct (os.failure o); intros [= _ _ <-].
Qed.

Lemma Setenv_frame (key value : string) (w w' : os.World) (err : option error) :
  os.Setenv key value w = (err, w') ->
  os.files w' = os.files w /\ os.commands w' = os.commands w
  /\ os.logged w' = os.logged w.
Proof.
  unfold os.Setenv. destruct (decide (key = EmptyString)); [by intros [= _ <-]|].
  by destruct (_ || _); intros [= _ <-].
Qed.

Lemma scanLine_frame (s : string) (vars : list string) (w : os.World) :
  os.files (AgentAuth.scanLine s (vars, w)).2 = os.files w
  /\ os.commands (AgentAuth.scanLine s (vars, w)).2 = os.commands w
  /\ os.logged (AgentAuth.scanLine s (vars, w)).2 = os.logged w.
Proof.
  unfold AgentAuth.scanLine.
  destruct (GoStrings.Split s ";") as [|a0 rest]; [done|].
  destruct (GoStrings.Contains a0 "="); [|done].
  destruct (GoStrings.Split a0 "=") as [|e0 [|e1 l]]; [done..|].
  destruct (os.Setenv e0 e1 w) as [err w'] eqn:E.
  by apply Setenv_frame in E.
Qed.

Lemma scanAgentOutput_frame (output : string) (w : os.World) :
  os.files (AgentAuth.scanAgentOutput output w).2 = os.files w
  /\ os.commands (AgentAuth.scanAgentOutput output w).2 = os.commands w
  /\ os.logged (AgentAuth.scanAgentOutput output w).2 = os.logged w.
Proof.
  unfold AgentAuth.scanAgentOutput.
  generalize (GoStrings.Split output LF), (@nil string).
  intros lines. revert w.
  induction lines as [|s lines IH]; intros w vars; [done|].
  cbn [foldl].
  destruct (AgentAuth.scanLine s (vars, w)) as [vars1 w1] eqn:E.
  pose proof (scanLine_frame s vars w) as (Hf & Hc & Hl). rewrite E in *.
  cbn in Hf, Hc, Hl. destruct (IH w1 vars1) as (Hf' & Hc' & Hl').
  split_and!; congruence.
Qed.

Section AgentKey.

Import AgentAuth.

Lemma sshAddKey_spec (am am' : authManager) (w w' : os.World)
    (err : option error) :
  sshPrivateKey am <> EmptyString ->
  sshAddKey am w = (err, am', w') ->
  agent_config am' = agent_config am /\ cookiesPath_ am' = cookiesPath_ am
  /\ files_kept w w' /\ os.logged w' = os.logged w
  /\ ((am' = am /\ only_files w w' /\ err <> None)
      \/ (credsPath_ am' <> EmptyString
          /\ os.files w !! credsPath_ am' = None
          /\ os.files w'
             = <[credsPath_ am' := privateFile (sshPrivateKey am)]> (os.files w))).
Proof.
  intros Hkey. unfold sshAddKey.
  destruct (decide (sshPrivateKey am <> EmptyString)); [|done].
  destruct (storePrivateKey _ w) as [[p e1] w1] eqn:E1.
  pose proof (storePrivateKey_kept _ _ _ _ _ E1) as [K1 O1].
  apply (storePrivateKey_spec _ _ _ _ _ Hkey) in E1 as [_ S1].
  destruct e1 as [e1|].
  { intros [= <- <- <-]. split_and!; try done.
    - by destruct O1 as (_ & _ & ?).
    - left. by split_and!. }
  destruct S1 as [(_ & ? & _) | (Hp & Hfree & F1)]; [done|]. cbn in F1.
  destruct (os.CombinedOutput _ w1) as [[out e2] w2] eqn:E2.
  apply CombinedOutput_frame in E2 as (F2 & _ & L2 & _).
  assert (Hlog1 : os.logged w1 = os.logged w) by by destruct O1 as (_ & _ & ?).
  destruct e2 as [e2|].
  { intros [= <- <- <-]. split_and!; try done.
    - eapply files_kept_new; [exact Hfree | by rewrite F2].
    - congruence.
    - right. cbn. by rewrite F2. }
  destruct (scanAgentOutput out w2) as [vars w3] eqn:E3.
  pose proof (scanAgentOutput_frame out w2) as (F3 & _ & L3).
  rewrite E3 in F3, L3. cbn in F3, L3.
  destruct (os.Executable w3) as [[exe e4] w4] eqn:E4.
  apply Executable_frame in E4 as (F4 & _ & _ & L4).
  destruct e4 as [e4|].
  { intros [= <- <- <-]. split_and!; try done.
    - eapply files_kept_new; [exact Hfree | by rewrite F4, F3, F2].
    - congruence.
    - right. cbn. by rewrite F4, F3, F2. }
  destruct (os.CombinedOutput _ w4) as [[out5 e5] w5] eqn:E5.
  apply CombinedOutput_frame in E5 as (F5 & _ & L5 & _).
  intros [= <- <- <-]. split_and!; try done.
  - eapply files_kept_new; [exact Hfree | by rewrite F5, F4, F3, F2].
  - congruence.
  - right. cbn. by rewrite F5, F4, F3, F2.
Qed.

(** [sshAddKey] with a key: either the key was not stored, and then the
    broker is as before and no subprocess was run; or its path is recorded,
    under a name that was free, and the file holds the key with mode 0600,
    whatever became of the agent and of [ssh-add].  The configuration, the
    cookie path, the log and the other files are left as they were. *)
Theorem sshAddKey_stores_and_records (am am' : authManager) (w w' : os.World)
    (err : option error) :
  sshPrivateKey am <> EmptyString ->
  sshAddKey am w = (err, am', w') ->
  agent_config am' = agent_config am /\ cookiesPath_ am' = cookiesPath_ am
  /\ files_kept w w' /\ os.logged w' = os.logged w
  /\ ((am' = am /\ only_files w w' /\ err <> None)
      \/ (credsPath_ am' <> EmptyString
          /\ os.files w !! credsPath_ am' = None
          /\ os.files w'
             = <[credsPath_ am' := privateFile (sshPrivateKey am)]> (os.files w))).
Proof. apply sshAddKey_spec. Qed.

End AgentKey.

Section FileFiles.

Import FileAuth.

Lemma File_cookiesPath_memo (am : authManager) (w : os.World) :
  cookies am <> EmptyString -> cookiesPath_ am <> EmptyString ->
  cookiesPath am w = (cookiesPath_ am, None, am, w).
Proof. intros H1 H2. unfold cookiesPath. by compare_strings. Qed.

Lemma File_cookiesPath_spec (am am' : authManager) (w w' : os.World)
    (path : string) (err : option error) :
  cookies am <> EmptyString -> cookiesPath_ am = EmptyString ->
  cookiesPath am w = (path, err, am', w') ->
  am' = set_cookiesPath_ path am
  /\ writeAuthTempFile "concourse-gerrit-cookies" (cookies am) w = (path, err, w').
Proof.
  intros H1 H2. unfold cookiesPath. compare_strings.
  destruct (writeAuthTempFile _ _ w) as [[p e'] w0]. by intros [= <- <- <- <-].
Qed.

Lemma File_cookiesPath_frame (am am' : authManager) (w w' : os.World)
    (path : string) (err : option error) :
  cookiesPath am w = (path, err, am', w') ->
  files_kept w w' /\ only_files w w' /\ file_config am' = file_config am
  /\ credsPath_ am' = credsPath_ am.
Proof.
  unfold cookiesPath. compare_strings.
  - intros [= _ _ <- <-]. by unchanged.
  - destruct (writeAuthTempFile _ _ w) as [[p e'] w0] eqn:E.
    intros [= _ _ <- <-]. split_and!; try done.
    + by eapply writeAuthTempFile_kept.
    + by apply writeAuthTempFile_spec in E as [? _].
  - intros [= _ _ <- <-]. by unchanged.
Qed.

Lemma File_credsPath_frame (am am' : authManager) (w w' : os.World)
    (path : string) (err : option error) :
  credsPath am w = (path, err, am', w') ->
  files_kept w w' /\ only_files w w' /\ file_config am' = file_config am
  /\ cookiesPath_ am' = cookiesPath_ am.
Proof.
  unfold credsPath. compare_strings.
  - intros [= _ _ <- <-]. by unchanged.
  - destruct (storePrivateKey _ w) as [[p e'] w0] eqn:E.
    apply storePrivateKey_kept in E as [K O].
    by intros [= _ _ <- <-].
  - destruct (_ || _).
    + intros [= _ _ <- <-]. by unchanged.
    + destruct (writeAuthTempFile _ _ w) as [[p e'] w0] eqn:E.
      intros [= _ _ <- <-]. split_and!; try done.
      * by eapply writeAuthTempFile_kept.
      * by apply writeAuthTempFile_spec in E as [? _].
  - intros [= _ _ <- <-]. by unchanged.
Qed.

End FileFiles.

Lemma singleton_entry (k v : string) :
  <[k := v]> (∅ : gmap string string) = {[ k := v ]}.
Proof. apply insert_empty. Qed.

(** ** The cookie file *)

(** With cookies and neither a key nor a user name, a [gitConfigArgs] that
    returns no error returns the single entry [http.cookieFile]; it points to
    a file of mode 0600 under a name that was free, which holds the
    configured cookies and is recorded for [cleanup].  Nothing but the files
    has changed. *)
Theorem gitConfigArgs_cookies_only :
  (forall (am am' : AgentAuth.authManager) (w w' : os.World)
          (args : option (gmap string string)),
      AgentAuth.sshPrivateKey am = EmptyString ->
      AgentAuth.username am = EmptyString ->
      AgentAuth.cookies am <> EmptyString ->
      AgentAuth.cookiesPath_ am = EmptyString ->
      AgentAuth.gitConfigArgs am w = (args, None, am', w') ->
      args = Some {[ cookieFileKey := AgentAuth.cookiesPath_ am' ]}
      /\ AgentAuth.cookiesPath_ am' <> EmptyString
      /\ os.files w !! AgentAuth.cookiesPath_ am' = None
      /\ os.files w' !! AgentAuth.cookiesPath_ am'
         = Some (privateFile (AgentAuth.cookies am))
      /\ only_files w w')
  /\
  (forall (am am' : FileAuth.authManager) (w w' : os.World)
          (args : option (gmap string string)),
      FileAuth.sshPrivateKey am = EmptyString ->
      FileAuth.username am = EmptyString ->
      FileAuth.cookies am <> EmptyString ->
      FileAuth.cookiesPath_ am = EmptyString ->
      FileAuth.gitConfigArgs am w = (args, None, am', w') ->
      args = Some {[ cookieFileKey := FileAuth.cookiesPath_ am' ]}
      /\ FileAuth.cookiesPath_ am' <> EmptyString
      /\ os.files w !! FileAuth.cookiesPath_ am' = None
      /\ os.files w' !! FileAuth.cookiesPath_ am'
         = Some (privateFile (FileAuth.cookies am))
      /\ only_files w w').
Proof.
  split; intros am am' w w' args Hkey Huser Hcookies Hpath.
  - unfold AgentAuth.gitConfigArgs, AgentAuth.cookieFileArg.
    rewrite Hkey, Huser. compare_strings.
    destruct (AgentAuth.cookiesPath am w) as [[[p e] am1] w1] eqn:E.
    apply (Agent_cookiesPath_spec _ _ _ _ _ _ Hcookies Hpath) in E as [-> E].
    destruct e; intros [= <- <- <-].
    apply writeAuthTempFile_spec in E as [O [(_ & ? & _) | (Hp & Hfree & F)]];
      [done|].
    rewrite singleton_entry. cbn [AgentAuth.cookiesPath_ AgentAuth.set_cookiesPath_].
    split_and!; try done. by rewrite F, lookup_insert_eq.
  - unfold FileAuth.gitConfigArgs, FileAuth.cookieFileArg.
    rewrite Hkey, Huser. compare_strings.
    destruct (FileAuth.cookiesPath am w) as [[[p e] am1] w1] eqn:E.
    apply (File_cookiesPath_spec _ _ _ _ _ _ Hcookies Hpath) in E as [-> E].
    destruct e; intros [= <- <- <-].
    apply writeAuthTempFile_spec in E as [O [(_ & ? & _) | (Hp & Hfree & F)]];
      [done|].
    rewrite singleton_entry. cbn [FileAuth.cookiesPath_ FileAuth.set_cookiesPath_].
    split_and!; try done. by rewrite F, lookup_insert_eq.
Qed.

Lemma Agent_gerritAuth_cookies (am am' : AgentAuth.authManager)
    (w w' : os.World) (auth : option gerrit.Auth) :
  AgentAuth.username am = EmptyString ->
  AgentAuth.password am = EmptyString ->
  AgentAuth.cookies am <> EmptyString ->
  AgentAuth.cookiesPath_ am = EmptyString ->
  AgentAuth.gerritAuth am w = (auth, None, am', w') ->
  auth = Some (gerrit.GitCookieFileAuth (AgentAuth.cookiesPath_ am'))
  /\ am' = AgentAuth.set_cookiesPath_ (AgentAuth.cookiesPath_ am') am
  /\ AgentAuth.cookiesPath_ am' <> EmptyString
  /\ os.files w !! AgentAuth.cookiesPath_ am' = None
  /\ os.files w' !! AgentAuth.cookiesPath_ am'
     = Some (privateFile (AgentAuth.cookies am))
  /\ only_files w w'.
Proof.
  intros Huser Hpw Hcookies Hpath.
  unfold AgentAuth.gerritAuth. rewrite Huser, Hpw. compare_strings.
  destruct (AgentAuth.cookiesPath am w) as [[[p e] am1] w1] eqn:E.
  apply (Agent_cookiesPath_spec _ _ _ _ _ _ Hcookies Hpath) in E as [-> E].
  destruct e; intros [= <- <- <-].
  apply writeAuthTempFile_spec in E as [O [(_ & ? & _) | (Hp & Hfree & F)]];
    [done|].
  cbn [AgentAuth.cookiesPath_ AgentAuth.set_cookiesPath_].
  split_and!; try done. by rewrite F, lookup_insert_eq.
Qed.

Lemma File_gerritAuth_cookies (am am' : FileAuth.authManager)
    (w w' : os.World) (auth : option gerrit.Auth) :
  FileAuth.username am = EmptyString ->
  FileAuth.password am = EmptyString ->
  FileAuth.cookies am <> EmptyString ->
  FileAuth.cookiesPath_ am = EmptyString ->
  FileAuth.gerritAuth am w = (auth, None, am', w') ->
  auth = Some (gerrit.GitCookieFileAuth (FileAuth.cookiesPath_ am'))
  /\ am' = FileAuth.set_cookiesPath_ (FileAuth.cookiesPath_ am') am
  /\ FileAuth.cookiesPath_ am' <> EmptyString
  /\ os.files w !! FileAuth.cookiesPath_ am' = None
  /\ os.files w' !! FileAuth.cookiesPath_ am'
     = Some (privateFile (FileAuth.cookies am))
  /\ only_files w w'.
Proof.
  intros Huser Hpw Hcookies Hpath.
  unfold FileAuth.gerritAuth. rewrite Huser, Hpw. compare_strings.
  destruct (FileAuth.cookiesPath am w) as [[[p e] am1] w1] eqn:E.
  apply (File_cookiesPath_spec _ _ _ _ _ _ Hcookies Hpath) in E as [-> E].
  destruct e; intros [= <- <- <-].
  apply writeAuthTempFile_spec in E as [O [(_ & ? & _) | (Hp & Hfree & F)]];
    [done|].
  cbn [FileAuth.cookiesPath_ FileAuth.set_cookiesPath_].
  split_and!; try done. by rewrite F, lookup_insert_eq.
Qed.

(** With cookies and neither a user name nor a password, a [gerritAuth]
    that returns no error returns the cookie-file mechanism for a file as
    above: new, of mode 0600, holding the cookies, recorded for [cleanup]. *)
Theorem gerritAuth_cookies_only :
  (forall (am am' : AgentAuth.authManager) (w w' : os.World)
          (auth : option gerrit.Auth),
      AgentAuth.username am = EmptyString ->
      AgentAuth.password am = EmptyString ->
      AgentAuth.cookies am <> EmptyString ->
      AgentAuth.cookiesPath_ am = EmptyString ->
      AgentAuth.gerritAuth am w = (auth, None, am', w') ->
      auth = Some (gerrit.GitCookieFileAuth (AgentAuth.cookiesPath_ am'))
      /\ am' = AgentAuth.set_cookiesPath_ (AgentAuth.cookiesPath_ am') am
      /\ AgentAuth.cookiesPath_ am' <> EmptyString
      /\ os.files w !! AgentAuth.cookiesPath_ am' = None
      /\ os.files w' !! AgentAuth.cookiesPath_ am'
         = Some (privateFile (AgentAuth.cookies am))
      /\ only_files w w')
  /\
  (forall (am am' : FileAuth.authManager) (w w' : os.World)
          (auth : option gerrit.Auth),
      FileAuth.username am = EmptyString ->
      FileAuth.password am = EmptyString ->
      FileAuth.cookies am <> EmptyString ->
      FileAuth.cookiesPath_ am = EmptyString ->
      FileAuth.gerritAuth am w = (auth, None, am', w') ->
      auth = Some (gerrit.GitCookieFileAuth (FileAuth.cookiesPath_ am'))
      /\ am' = FileAuth.set_cookiesPath_ (FileAuth.cookiesPath_ am') am
      /\ FileAuth.cookiesPath_ am' <> EmptyString
      /\ os.files w !! FileAuth.cookiesPath_ am' = None
      /\ os.files w' !! FileAuth.cookiesPath_ am'
         = Some (privateFile (FileAuth.cookies am))
      /\ only_files w w').
Proof.
  split; intros am am' w w' auth.
  - apply Agent_gerritAuth_cookies.
  - apply File_gerritAuth_cookies.
Qed.


(** ** The credential file *)

(** With a user name and neither a key nor cookies, a [gitConfigArgs] that
    returns no error returns the single entry [credential.helper], the
    command [!cat] of a file of mode 0600 under a name that was free; the
    file holds the two lines [username=...] and [password=...] and is
    recorded for [cleanup]. *)
Theorem gitConfigArgs_credentials_only :
  (forall (am am' : AgentAuth.authManager) (w w' : os.World)
          (args : option (gmap string string)),
      AgentAuth.sshPrivateKey am = EmptyString ->
      AgentAuth.username am <> EmptyString ->
      AgentAuth.cookies am = EmptyString ->
      AgentAuth.credsPath_ am = EmptyString ->
      AgentAuth.gitConfigArgs am w = (args, None, am', w') ->
      args = Some {[ credentialHelperKey := "!cat " +:+ AgentAuth.credsPath_ am' ]}
      /\ AgentAuth.credsPath_ am' <> EmptyString
      /\ os.files w !! AgentAuth.credsPath_ am' = None
      /\ os.files w' !! AgentAuth.credsPath_ am'
         = Some (privateFile
                   (credentialFile (AgentAuth.username am) (AgentAuth.password am)))
      /\ only_files w w')
  /\
  (forall (am am' : FileAuth.authManager) (w w' : os.World)
          (args : option (gmap string string)),
      FileAuth.sshPrivateKey am = EmptyString ->
      FileAuth.username am <> EmptyString ->
      FileAuth.cookies am = EmptyString ->
      FileAuth.credsPath_ am = EmptyString ->
      FileAuth.gitConfigArgs am w = (args, None, am', w') ->
      args = Some {[ credentialHelperKey := "!cat " +:+ FileAuth.credsPath_ am' ]}
      /\ FileAuth.credsPath_ am' <> EmptyString
      /\ os.files w !! FileAuth.credsPath_ am' = None
      /\ os.files w' !! FileAuth.credsPath_ am'
         = Some (privateFile
                   (credentialFile (FileAuth.username am) (FileAuth.password am)))
      /\ only_files w w').
Proof.
  split; intros am am' w w' args Hkey Huser Hcookies Hpath.
  - unfold AgentAuth.gitConfigArgs, AgentAuth.credsPath.
    rewrite Hkey, Hpath.
    destruct (decide (_ /\ _)) as [_|Hn]; [|by destruct Hn].
    compare_strings.
    destruct (_ || _); [done|].
    destruct (writeAuthTempFile _ _ w) as [[p err] w1] eqn:E.
    unfold AgentAuth.cookieFileArg.
    cbn [AgentAuth.cookies AgentAuth.credsPath_ AgentAuth.set_credsPath_].
    rewrite Hcookies. compare_strings.
    destruct err; intros [= <- <- <-].
    apply writeAuthTempFile_spec in E as [O [(_ & ? & _) | (Hp & Hfree & F)]];
      [done|].
    rewrite singleton_entry. cbn [AgentAuth.credsPath_ AgentAuth.set_credsPath_].
    split_and!; try done. by rewrite F, lookup_insert_eq.
  - unfold FileAuth.gitConfigArgs, FileAuth.credsPath.
    rewrite Hkey, Hpath. compare_strings.
    destruct (_ || _); [done|].
    destruct (writeAuthTempFile _ _ w) as [[p err] w1] eqn:E.
    unfold FileAuth.cookieFileArg.
    cbn [FileAuth.cookies FileAuth.credsPath_ FileAuth.set_credsPath_].
    rewrite Hcookies. compare_strings.
    destruct err; intros [= <- <- <-].
    apply writeAuthTempFile_spec in E as [O [(_ & ? & _) | (Hp & Hfree & F)]];
      [done|].
    rewrite singleton_entry. cbn [FileAuth.credsPath_ FileAuth.set_credsPath_].
    split_and!; try done. by rewrite F, lookup_insert_eq.
Qed.

(** ** The key of the broker without the agent *)

(** In the broker without the agent a key is stored only when a user name
    is configured.  Without one, and without cookies, [gitConfigArgs] returns
    a [core.sshCommand] whose identity file is the empty path, and writes
    nothing. *)
Theorem File_key_without_username_is_not_stored (am : FileAuth.authManager)
    (w : os.World) :
  FileAuth.sshPrivateKey am <> EmptyString ->
  FileAuth.username am = EmptyString ->
  FileAuth.cookies am = EmptyString ->
  FileAuth.gitConfigArgs am w
  = (Some {[ sshCommandKey :=
               "ssh -i '' -F /dev/null -o StrictHostKeyChecking=no" ]},
     None, am, w).
Proof.
  intros Hkey Huser Hcookies.
  unfold FileAuth.gitConfigArgs, FileAuth.credsPath, FileAuth.cookieFileArg.
  rewrite Huser, Hcookies. by compare_strings.
Qed.

(** With a key and a user name and without cookies, a [gitConfigArgs] of the
    broker without the agent that returns no error names in [core.sshCommand]
    a file of mode 0600 under a name that was free; the file holds the key
    and is recorded for [cleanup].  The user name and the password are not
    checked on this path. *)
Theorem File_key_is_stored (am am' : FileAuth.authManager) (w w' : os.World)
    (args : option (gmap string string)) :
  FileAuth.sshPrivateKey am <> EmptyString ->
  FileAuth.username am <> EmptyString ->
  FileAuth.cookies am = EmptyString ->
  FileAuth.credsPath_ am = EmptyString ->
  FileAuth.gitConfigArgs am w = (args, None, am', w') ->
  args = Some {[ sshCommandKey :=
                   "ssh -i '" +:+ FileAuth.credsPath_ am' +:+
                   "' -F /dev/null -o StrictHostKeyChecking=no" ]}
  /\ FileAuth.credsPath_ am' <> EmptyString
  /\ os.files w !! FileAuth.credsPath_ am' = None
  /\ os.files w' !! FileAuth.credsPath_ am'
     = Some (privateFile (FileAuth.sshPrivateKey am))
  /\ only_files w w'.
Proof.
  intros Hkey Huser Hcookies Hpath.
  unfold FileAuth.gitConfigArgs, FileAuth.credsPath.
  rewrite Hpath. compare_strings.
  destruct (storePrivateKey _ w) as [[p err] w1] eqn:E.
  unfold FileAuth.cookieFileArg.
  cbn [FileAuth.cookies FileAuth.credsPath_ FileAuth.set_credsPath_].
  rewrite Hcookies. compare_strings.
  destruct err; intros [= <- <- <-].
  apply (storePrivateKey_spec _ _ _ _ _ Hkey) in E
    as [O [(_ & ? & _) | (Hp & Hfree & F)]]; [done|].
  rewrite singleton_entry. cbn [FileAuth.credsPath_ FileAuth.set_credsPath_].
  split_and!; try done. by rewrite F, lookup_insert_eq.
Qed.

(** ** What the operations of the broker leave alone *)

Lemma Remove_frame (path : string) (w w' : os.World) (err : option error) :
  os.Remove path w = (err, w') ->
  os.environ w' = os.environ w /\ os.commands w' = os.commands w
  /\ forall q, q <> path -> os.files w' !! q = os.files w !! q.
Proof.
  unfold os.Remove. destruct (os.next w) as [o w0] eqn:E.
  apply next_keeps in E as (Hf & Hl & He & Hc).
  destruct (os.failure o); [intros [= _ <-]; by rewrite Hf|].
  destruct (os.files w0 !! path); intros [= _ <-]; cbn; rewrite ?Hf;
    split_and!; try done.
  intros q Hq. by rewrite lookup_delete_ne.
Qed.

Lemma removeAuthTempFile_frame (path : string) (w : os.World) :
  os.environ (removeAuthTempFile path w) = os.environ w
  /\ os.commands (removeAuthTempFile path w) = os.commands w
  /\ forall q, q <> path ->
       os.files (removeAuthTempFile path w) !! q = os.files w !! q.
Proof.
  unfold removeAuthTempFile. destruct (os.Remove path w) as [err w'] eqn:E.
  apply Remove_frame in E. by destruct err.
Qed.

Section AgentFrames.

Import AgentAuth.

Lemma Agent_gerritAuth_frame (am am' : authManager) (w w' : os.World)
    (auth : option gerrit.Auth) (err : option error) :
  gerritAuth am w = (auth, err, am', w') ->
  files_kept w w' /\ only_files w w' /\ agent_config am' = agent_config am
  /\ credsPath_ am' = credsPath_ am /\ sshAgentVars am' = sshAgentVars am.
Proof.
  unfold gerritAuth. compare_strings.
  - destruct (digest am); intros [= _ _ <- <-]; by unchanged.
  - intros [= _ _ <- <-]. by unchanged.
  - destruct (cookiesPath am w) as [[[p e'] am1] w1] eqn:E.
    apply Agent_cookiesPath_frame in E. by destruct e'; intros [= _ _ <- <-].
  - intros [= _ _ <- <-]. by unchanged.
Qed.

Lemma Agent_cookieFileArg_frame (args : gmap string string)
    (am am' : authManager) (w w' : os.World)
    (res : option (gmap string string)) (err : option error) :
  cookieFileArg args am w = (res, err, am', w') ->
  files_kept w w' /\ only_files w w' /\ agent_config am' = agent_config am
  /\ credsPath_ am' = credsPath_ am /\ sshAgentVars am' = sshAgentVars am.
Proof.
  unfold cookieFileArg. compare_strings.
  - destruct (cookiesPath am w) as [[[p e'] am1] w1] eqn:E.
    apply Agent_cookiesPath_frame in E. by destruct e'; intros [= _ _ <- <-].
  - intros [= _ _ <- <-]. by unchanged.
Qed.

Lemma Agent_gitConfigArgs_frame (am am' : authManager) (w w' : os.World)
    (args : option (gmap string string)) (err : option error) :
  gitConfigArgs am w = (args, err, am', w') ->
  files_kept w w' /\ agent_config am' = agent_config am
  /\ os.logged w' = os.logged w
  /\ (sshPrivateKey am = EmptyString -> only_files w w').
Proof.
  unfold gitConfigArgs.
  destruct (decide (sshPrivateKey am <> EmptyString)) as [Hkey|Hkey].
  - destruct (sshAddKey am w) as [[e1 am1] w1] eqn:E1.
    apply (sshAddKey_spec _ _ _ _ _ Hkey) in E1
      as (C1 & _ & K1 & L1 & _).
    intros E2. apply Agent_cookieFileArg_frame in E2 as (K2 & O2 & C2 & _).
    split_and!; [by eapply files_kept_trans | congruence | | done].
    destruct O2 as (_ & _ & L2). congruence.
  - apply dec_stable in Hkey.
    destruct (decide (username am <> EmptyString)).
    + destruct (credsPath am w) as [[[p e1] am1] w1] eqn:E1.
      apply Agent_credsPath_frame in E1 as (K1 & O1 & C1 & _).
      destruct e1.
      * intros [= _ _ <- <-]. split_and!; try done. by destruct O1 as (_ & _ & ?).
      * intros E2. apply Agent_cookieFileArg_frame in E2 as (K2 & O2 & C2 & _).
        pose proof (only_files_trans _ _ _ O1 O2) as O.
        split_and!; [by eapply files_kept_trans | congruence | | done].
        by destruct O as (_ & _ & ?).
    + intros E2. apply Agent_cookieFileArg_frame in E2 as (K2 & O2 & C2 & _).
      split_and!; try done. by destruct O2 as (_ & _ & ?).
Qed.

Lemma Agent_cleanup_frame (am : authManager) (w : os.World) :
  agent_config (cleanup am w).1 = agent_config am
  /\ os.environ (cleanup am w).2 = os.environ w
  /\ (os.commands (cleanup am w).2 = os.commands w
      \/ os.commands (cleanup am w).2
         = os.commands w
           ++ [{| os.argv := ["ssh-agent"; "-k"];
                  os.env := Some (os.Assign <$> sshAgentVars am) |}])
  /\ forall q, q <> cookiesPath_ am -> q <> credsPath_ am ->
       os.files (cleanup am w).2 !! q = os.files w !! q.
Proof.
  unfold cleanup.
  set (w1 := if decide (cookiesPath_ am <> EmptyString)
             then removeAuthTempFile (cookiesPath_ am) w else w).
  set (w2 := if decide (credsPath_ am <> EmptyString)
             then removeAuthTempFile (credsPath_ am) w1 else w1).
  assert (H1 : os.environ w1 = os.environ w /\ os.commands w1 = os.commands w
               /\ forall q, q <> cookiesPath_ am ->
                    os.files w1 !! q = os.files w !! q).
  { subst w1. destruct (decide (cookiesPath_ am <> EmptyString));
      [apply removeAuthTempFile_frame | done]. }
  assert (H2 : os.environ w2 = os.environ w1 /\ os.commands w2 = os.commands w1
               /\ forall q, q <> credsPath_ am ->
                    os.files w2 !! q = os.files w1 !! q).
  { subst w2. destruct (decide (credsPath_ am <> EmptyString));
      [apply removeAuthTempFile_frame | done]. }
  destruct H1 as (E1 & C1 & F1), H2 as (E2 & C2 & F2).
  assert (Hgoal : forall am2,
             agent_config am2 = agent_config am ->
             sshAgentVars am2 = sshAgentVars am ->
             agent_config (sshKillAgent am2 w2).1 = agent_config am
             /\ os.environ (sshKillAgent am2 w2).2 = os.environ w
             /\ (os.commands (sshKillAgent am2 w2).2 = os.commands w
                 \/ os.commands (sshKillAgent am2 w2).2
                    = os.commands w
                      ++ [{| os.argv := ["ssh-agent"; "-k"];
                             os.env := Some (os.Assign <$> sshAgentVars am) |}])
             /\ forall q, q <> cookiesPath_ am -> q <> credsPath_ am ->
                  os.files (sshKillAgent am2 w2).2 !! q = os.files w !! q).
  { intros am2 Hc Hv. unfold sshKillAgent. rewrite Hv.
    destruct (sshAgentVars am) as [|v vars].
    - cbn [fst snd]. split_and!; [done | congruence | left; congruence |].
      intros q Hq1 Hq2. by rewrite F2, F1.
    - destruct (os.Run _ w2) as [e w3] eqn:E3.
      apply Run_frame in E3 as (F3 & E3 & _ & C3). cbn [fst snd].
      split_and!; [done | congruence | right; by rewrite C3, C2, C1 |].
      intros q Hq1 Hq2. by rewrite F3, F2, F1. }
  subst w1 w2.
  destruct (decide (cookiesPath_ am <> EmptyString));
    destruct (decide (credsPath_ am <> EmptyString)); cbn;
    compare_strings; cbn; by apply Hgoal.
Qed.

End AgentFrames.

Section FileFrames.

Import FileAuth.

Lemma File_gerritAuth_frame (am am' : authManager) (w w' : os.World)
    (auth : option gerrit.Auth) (err : option error) :
  gerritAuth am w = (auth, err, am', w') ->
  files_kept w w' /\ only_files w w' /\ file_config am' = file_config am.
Proof.
  unfold gerritAuth. compare_strings.
  - destruct (digest am); intros [= _ _ <- <-]; by unchanged.
  - intros [= _ _ <- <-]. by unchanged.
  - destruct (cookiesPath am w) as [[[p e'] am1] w1] eqn:E.
    apply File_cookiesPath_frame in E as (? & ? & ? & _).
    by destruct e'; intros [= _ _ <- <-].
  - intros [= _ _ <- <-]. by unchanged.
Qed.

Lemma File_cookieFileArg_frame (args : gmap string string)
    (am am' : authManager) (w w' : os.World)
    (res : option (gmap string string)) (err : option error) :
  cookieFileArg args am w = (res, err, am', w') ->
  files_kept w w' /\ only_files w w' /\ file_config am' = file_config am.
Proof.
  unfold cookieFileArg. compare_strings.
  - destruct (cookiesPath am w) as [[[p e'] am1] w1] eqn:E.
    apply File_cookiesPath_frame in E as (? & ? & ? & _).
    by destruct e'; intros [= _ _ <- <-].
  - intros [= _ _ <- <-]. by unchanged.
Qed.

Lemma File_gitConfigArgs_frame (am am' : authManager) (w w' : os.World)
    (args : option (gmap string string)) (err : option error) :
  gitConfigArgs am w = (args, err, am', w') ->
  files_kept w w' /\ only_files w w' /\ file_config am' = file_config am.
Proof.
  assert (Hcreds : forall k : string -> gmap string string,
    match credsPath am w with
    | (credsPath, Some e, am, w) => (None, Some e, am, w)
    | (credsPath, None, am, w) => cookieFileArg (k credsPath) am w
    end = (args, err, am', w') ->
    files_kept w w' /\ only_files w w' /\ file_config am' = file_config am).
  { intros k.
    destruct (credsPath am w) as [[[p e1] am1] w1] eqn:E1.
    apply File_credsPath_frame in E1 as (K1 & O1 & C1 & _).
    destruct e1; [by intros [= _ _ <- <-]|].
    intros E2. apply File_cookieFileArg_frame in E2 as (K2 & O2 & C2).
    split_and!;
      [by eapply files_kept_trans | by eapply only_files_trans | congruence]. }
  unfold gitConfigArgs.
  destruct (decide (sshPrivateKey am <> EmptyString)).
  - apply (Hcreds (fun credsPath =>
             <["core.sshCommand" :=
                 "ssh -i '" +:+ credsPath +:+
                 "' -F /dev/null -o StrictHostKeyChecking=no"]> ∅)).
  - destruct (decide (username am <> EmptyString)).
    + apply (Hcreds (fun credsPath =>
               <["credential.helper" := "!cat " +:+ credsPath]> ∅)).
    + apply File_cookieFileArg_frame.
Qed.

Lemma File_cleanup_frame (am : authManager) (w : os.World) :
  file_config (cleanup am w).1 = file_config am
  /\ os.environ (cleanup am w).2 = os.environ w
  /\ os.commands (cleanup am w).2 = os.commands w
  /\ forall q, q <> cookiesPath_ am -> q <> credsPath_ am ->
       os.files (cleanup am w).2 !! q = os.files w !! q.
Proof.
  unfold cleanup.
  pose proof (removeAuthTempFile_frame (cookiesPath_ am) w) as (E1 & C1 & F1).
  destruct (decide (cookiesPath_ am <> EmptyString));
    destruct (decide (credsPath_ am <> EmptyString)); cbn;
    compare_strings; cbn;
    repeat match goal with
           | |- context [removeAuthTempFile (credsPath_ am) ?x] =>
               let E := fresh "E" in let C := fresh "C" in let F := fresh "F" in
               pose proof (removeAuthTempFile_frame (credsPath_ am) x)
                 as (E & C & F);
               generalize dependent (removeAuthTempFile (credsPath_ am) x);
               intros
           end;
    split_and!; try done; try congruence;
    intros q Hq1 Hq2;
    repeat match goal with
           | H : forall q, q <> _ -> _ |- _ => rewrite H by done; clear H
           end; done.
Qed.

End FileFrames.

(** The operations of the broker never change what [newAuthManager] read
    from the configuration: the cookies, the user name, the password, the
    digest flag, the key and its passphrase. *)
Theorem broker_keeps_its_configuration :
  (forall (am : AgentAuth.authManager) (w : os.World),
      agent_config (AgentAuth.gerritAuth am w).1.2 = agent_config am
      /\ agent_config (AgentAuth.gitConfigArgs am w).1.2 = agent_config am
      /\ agent_config (AgentAuth.cleanup am w).1 = agent_config am)
  /\
  (forall (am : FileAuth.authManager) (w : os.World),
      file_config (FileAuth.gerritAuth am w).1.2 = file_config am
      /\ file_config (FileAuth.gitConfigArgs am w).1.2 = file_config am
      /\ file_config (FileAuth.cleanup am w).1 = file_config am).
Proof.
  split; intros am w; split_and!.
  - destruct (AgentAuth.gerritAuth am w) as [[[a e] am'] w'] eqn:E.
    by apply Agent_gerritAuth_frame in E as (_ & _ & ? & _).
  - destruct (AgentAuth.gitConfigArgs am w) as [[[a e] am'] w'] eqn:E.
    by apply Agent_gitConfigArgs_frame in E as (_ & ? & _).
  - apply Agent_cleanup_frame.
  - destruct (FileAuth.gerritAuth am w) as [[[a e] am'] w'] eqn:E.
    by apply File_gerritAuth_frame in E as (_ & _ & ?).
  - destruct (FileAuth.gitConfigArgs am w) as [[[a e] am'] w'] eqn:E.
    by apply File_gitConfigArgs_frame in E as (_ & _ & ?).
  - apply File_cleanup_frame.
Qed.

(** Before [cleanup] the broker creates files and touches no other: every
    file that exists when [gerritAuth] or [gitConfigArgs] is called exists
    afterwards with the same mode and contents. *)
Theorem broker_keeps_existing_files :
  (forall (am : AgentAuth.authManager) (w : os.World),
      files_kept w (AgentAuth.gerritAuth am w).2
      /\ files_kept w (AgentAuth.gitConfigArgs am w).2)
  /\
  (forall (am : FileAuth.authManager) (w : os.World),
      files_kept w (FileAuth.gerritAuth am w).2
      /\ files_kept w (FileAuth.gitConfigArgs am w).2).
Proof.
  split; intros am w; split.
  - destruct (AgentAuth.gerritAuth am w) as [[[a e] am'] w'] eqn:E.
    by apply Agent_gerritAuth_frame in E as (? & _).
  - destruct (AgentAuth.gitConfigArgs am w) as [[[a e] am'] w'] eqn:E.
    by apply Agent_gitConfigArgs_frame in E as (? & _).
  - destruct (FileAuth.gerritAuth am w) as [[[a e] am'] w'] eqn:E.
    by apply File_gerritAuth_frame in E as (? & _).
  - destruct (FileAuth.gitConfigArgs am w) as [[[a e] am'] w'] eqn:E.
    by apply File_gitConfigArgs_frame in E as (? & _).
Qed.

(** The broker without the agent runs no subprocess and never writes the
    process environment, in none of its operations; before [cleanup] it does
    not log either. *)
Theorem File_broker_runs_nothing (am : FileAuth.authManager) (w : os.World) :
  only_files w (FileAuth.gerritAuth am w).2
  /\ only_files w (FileAuth.gitConfigArgs am w).2
  /\ os.environ (FileAuth.cleanup am w).2 = os.environ w
  /\ os.commands (FileAuth.cleanup am w).2 = os.commands w.
Proof.
  split_and!.
  - destruct (FileAuth.gerritAuth am w) as [[[a e] am'] w'] eqn:E.
    by apply File_gerritAuth_frame in E as (_ & ? & _).
  - destruct (FileAuth.gitConfigArgs am w) as [[[a e] am'] w'] eqn:E.
    by apply File_gitConfigArgs_frame in E as (_ & ? & _).
  - apply File_cleanup_frame.
  - apply File_cleanup_frame.
Qed.

(** The broker with the agent runs a subprocess and writes the process
    environment only for a key: [gerritAuth] never does, [gitConfigArgs]
    does not when no key is configured, and [cleanup] leaves the environment
    alone and runs at most [ssh-agent -k], with the variables that the
    broker recorded appended to its environment. *)
Theorem Agent_broker_runs_only_for_a_key (am : AgentAuth.authManager)
    (w : os.World) :
  only_files w (AgentAuth.gerritAuth am w).2
  /\ (AgentAuth.sshPrivateKey am = EmptyString ->
      only_files w (AgentAuth.gitConfigArgs am w).2)
  /\ os.environ (AgentAuth.cleanup am w).2 = os.environ w
  /\ (os.commands (AgentAuth.cleanup am w).2 = os.commands w
      \/ os.commands (AgentAuth.cleanup am w).2
         = os.commands w
           ++ [{| os.argv := ["ssh-agent"; "-k"];
                  os.env := Some (os.Assign <$> AgentAuth.sshAgentVars am) |}]).
Proof.
  split_and!.
  - destruct (AgentAuth.gerritAuth am w) as [[[a e] am'] w'] eqn:E.
    by apply Agent_gerritAuth_frame in E as (_ & ? & _).
  - destruct (AgentAuth.gitConfigArgs am w) as [[[a e] am'] w'] eqn:E.
    by apply Agent_gitConfigArgs_frame in E as (_ & _ & _ & ?).
  - apply Agent_cleanup_frame.
  - apply Agent_cleanup_frame.
Qed.

(** [cleanup] touches no file but the two that the broker records: every
    other path names after it what it named before. *)
Theorem cleanup_touches_only_recorded_files :
  (forall (am : AgentAuth.authManager) (w : os.World) (q : string),
      q <> AgentAuth.cookiesPath_ am -> q <> AgentAuth.credsPath_ am ->
      os.files (AgentAuth.cleanup am w).2 !! q = os.files w !! q)
  /\
  (forall (am : FileAuth.authManager) (w : os.World) (q : string),
      q <> FileAuth.cookiesPath_ am -> q <> FileAuth.credsPath_ am ->
      os.files (FileAuth.cleanup am w).2 !! q = os.files w !! q).
Proof.
  split; intros am w q.
  - apply Agent_cleanup_frame.
  - apply File_cleanup_frame.
Qed.

(** ** The entries of [gitConfigArgs] *)

Lemma entry_keys (key username cookies : string) (base args : gmap string string) :
  (base = ∅ /\ key = EmptyString /\ username = EmptyString
   \/ (exists v, base = {[ sshCommandKey := v ]}) /\ key <> EmptyString
   \/ (exists v, base = {[ credentialHelperKey := v ]})
      /\ key = EmptyString /\ username <> EmptyString) ->
  (args = base /\ cookies = EmptyString
   \/ (exists p, args = <[cookieFileKey := p]> base) /\ cookies <> EmptyString) ->
  (is_Some (args !! sshCommandKey) <-> key <> EmptyString)
  /\ (is_Some (args !! credentialHelperKey)
      <-> key = EmptyString /\ username <> EmptyString)
  /\ (is_Some (args !! cookieFileKey) <-> cookies <> EmptyString)
  /\ (forall k, is_Some (args !! k) ->
        k = sshCommandKey \/ k = credentialHelperKey \/ k = cookieFileKey).
Proof.
  unfold sshCommandKey, credentialHelperKey, cookieFileKey.
  intros [(Hb & Hk & Hu) | [[[v Hb] Hk] | ([v Hb] & Hk & Hu)]]
         [[Ha Hc] | [[p Ha] Hc]];
    subst; split_and!; try intros k;
    rewrite ?lookup_insert_is_Some, ?lookup_singleton_is_Some, ?lookup_empty,
      ?is_Some_alt;
    intuition (subst; try done; eauto).
Qed.

Lemma Agent_cookieFileArg_shape (base args : gmap string string)
    (am am' : AgentAuth.authManager) (w w' : os.World) (err : option error) :
  AgentAuth.cookieFileArg base am w = (Some args, err, am', w') ->
  args = base /\ AgentAuth.cookies am = EmptyString
  \/ (exists p, args = <[cookieFileKey := p]> base)
     /\ AgentAuth.cookies am <> EmptyString.
Proof.
  unfold AgentAuth.cookieFileArg. compare_strings.
  - destruct (AgentAuth.cookiesPath am w) as [[[p e'] am1] w1].
    destruct e'; intros [= <- _ _ _]. right. eauto.
  - intros [= <- _ _ _]. left. split; [done | by apply dec_stable].
Qed.

Lemma File_cookieFileArg_shape (base args : gmap string string)
    (am am' : FileAuth.authManager) (w w' : os.World) (err : option error) :
  FileAuth.cookieFileArg base am w = (Some args, err, am', w') ->
  args = base /\ FileAuth.cookies am = EmptyString
  \/ (exists p, args = <[cookieFileKey := p]> base)
     /\ FileAuth.cookies am <> EmptyString.
Proof.
  unfold FileAuth.cookieFileArg. compare_strings.
  - destruct (FileAuth.cookiesPath am w) as [[[p e'] am1] w1].
    destruct e'; intros [= <- _ _ _]. right. eauto.
  - intros [= <- _ _ _]. left. split; [done | by apply dec_stable].
Qed.

(** The entries that [gitConfigArgs] returns follow the configuration:
    [core.sshCommand] is set exactly when a key is configured,
    [credential.helper] exactly when there is a user name and no key,
    [http.cookieFile] exactly when there are cookies, and no other key is
    ever set.  So the key and the credential helper never come together. *)
Theorem gitConfigArgs_entries :
  (forall (am am' : AgentAuth.authManager) (w w' : os.World)
          (args : gmap string string) (err : option error),
      AgentAuth.gitConfigArgs am w = (Some args, err, am', w') ->
      (is_Some (args !! sshCommandKey) <-> AgentAuth.sshPrivateKey am <> EmptyString)
      /\ (is_Some (args !! credentialHelperKey)
          <-> AgentAuth.sshPrivateKey am = EmptyString
              /\ AgentAuth.username am <> EmptyString)
      /\ (is_Some (args !! cookieFileKey) <-> AgentAuth.cookies am <> EmptyString)
      /\ (forall k, is_Some (args !! k) ->
            k = sshCommandKey \/ k = credentialHelperKey \/ k = cookieFileKey))
  /\
  (forall (am am' : FileAuth.authManager) (w w' : os.World)
          (args : gmap string string) (err : option error),
      FileAuth.gitConfigArgs am w = (Some args, err, am', w') ->
      (is_Some (args !! sshCommandKey) <-> FileAuth.sshPrivateKey am <> EmptyString)
      /\ (is_Some (args !! credentialHelperKey)
          <-> FileAuth.sshPrivateKey am = EmptyString
              /\ FileAuth.username am <> EmptyString)
      /\ (is_Some (args !! cookieFileKey) <-> FileAuth.cookies am <> EmptyString)
      /\ (forall k, is_Some (args !! k) ->
            k = sshCommandKey \/ k = credentialHelperKey \/ k = cookieFileKey)).
Proof.
  split; intros am am' w w' args err.
  - unfold AgentAuth.gitConfigArgs.
    destruct (decide (AgentAuth.sshPrivateKey am <> EmptyString)) as [Hkey|Hkey].
    + pose proof (sshAddKey_cookies am w) as Hc.
      destruct (AgentAuth.sshAddKey am w) as [[e1 am1] w1]. cbn in Hc.
      intros E. apply Agent_cookieFileArg_shape in E. rewrite Hc in E.
      eapply entry_keys; [|exact E]. right. left. rewrite singleton_entry. eauto.
    + apply dec_stable in Hkey.
      destruct (decide (AgentAuth.username am <> EmptyString)) as [Hu|Hu].
      * destruct (AgentAuth.credsPath am w) as [[[p e1] am1] w1] eqn:E1.
        apply Agent_credsPath_frame in E1 as (_ & _ & C1 & _).
        injection C1 as Hc _ _ _ _ _.
        destruct e1; [done|].
        intros E. apply Agent_cookieFileArg_shape in E. rewrite Hc in E.
        eapply entry_keys; [|exact E]. right. right. rewrite singleton_entry. eauto.
      * apply dec_stable in Hu.
        intros E. apply Agent_cookieFileArg_shape in E.
        eapply entry_keys; [|exact E]. by left.
  - unfold FileAuth.gitConfigArgs.
    destruct (decide (FileAuth.sshPrivateKey am <> EmptyString)) as [Hkey|Hkey].
    + destruct (FileAuth.credsPath am w) as [[[p e1] am1] w1] eqn:E1.
      apply File_credsPath_frame in E1 as (_ & _ & C1 & _).
      injection C1 as Hc _ _ _ _.
      destruct e1; [done|].
      intros E. apply File_cookieFileArg_shape in E. rewrite Hc in E.
      eapply entry_keys; [|exact E]. right. left. rewrite singleton_entry. eauto.
    + apply dec_stable in Hkey.
      destruct (decide (FileAuth.username am <> EmptyString)) as [Hu|Hu].
      * destruct (FileAuth.credsPath am w) as [[[p e1] am1] w1] eqn:E1.
        apply File_credsPath_frame in E1 as (_ & _ & C1 & _).
        injection C1 as Hc _ _ _ _.
        destruct e1; [done|].
        intros E. apply File_cookieFileArg_shape in E. rewrite Hc in E.
        eapply entry_keys; [|exact E]. right. right. rewrite singleton_entry. eauto.
      * apply dec_stable in Hu.
        intros E. apply File_cookieFileArg_shape in E.
        eapply entry_keys; [|exact E]. by left.
Qed.

(** ** Lines of the agent that are no assignments *)

Section AbsentByte.

Import GoStrings.

Variable c : ascii.

Lemma sliceTo_absent (k : nat) (s : string) :
  hasByte c s = false -> hasByte c (sliceTo k s) = false.
Proof.
  revert s. induction k as [|k IH]; intros [|d s]; try done.
  intros [Hd Hs]%hasByte_cons. cbn. by rewrite Hd, IH.
Qed.

Lemma sliceFrom_absent (k : nat) (s : string) :
  hasByte c s = false -> hasByte c (sliceFrom k s) = false.
Proof.
  revert s. induction k as [|k IH]; intros [|d s]; try done.
  intros [Hd Hs]%hasByte_cons. cbn. by apply IH.
Qed.

Lemma cut_absent (k : nat) (s sep : string) (sepSave : nat) :
  hasByte c s = false ->
  Forall (fun piece => hasByte c piece = false) (cut k s sep sepSave).
Proof.
  revert s. induction k as [|k IH]; intros s Hs; cbn [cut].
  - by constructor.
  - destruct (Index s sep); [|by constructor].
    constructor; [by apply sliceTo_absent | by apply IH, sliceFrom_absent].
Qed.

(** The pieces of [Split] hold no byte that the string does not hold. *)
Lemma Split_absent (s sep : string) :
  sep <> EmptyString -> hasByte c s = false ->
  Forall (fun piece => hasByte c piece = false) (Split s sep).
Proof.
  intros Hsep Hs. unfold Split, genSplit.
  destruct (decide (sep = EmptyString)); [done|].
  cbn [Z.eqb]. by apply cut_absent.
Qed.

End AbsentByte.

Lemma scanLine_without_equals (s : string) (st : list string * os.World) :
  GoStrings.hasByte "="%char s = false -> AgentAuth.scanLine s st = st.
Proof.
  intros Hs. unfold AgentAuth.scanLine. destruct st as [vars w].
  pose proof (Split_absent "="%char s ";" ltac:(done) Hs) as Hpieces.
  destruct (GoStrings.Split s ";") as [|a0 rest]; [done|].
  apply Forall_cons in Hpieces as [Ha0 _].
  unfold GoStrings.Contains. by rewrite (Index_absent "="%char a0 Ha0).
Qed.

(** An output of the agent without an equals sign yields no variable and
    leaves the world, the process environment with it, as it is. *)
Theorem scanAgentOutput_without_equals (output : string) (w : os.World) :
  GoStrings.hasByte "="%char output = false ->
  AgentAuth.scanAgentOutput output w = ([], w).
Proof.
  intros Hout. unfold AgentAuth.scanAgentOutput.
  pose proof (Split_absent "="%char output LF ltac:(done) Hout) as Hlines.
  generalize (@nil string).
  induction Hlines as [|s lines Hs _ IH]; intros vars; [done|].
  cbn [foldl]. by rewrite (scanLine_without_equals s (vars, w) Hs).
Qed.

(** ** The key file of [in] over [inParams] *)

Lemma ParamsIn_storePrivateKey_as_auth (params : ParamsResolver.inParams)
    (w : os.World) :
  ParamsIn.storePrivateKey params w
  = (EmptyString,
     (storePrivateKey (ParamsResolver.PrivateKey params) w).1.2,
     (storePrivateKey (ParamsResolver.PrivateKey params) w).2).
Proof.
  unfold ParamsIn.storePrivateKey, storePrivateKey.
  destruct (decide (_ = EmptyString)); [done|].
  destruct (os.TempFile _ _ w) as [[name [e1|]] w1]; [done|].
  destruct (os.Chmod name 384 w1) as [e2 w2].
  destruct (os.Write name _ w2) as [[e3|] w3]; [|done].
  by destruct (os.Truncate name w3) as [e4 w4].
Qed.

(** [storePrivateKey] of src/gerrit/in.go never returns the path of the file
    it writes: its path result is empty in every case.  So the
    [erasePrivateKey] that [in] defers removes nothing, and a key that was
    stored without an error stays on disk in a new file of mode 0600. *)
Theorem ParamsIn_key_file_is_never_erased (params : ParamsResolver.inParams)
    (w w' : os.World) (path : string) (err : option error) :
  ParamsIn.storePrivateKey params w = (path, err, w') ->
  path = EmptyString
  /\ ParamsIn.erasePrivateKey path w' = (None, w')
  /\ (ParamsResolver.PrivateKey params <> EmptyString -> err = None ->
      exists name,
        name <> EmptyString /\ os.files w !! name = None
        /\ os.files w'
           = <[name := privateFile (ParamsResolver.PrivateKey params)]>
               (os.files w)).
Proof.
  rewrite ParamsIn_storePrivateKey_as_auth.
  destruct (storePrivateKey _ w) as [[p e] w1] eqn:E. cbn [fst snd].
  intros [= <- <- <-]. split_and!; [done | done |].
  intros Hkey ->.
  apply (storePrivateKey_spec _ _ _ _ _ Hkey) in E
    as [_ [(_ & ? & _) | (Hp & Hfree & F)]]; [done|].
  by exists p.
Qed.

(** ** [git] and [fetchFlags] *)


(** [fetchFlags] of src/gerrit/in.go does not put the depth into the flag:
    for every positive depth it appends the text [--depth=%v] as it stands,
    and for a depth of zero or less it returns the flags as they are. *)
Theorem fetchFlags_depth (params : ParamsResolver.inParams)
    (flags : list string) :
  (0 < ParamsResolver.Depth params ->
   ParamsIn.fetchFlags params flags = flags ++ ["--depth=%v"])
  /\ (ParamsResolver.Depth params <= 0 ->
      ParamsIn.fetchFlags params flags = flags).
Proof.
  unfold ParamsIn.fetchFlags.
  destruct (Z.ltb_spec 0 (ParamsResolver.Depth params)); split; intros; try done; lia.
Qed.

(** ** The further properties at sample inputs *)

Lemma triple_eta {A B C : Type} (r : A * B * C) : r = (r.1.1, r.1.2, r.2).
Proof. by destruct r as [[a b] c]. Qed.

Lemma result_with_entries {A B C D : Type} (r : option A * B * C * D) (d : A) :
  match r.1.1.1 with Some _ => true | None => false end = true ->
  r = (Some (default d r.1.1.1), r.1.1.2, r.1.2, r.2).
Proof. by destruct r as [[[[a|] e] b] c]. Qed.

Local Abbreviation agent_cookies := (AgentAuth.newAuthManager src_cookies).
Local Abbreviation file_cookies := (FileAuth.newAuthManager src_cookies).
Local Abbreviation cookie_world := (world_of cookie_run_ok).

Lemma gitConfigArgs_cookies_only_witness :
  ((AgentAuth.gitConfigArgs agent_cookies cookie_world).1.1.1
   = Some {[ cookieFileKey :=
               AgentAuth.cookiesPath_
                 (AgentAuth.gitConfigArgs agent_cookies cookie_world).1.2 ]}
   /\ AgentAuth.cookiesPath_
        (AgentAuth.gitConfigArgs agent_cookies cookie_world).1.2 <> EmptyString
   /\ os.files cookie_world
        !! AgentAuth.cookiesPath_
             (AgentAuth.gitConfigArgs agent_cookies cookie_world).1.2 = None
   /\ os.files (AgentAuth.gitConfigArgs agent_cookies cookie_world).2
        !! AgentAuth.cookiesPath_
             (AgentAuth.gitConfigArgs agent_cookies cookie_world).1.2
      = Some (privateFile (AgentAuth.cookies agent_cookies))
   /\ only_files cookie_world
        (AgentAuth.gitConfigArgs agent_cookies cookie_world).2)
  /\
  ((FileAuth.gitConfigArgs file_cookies cookie_world).1.1.1
   = Some {[ cookieFileKey :=
               FileAuth.cookiesPath_
                 (FileAuth.gitConfigArgs file_cookies cookie_world).1.2 ]}
   /\ FileAuth.cookiesPath_
        (FileAuth.gitConfigArgs file_cookies cookie_world).1.2 <> EmptyString
   /\ os.files cookie_world
        !! FileAuth.cookiesPath_
             (FileAuth.gitConfigArgs file_cookies cookie_world).1.2 = None
   /\ os.files (FileAuth.gitConfigArgs file_cookies cookie_world).2
        !! FileAuth.cookiesPath_
             (FileAuth.gitConfigArgs file_cookies cookie_world).1.2
      = Some (privateFile (FileAuth.cookies file_cookies))
   /\ only_files cookie_world
        (FileAuth.gitConfigArgs file_cookies cookie_world).2).
Proof.
  split.
  - apply (proj1 gitConfigArgs_cookies_only agent_cookies _ cookie_world _ _).
    + reflexivity.
    + reflexivity.
    + discriminate.
    + reflexivity.
    + apply result_without_error. vm_compute. reflexivity.
  - apply (proj2 gitConfigArgs_cookies_only file_cookies _ cookie_world _ _).
    + reflexivity.
    + reflexivity.
    + discriminate.
    + reflexivity.
    + apply result_without_error. vm_compute. reflexivity.
Defined.

Lemma gerritAuth_cookies_only_witness :
  (agent_cookie_run.1.1.1
   = Some (gerrit.GitCookieFileAuth (AgentAuth.cookiesPath_ agent_cookie_run.1.2))
   /\ agent_cookie_run.1.2
      = AgentAuth.set_cookiesPath_ (AgentAuth.cookiesPath_ agent_cookie_run.1.2)
          agent_cookies
   /\ AgentAuth.cookiesPath_ agent_cookie_run.1.2 <> EmptyString
   /\ os.files cookie_world !! AgentAuth.cookiesPath_ agent_cookie_run.1.2 = None
   /\ os.files agent_cookie_run.2 !! AgentAuth.cookiesPath_ agent_cookie_run.1.2
      = Some (privateFile (AgentAuth.cookies agent_cookies))
   /\ only_files cookie_world agent_cookie_run.2)
  /\
  (file_cookie_run.1.1.1
   = Some (gerrit.GitCookieFileAuth (FileAuth.cookiesPath_ file_cookie_run.1.2))
   /\ file_cookie_run.1.2
      = FileAuth.set_cookiesPath_ (FileAuth.cookiesPath_ file_cookie_run.1.2)
          file_cookies
   /\ FileAuth.cookiesPath_ file_cookie_run.1.2 <> EmptyString
   /\ os.files cookie_world !! FileAuth.cookiesPath_ file_cookie_run.1.2 = None
   /\ os.files file_cookie_run.2 !! FileAuth.cookiesPath_ file_cookie_run.1.2
      = Some (privateFile (FileAuth.cookies file_cookies))
   /\ only_files cookie_world file_cookie_run.2).
Proof.
  split.
  - apply (proj1 gerritAuth_cookies_only agent_cookies _ cookie_world _ _).
    + reflexivity.
    + reflexivity.
    + discriminate.
    + reflexivity.
    + apply result_without_error. vm_compute. reflexivity.
  - apply (proj2 gerritAuth_cookies_only file_cookies _ cookie_world _ _).
    + reflexivity.
    + reflexivity.
    + discriminate.
    + reflexivity.
    + apply result_without_error. vm_compute. reflexivity.
Defined.


Local Abbreviation agent_basic_run :=
  (AgentAuth.gitConfigArgs (AgentAuth.newAuthManager src_basic)
     (world_of cookie_run_ok)).
Local Abbreviation file_basic_run :=
  (FileAuth.gitConfigArgs (FileAuth.newAuthManager src_basic)
     (world_of cookie_run_ok)).

Lemma gitConfigArgs_credentials_only_witness :
  (agent_basic_run.1.1.1
   = Some {[ credentialHelperKey :=
               "!cat " +:+ AgentAuth.credsPath_ agent_basic_run.1.2 ]}
   /\ AgentAuth.credsPath_ agent_basic_run.1.2 <> EmptyString
   /\ os.files cookie_world !! AgentAuth.credsPath_ agent_basic_run.1.2 = None
   /\ os.files agent_basic_run.2 !! AgentAuth.credsPath_ agent_basic_run.1.2
      = Some (privateFile
                (credentialFile
                   (AgentAuth.username (AgentAuth.newAuthManager src_basic))
                   (AgentAuth.password (AgentAuth.newAuthManager src_basic))))
   /\ only_files cookie_world agent_basic_run.2)
  /\
  (file_basic_run.1.1.1
   = Some {[ credentialHelperKey :=
               "!cat " +:+ FileAuth.credsPath_ file_basic_run.1.2 ]}
   /\ FileAuth.credsPath_ file_basic_run.1.2 <> EmptyString
   /\ os.files cookie_world !! FileAuth.credsPath_ file_basic_run.1.2 = None
   /\ os.files file_basic_run.2 !! FileAuth.credsPath_ file_basic_run.1.2
      = Some (privateFile
                (credentialFile
                   (FileAuth.username (FileAuth.newAuthManager src_basic))
                   (FileAuth.password (FileAuth.newAuthManager src_basic))))
   /\ only_files cookie_world file_basic_run.2).
Proof.
  split.
  - apply (proj1 gitConfigArgs_credentials_only
             (AgentAuth.newAuthManager src_basic) _ cookie_world _ _).
    + reflexivity.
    + discriminate.
    + reflexivity.
    + reflexivity.
    + apply result_without_error. vm_compute. reflexivity.
  - apply (proj2 gitConfigArgs_credentials_only
             (FileAuth.newAuthManager src_basic) _ cookie_world _ _).
    + reflexivity.
    + discriminate.
    + reflexivity.
    + reflexivity.
    + apply result_without_error. vm_compute. reflexivity.
Defined.

Local Abbreviation agent_key := (AgentAuth.newAuthManager src_key).
Local Abbreviation key_world := (world_of key_run_ok).
Local Abbreviation add_key_run := (AgentAuth.sshAddKey agent_key key_world).

Lemma sshAddKey_stores_and_records_witness :
  agent_config add_key_run.1.2 = agent_config agent_key
  /\ AgentAuth.cookiesPath_ add_key_run.1.2 = AgentAuth.cookiesPath_ agent_key
  /\ files_kept key_world add_key_run.2
  /\ os.logged add_key_run.2 = os.logged key_world
  /\ ((add_key_run.1.2 = agent_key /\ only_files key_world add_key_run.2
       /\ add_key_run.1.1 <> None)
      \/ (AgentAuth.credsPath_ add_key_run.1.2 <> EmptyString
          /\ os.files key_world !! AgentAuth.credsPath_ add_key_run.1.2 = None
          /\ os.files add_key_run.2
             = <[AgentAuth.credsPath_ add_key_run.1.2 :=
                   privateFile (AgentAuth.sshPrivateKey agent_key)]>
                 (os.files key_world))).
Proof.
  apply (sshAddKey_stores_and_records agent_key _ key_world _ _).
  - discriminate.
  - apply triple_eta.
Defined.

Lemma File_key_without_username_witness :
  FileAuth.gitConfigArgs (FileAuth.newAuthManager src_key) (world_of [])
  = (Some {[ sshCommandKey :=
               "ssh -i '' -F /dev/null -o StrictHostKeyChecking=no" ]},
     None, FileAuth.newAuthManager src_key, world_of []).
Proof.
  apply (File_key_without_username_is_not_stored
           (FileAuth.newAuthManager src_key) (world_of [])).
  - discriminate.
  - reflexivity.
  - reflexivity.
Defined.

Local Abbreviation file_key_run :=
  (FileAuth.gitConfigArgs (FileAuth.newAuthManager src_bad_user_key)
     (world_of store_run_ok)).

Lemma File_key_is_stored_witness :
  file_key_run.1.1.1
  = Some {[ sshCommandKey :=
              "ssh -i '" +:+ FileAuth.credsPath_ file_key_run.1.2 +:+
              "' -F /dev/null -o StrictHostKeyChecking=no" ]}
  /\ FileAuth.credsPath_ file_key_run.1.2 <> EmptyString
  /\ os.files (world_of store_run_ok) !! FileAuth.credsPath_ file_key_run.1.2
     = None
  /\ os.files file_key_run.2 !! FileAuth.credsPath_ file_key_run.1.2
     = Some (privateFile
               (FileAuth.sshPrivateKey (FileAuth.newAuthManager src_bad_user_key)))
  /\ only_files (world_of store_run_ok) file_key_run.2.
Proof.
  apply (File_key_is_stored (FileAuth.newAuthManager src_bad_user_key) _
           (world_of store_run_ok) _ _).
  - discriminate.
  - discriminate.
  - reflexivity.
  - reflexivity.
  - apply result_without_error. vm_compute. reflexivity.
Defined.

Lemma Agent_broker_runs_only_for_a_key_witness :
  only_files cookie_world (AgentAuth.gitConfigArgs agent_cookies cookie_world).2.
Proof.
  apply (proj1 (proj2 (Agent_broker_runs_only_for_a_key agent_cookies cookie_world))).
  reflexivity.
Defined.

Lemma cleanup_touches_only_recorded_files_witness :
  os.files (AgentAuth.cleanup agent_cookie_run.1.2 agent_cookie_run.2).2
    !! "/etc/passwd"
  = os.files agent_cookie_run.2 !! "/etc/passwd"
  /\
  os.files (FileAuth.cleanup file_cookie_run.1.2 file_cookie_run.2).2
    !! "/etc/passwd"
  = os.files file_cookie_run.2 !! "/etc/passwd".
Proof.
  split.
  - apply (proj1 cleanup_touches_only_recorded_files
             agent_cookie_run.1.2 agent_cookie_run.2 "/etc/passwd").
    + vm_compute. discriminate.
    + vm_compute. discriminate.
  - apply (proj2 cleanup_touches_only_recorded_files
             file_cookie_run.1.2 file_cookie_run.2 "/etc/passwd").
    + vm_compute. discriminate.
    + vm_compute. discriminate.
Defined.

Local Abbreviation agent_key_args := (default ∅ agent_key_run.1.1.1).
Local Abbreviation file_cookie_args :=
  (default ∅ (FileAuth.gitConfigArgs file_cookies cookie_world).1.1.1).

Lemma gitConfigArgs_entries_witness :
  ((is_Some (agent_key_args !! sshCommandKey)
    <-> AgentAuth.sshPrivateKey agent_key <> EmptyString)
   /\ (is_Some (agent_key_args !! credentialHelperKey)
       <-> AgentAuth.sshPrivateKey agent_key = EmptyString
           /\ AgentAuth.username agent_key <> EmptyString)
   /\ (is_Some (agent_key_args !! cookieFileKey)
       <-> AgentAuth.cookies agent_key <> EmptyString)
   /\ (forall k, is_Some (agent_key_args !! k) ->
         k = sshCommandKey \/ k = credentialHelperKey \/ k = cookieFileKey))
  /\
  ((is_Some (file_cookie_args !! sshCommandKey)
    <-> FileAuth.sshPrivateKey file_cookies <> EmptyString)
   /\ (is_Some (file_cookie_args !! credentialHelperKey)
       <-> FileAuth.sshPrivateKey file_cookies = EmptyString
           /\ FileAuth.username file_cookies <> EmptyString)
   /\ (is_Some (file_cookie_args !! cookieFileKey)
       <-> FileAuth.cookies file_cookies <> EmptyString)
   /\ (forall k, is_Some (file_cookie_args !! k) ->
         k = sshCommandKey \/ k = credentialHelperKey \/ k = cookieFileKey)).
Proof.
  split.
  - apply (proj1 gitConfigArgs_entries agent_key agent_key_run.1.2 key_world
             agent_key_run.2 agent_key_args agent_key_run.1.1.2).
    apply result_with_entries. vm_compute. reflexivity.
  - apply (proj2 gitConfigArgs_entries file_cookies
             (FileAuth.gitConfigArgs file_cookies cookie_world).1.2 cookie_world
             (FileAuth.gitConfigArgs file_cookies cookie_world).2
             file_cookie_args
             (FileAuth.gitConfigArgs file_cookies cookie_world).1.1.2).
    apply result_with_entries. vm_compute. reflexivity.
Defined.

Lemma scanAgentOutput_without_equals_witness :
  AgentAuth.scanAgentOutput "echo Agent pid 42;" (world_of [])
  = ([], world_of []).
Proof.
  apply (scanAgentOutput_without_equals "echo Agent pid 42;" (world_of [])).
  reflexivity.
Defined.

Local Abbreviation params_key_run :=
  (ParamsIn.storePrivateKey params_ci (world_of store_run_ok)).

Lemma ParamsIn_key_file_witness :
  params_key_run.1.1 = EmptyString
  /\ ParamsIn.erasePrivateKey params_key_run.1.1 params_key_run.2
     = (None, params_key_run.2)
  /\ exists name,
       name <> EmptyString /\ os.files (world_of store_run_ok) !! name = None
       /\ os.files params_key_run.2
          = <[name := privateFile (ParamsResolver.PrivateKey params_ci)]>
              (os.files (world_of store_run_ok)).
Proof.
  destruct (ParamsIn_key_file_is_never_erased params_ci (world_of store_run_ok)
              params_key_run.2 params_key_run.1.1 params_key_run.1.2
              (triple_eta _)) as (H1 & H2 & H3).
  split_and!; [exact H1 | exact H2 |].
  apply H3; [discriminate | vm_compute; reflexivity].
Defined.

Local Abbreviation git_init_run :=
  (ParamsIn.git "/tmp/build/get" ["init"] (world_of git_run_fails)).


Lemma fetchFlags_depth_witness :
  ParamsIn.fetchFlags params_user_http ["fetch"; "origin"; "refs/changes/01/1/1"]
  = ["fetch"; "origin"; "refs/changes/01/1/1"] ++ ["--depth=%v"]
  /\ ParamsIn.fetchFlags params_url ["fetch"; "origin"; "refs/changes/01/1/1"]
     = ["fetch"; "origin"; "refs/changes/01/1/1"].
Proof.
  split.
  - apply (proj1 (fetchFlags_depth params_user_http _)). reflexivity.
  - apply (proj2 (fetchFlags_depth params_url _)). discriminate.
Defined.

(** ** More on the temporary files and on a fresh broker *)


Local Abbreviation store_no_write_run :=
  (storePrivateKey "KEY" (world_of key_run_no_write)).



Local Abbreviation write_no_file_run :=
  (writeAuthTempFile "concourse-gerrit-cookies" "cookie"
     (world_of key_run_no_file)).


(** [cleanup] of a broker that has just been constructed does nothing: the
    broker and the world are returned as they are, whatever the
    configuration. *)
Theorem cleanup_of_a_new_broker (source : Source) (w : os.World) :
  AgentAuth.cleanup (AgentAuth.newAuthManager source) w
  = (AgentAuth.newAuthManager source, w)
  /\ FileAuth.cleanup (FileAuth.newAuthManager source) w
     = (FileAuth.newAuthManager source, w).
Proof.
  split; [by apply Agent_cleanup_idle | by apply File_cleanup_idle].
Qed.
